(** * Box Storage: a shallow embedding of [app.py]

    The Flask application keeps one markdown file per box under
    [BOXES_DIR] and one directory of photos per box under [PHOTOS_DIR].
    This development embeds

    - the Python string operations the handlers use ([strip], [lstrip],
      [split], [rsplit], [lower], [in], formatting with [:03d]),
    - [pathlib]'s path joining, [stem], [suffix] and [glob],
    - a POSIX-like file system with the exceptions the calls can raise,
    - every helper and every route handler of [app.py],

    and states the properties of the specification about them. *)

From Stdlib Require Import Ascii String DecimalString DecimalNat DecimalFacts.
From stdpp Require Import gmap strings list sorting.

Local Open Scope stdpp_scope.

(** ** Python strings

    A Python [str] is a sequence of code points.  The model covers the
    code points below 256, one [ascii] each. *)

Module Py.

Definition NUL : ascii := "000"%char.
Definition LF : ascii := "010"%char.
Definition CR : ascii := "013"%char.
Definition nl : string := String LF "".

Definition code (c : ascii) : nat := nat_of_ascii c.

(** [len(os.fsencode(s))]: the length of [s] in UTF-8, which takes one
    byte for a code point below 128 and two for the others below 256. *)
Fixpoint fsencode_length (s : string) : nat :=
  match s with
  | EmptyString => 0
  | String c r => (if code c <? 128 then 1 else 2) + fsencode_length r
  end.

(** [str.isspace] on one code point below 256: the characters with
    bidirectional type WS, B or S, or of category Zs. *)
Definition isspace (c : ascii) : bool :=
  let n := code c in
  ((9 <=? n) && (n <=? 13)) || ((28 <=? n) && (n <=? 32))
  || (n =? 133) || (n =? 160).

(** [str.lower] on one code point below 256: A-Z and the Latin-1
    capitals (all of 192..222 except the multiplication sign 215). *)
Definition lower_char (c : ascii) : ascii :=
  let n := code c in
  if ((65 <=? n) && (n <=? 90))
     || ((192 <=? n) && (n <=? 222) && negb (n =? 215))
  then ascii_of_nat (n + 32) else c.

Fixpoint lower (s : string) : string :=
  match s with
  | "" => ""
  | String c r => String (lower_char c) (lower r)
  end.

(** [c in chars] for a one-character [c]. *)
Fixpoint mem_char (c : ascii) (chars : string) : bool :=
  match chars with
  | "" => false
  | String d r => if Ascii.eqb c d then true else mem_char c r
  end.

(** [s.lstrip(...)], [s.rstrip(...)], [s.strip(...)], with the set of
    characters to remove given as a predicate. *)
Fixpoint lstrip_by (p : ascii → bool) (s : string) : string :=
  match s with
  | "" => ""
  | String c r => if p c then lstrip_by p r else s
  end.

Fixpoint rstrip_by (p : ascii → bool) (s : string) : string :=
  match s with
  | "" => ""
  | String c r =>
      match rstrip_by p r with
      | "" => if p c then "" else String c ""
      | r' => String c r'
      end
  end.

Definition strip_by (p : ascii → bool) (s : string) : string :=
  lstrip_by p (rstrip_by p s).

(** [s.strip()], [s.lstrip(chars)], [s.rstrip(chars)], [s.strip(chars)]. *)
Definition strip (s : string) : string := strip_by isspace s.
Definition lstrip (chars s : string) : string :=
  lstrip_by (λ c, mem_char c chars) s.
Definition rstrip (chars s : string) : string :=
  rstrip_by (λ c, mem_char c chars) s.
Definition strip_chars (chars s : string) : string :=
  strip_by (λ c, mem_char c chars) s.

(** [s.split(sep)] for a one-character separator: never the empty list. *)
Fixpoint split (sep : ascii) (s : string) : list string :=
  match s with
  | "" => [""]
  | String c r =>
      if Ascii.eqb c sep then "" :: split sep r
      else match split sep r with
           | h :: t => String c h :: t
           | [] => [String c ""]
           end
  end.

(** [s.rsplit(sep, 1)]: [None] stands for the one-element list [[s]]
    (no separator in [s]), [Some (h, t)] for the list [[h, t]] cut at
    the last separator. *)
Fixpoint rsplit1 (sep : ascii) (s : string) : option (string * string) :=
  match s with
  | "" => None
  | String c r =>
      match rsplit1 sep r with
      | Some (h, t) => Some (String c h, t)
      | None => if Ascii.eqb c sep then Some ("", r) else None
      end
  end.

(** [s.split()]: the maximal runs of characters that are not white space. *)
Fixpoint words_go (cur : option string) (s : string) : list string :=
  match s with
  | "" => option_list (String.rev <$> cur)
  | String c r =>
      if isspace c
      then option_list (String.rev <$> cur) ++ words_go None r
      else words_go (Some (String c (default "" cur))) r
  end.
Definition words (s : string) : list string := words_go None s.

(** [sep.join(l)]. *)
Fixpoint join (sep : string) (l : list string) : string :=
  match l with
  | [] => ""
  | [x] => x
  | x :: r => x +:+ sep +:+ join sep r
  end.

(** [s.replace(a, b)] for one-character [a] and [b]. *)
Fixpoint replace_char (a b : ascii) (s : string) : string :=
  match s with
  | "" => ""
  | String c r => String (if Ascii.eqb c a then b else c) (replace_char a b r)
  end.

Fixpoint filter_chars (p : ascii → bool) (s : string) : string :=
  match s with
  | "" => ""
  | String c r => if p c then String c (filter_chars p r) else filter_chars p r
  end.

(** [q in s] for strings: [q] occurs in [s] as a substring. *)
Fixpoint contains (q s : string) : bool :=
  String.prefix q s
  || match s with
     | "" => false
     | String _ r => contains q r
     end.

(** [s.endswith(suf)]. *)
Fixpoint endswith (suf s : string) : bool :=
  if String.eqb s suf then true
  else match s with
       | "" => false
       | String _ r => endswith suf r
       end.

Definition startswith (pre s : string) : bool := String.prefix pre s.

(** [str(n)] and [format(n, "0wd")] for a natural number. *)
Definition str_of_nat (n : nat) : string :=
  NilEmpty.string_of_uint (Nat.to_uint n).

Fixpoint zeros (k : nat) : string :=
  match k with
  | 0 => ""
  | S k' => String "0"%char (zeros k')
  end.

Definition zfill (w : nat) (s : string) : string :=
  zeros (w - String.length s) +:+ s.

Definition format_0wd (w n : nat) : string := zfill w (str_of_nat n).

(** Text-mode reading with [newline=None] (universal newlines): every
    CR LF pair and every lone CR comes back as one LF. *)
Fixpoint universal_newlines (s : string) : string :=
  match s with
  | "" => ""
  | String c r =>
      if Ascii.eqb c CR then
        match r with
        | String d r' =>
            if Ascii.eqb d LF then String LF (universal_newlines r')
            else String LF (universal_newlines r)
        | "" => String LF ""
        end
      else String c (universal_newlines r)
  end.

End Py.

(** ** Paths ([pathlib.PurePosixPath])

    A path is kept as [pathlib] keeps it: the parts after parsing, which
    drops empty and ["."] components and keeps [".."].  [anchor] is the
    absolute, already resolved location the parts are relative to (the
    data directory for every path the application builds). *)

Record Path := mkPath { anchor : list string; parts : list string }.

Definition path_parts (s : string) : list string :=
  filter (λ c, c ≠ "" ∧ c ≠ ".") (Py.split "/"%char s).

(** [p / s]: an absolute [s] replaces [p]. *)
Definition joinpath (p : Path) (s : string) : Path :=
  if Py.startswith "/" s then mkPath [] (path_parts s)
  else mkPath (anchor p) (parts p ++ path_parts s).

Notation "p </> s" := (joinpath p s) (at level 40, left associativity).

(** [Path.name], [Path.suffix] and [Path.stem]: with [i = name.rfind('.')],
    the suffix is [name[i:]] and the stem [name[:i]] when
    [0 < i < len(name) - 1], else the suffix is empty and the stem is the
    name.  [rsplit1] cuts at that same last dot, [h = name[:i]] and
    [t = name[i+1:]]. *)
Definition name (p : Path) : string :=
  default "" (last (anchor p ++ parts p)).

Definition has_suffix (h t : string) : bool :=
  negb (String.eqb h "") && negb (String.eqb t "").

Definition suffix_of (nm : string) : string :=
  match Py.rsplit1 "."%char nm with
  | Some (h, t) => if has_suffix h t then "." +:+ t else ""
  | None => ""
  end.

Definition stem_of (nm : string) : string :=
  match Py.rsplit1 "."%char nm with
  | Some (h, t) => if has_suffix h t then h else nm
  | None => nm
  end.

Definition suffix (p : Path) : string := suffix_of (name p).
Definition stem (p : Path) : string := stem_of (name p).

(** The two [glob] patterns of the application, matched against one
    directory entry name as [fnmatch] does. *)
Inductive pattern := AnyName | StarDotMd.

Definition pattern_match (pat : pattern) (nm : string) : bool :=
  match pat with
  | AnyName => true
  | StarDotMd => Py.endswith ".md" nm
  end.

(** ** The file system

    A finite map from absolute locations (the list of names from the
    root) to nodes.  A regular file carries the data written to it and
    its modification time.  A name is refused when it holds a NUL
    character (by Python, before any system call) or is longer than
    [NAME_MAX] bytes (by the lookup of the kernel).  The path of the
    data directory itself is taken as given: it is not checked, and it
    is short enough for the paths below it to stay within [PATH_MAX].
    There are no symbolic links, and no call fails for lack of
    permission or space. *)

Inductive node :=
  | File (content : string) (mtime : nat)
  | Dir.

Global Instance node_eq_dec : EqDecision node.
Proof. solve_decision. Defined.

Abbreviation FS := (gmap (list string) node).

Inductive exn :=
  | FileNotFoundError
  | NotADirectoryError
  | IsADirectoryError
  | FileExistsError
  | DirectoryNotEmpty      (* OSError, ENOTEMPTY *)
  | NameTooLong            (* OSError, ENAMETOOLONG *)
  | ValueError             (* embedded null byte *)
  | DataOverflowError      (* qrcode: the data does not fit a symbol *)
  | LoopBound.             (* the bound of a modelled [while] was reached *)

Inductive outcome (A : Type) :=
  | Ok (a : A)
  | Raise (e : exn).
Arguments Ok {A} a.
Arguments Raise {A} e.

(** The longest name of a directory entry, in bytes (ext4, tmpfs and
    most other file systems of Linux). *)
Definition NAME_MAX : nat := 255.

(** The names that can be looked up: no NUL and at most [NAME_MAX]
    bytes. *)
Definition has_nul (nm : string) : bool := Py.mem_char Py.NUL nm.
Definition too_long (nm : string) : bool := NAME_MAX <? Py.fsencode_length nm.
Definition fs_name (nm : string) : bool := negb (has_nul nm) && negb (too_long nm).

(** Path resolution as the kernel does it: every component is looked up
    in a directory, which refuses a name that is too long; [".."] moves
    to the parent (the root is its own parent). *)
Fixpoint walk (fs : FS) (cur : list string) (ps : list string)
  : outcome (list string) :=
  match ps with
  | [] => Ok cur
  | c :: rest =>
      match fs !! cur with
      | Some Dir =>
          if too_long c then Raise NameTooLong
          else walk fs (if String.eqb c ".." then removelast cur
                        else cur ++ [c]) rest
      | Some (File _ _) => Raise NotADirectoryError
      | None => Raise FileNotFoundError
      end
  end.

(** Every call on a path first turns it into bytes, which fails with
    [ValueError] on a NUL character, and then has the kernel resolve
    it. *)
Definition locate (fs : FS) (p : Path) : outcome (list string) :=
  if existsb has_nul (parts p) then Raise ValueError
  else walk fs (anchor p) (parts p).

Definition is_dir_at (fs : FS) (l : list string) : bool :=
  match fs !! l with Some Dir => true | _ => false end.

(** The names of the entries of the directory at [l]. *)
Definition child_name (l k : list string) : option string :=
  match last k with
  | Some n => if decide (removelast k = l) then Some n else None
  | None => None
  end.

Definition children (fs : FS) (l : list string) : list string :=
  omap (λ kv, child_name l kv.1) (map_to_list fs).

(** ** Computations: a state and exception monad over the file system.
    An exception leaves the effects made before it in place. *)

Definition M (A : Type) : Type := FS → FS * outcome A.

Definition ret {A} (a : A) : M A := λ fs, (fs, Ok a).
Definition raise {A} (e : exn) : M A := λ fs, (fs, Raise e).
Definition bind {A B} (m : M A) (k : A → M B) : M B :=
  λ fs, match m fs with
        | (fs', Ok a) => k a fs'
        | (fs', Raise e) => (fs', Raise e)
        end.

Notation "'let*' x ':=' m 'in' k" := (bind m (λ x, k))
  (at level 10, x name, m at level 100, k at level 200,
   format "'[v' 'let*'  x  :=  m  'in'  '/' k ']'").
Notation "m >> k" := (bind m (λ _, k))
  (at level 100, k at level 200, right associativity,
   format "'[v' m  >>  '/' k ']'").

(** The file system after running [m], and what [m] returns or raises. *)
Definition exec {A} (m : M A) (fs : FS) : FS := (m fs).1.
Definition eval {A} (m : M A) (fs : FS) : outcome A := (m fs).2.

(** [for x in l: body(x)]. *)
Fixpoint for_each {A} (l : list A) (body : A → M unit) : M unit :=
  match l with
  | [] => ret tt
  | x :: r => body x >> for_each r body
  end.

(** [[f(x) for x in l]]. *)
Fixpoint for_collect {A B} (l : list A) (f : A → M B) : M (list B) :=
  match l with
  | [] => ret []
  | x :: r => let* y := f x in let* ys := for_collect r f in ret (y :: ys)
  end.

Definition when (b : bool) (m : M unit) : M unit := if b then m else ret tt.

(** *** The [pathlib.Path] methods the application calls *)

(** [p.exists()] as CPython 3.11 has it: [stat], with [ValueError] and
    the errors ENOENT and ENOTDIR turned into [False]; any other error
    is raised. *)
Definition path_exists (p : Path) : M bool := λ fs,
  match locate fs p with
  | Ok l => (fs, Ok (bool_decide (is_Some (fs !! l))))
  | Raise NameTooLong => (fs, Raise NameTooLong)
  | Raise _ => (fs, Ok false)
  end.

(** The calls below raise what the resolution of their path raises:
    [ValueError] for a name with a NUL character, [NameTooLong] for a
    name that is too long, [FileNotFoundError] and
    [NotADirectoryError] for a missing or wrong directory on the
    way. *)

(** [p.read_text()]. *)
Definition read_text (p : Path) : M string := λ fs,
  match locate fs p with
  | Ok l =>
      match fs !! l with
      | Some (File c _) => (fs, Ok (Py.universal_newlines c))
      | Some Dir => (fs, Raise IsADirectoryError)
      | None => (fs, Raise FileNotFoundError)
      end
  | Raise e => (fs, Raise e)
  end.

(** Opening [p] for reading in binary mode and reading it all. *)
Definition read_bytes (p : Path) : M string := λ fs,
  match locate fs p with
  | Ok l =>
      match fs !! l with
      | Some (File c _) => (fs, Ok c)
      | Some Dir => (fs, Raise IsADirectoryError)
      | None => (fs, Raise FileNotFoundError)
      end
  | Raise e => (fs, Raise e)
  end.

(** Opening [p] for writing (create or truncate) at time [now] and
    writing [data]: [p.write_text(data)] and [file.save(p)].  Nothing
    is written under a name that is refused. *)
Definition write_file (p : Path) (data : string) (now : nat) : M unit := λ fs,
  match locate fs p with
  | Ok l =>
      match fs !! l with
      | Some Dir => (fs, Raise IsADirectoryError)
      | Some (File _ _) => (<[l := File data now]> fs, Ok tt)
      | None =>
          if is_dir_at fs (removelast l)
          then (<[l := File data now]> fs, Ok tt)
          else (fs, Raise FileNotFoundError)
      end
  | Raise e => (fs, Raise e)
  end.

(** [p.stat().st_mtime] of a regular file; directories carry no time
    in the model and the application never asks for one. *)
Definition stat_mtime (p : Path) : M nat := λ fs,
  match locate fs p with
  | Ok l =>
      match fs !! l with
      | Some (File _ t) => (fs, Ok t)
      | Some Dir => (fs, Ok 0)
      | None => (fs, Raise FileNotFoundError)
      end
  | Raise e => (fs, Raise e)
  end.

(** [p.unlink()]; unlinking a directory fails (with EISDIR on Linux). *)
Definition unlink (p : Path) : M unit := λ fs,
  match locate fs p with
  | Ok l =>
      match fs !! l with
      | Some (File _ _) => (delete l fs, Ok tt)
      | Some Dir => (fs, Raise IsADirectoryError)
      | None => (fs, Raise FileNotFoundError)
      end
  | Raise e => (fs, Raise e)
  end.

(** [p.mkdir(exist_ok=True)]: no [parents=True].  An error of
    [os.mkdir] other than [FileNotFoundError] is raised again unless
    [p.is_dir()]; no directory is made under a name that is refused. *)
Definition mkdir_exist_ok (p : Path) : M unit := λ fs,
  match locate fs p with
  | Ok l =>
      match fs !! l with
      | Some Dir => (fs, Ok tt)
      | Some (File _ _) => (fs, Raise FileExistsError)
      | None =>
          if is_dir_at fs (removelast l)
          then (<[l := Dir]> fs, Ok tt)
          else (fs, Raise FileNotFoundError)
      end
  | Raise e => (fs, Raise e)
  end.

(** [p.rmdir()]. *)
Definition rmdir (p : Path) : M unit := λ fs,
  match locate fs p with
  | Ok l =>
      match fs !! l with
      | Some Dir =>
          match children fs l with
          | [] => (delete l fs, Ok tt)
          | _ :: _ => (fs, Raise DirectoryNotEmpty)
          end
      | Some (File _ _) => (fs, Raise NotADirectoryError)
      | None => (fs, Raise FileNotFoundError)
      end
  | Raise e => (fs, Raise e)
  end.

(** [list(p.glob(pat))] for a one-level pattern: nothing unless
    [p.is_dir()], which treats errors as [p.exists()] does; otherwise
    the matching entries, as children of [p], in the order the
    directory scan yields them (unspecified; here the order of the
    map's entries). *)
Definition glob (p : Path) (pat : pattern) : M (list Path) := λ fs,
  match locate fs p with
  | Ok l =>
      (fs, Ok (if is_dir_at fs l
               then (λ n, mkPath (anchor p) (parts p ++ [n]))
                      <$> filter (λ n, pattern_match pat n = true)
                                 (children fs l)
               else []))
  | Raise NameTooLong => (fs, Raise NameTooLong)
  | Raise _ => (fs, Ok [])
  end.

(** ** The application *)

(** A [datetime], as far as [strftime('%Y%m%d_%H%M%S')] reads it. *)
Record datetime := mkDatetime {
  year : nat; month : nat; day : nat;
  hour : nat; minute : nat; second : nat
}.

(** [t.strftime('%Y%m%d_%H%M%S')]: every field in decimal, padded with
    zeros to four digits for the year and to two for the others. *)
Definition strftime_Ymd_HMS (t : datetime) : string :=
  Py.format_0wd 4 (year t) +:+ Py.format_0wd 2 (month t)
  +:+ Py.format_0wd 2 (day t) +:+ "_" +:+ Py.format_0wd 2 (hour t)
  +:+ Py.format_0wd 2 (minute t) +:+ Py.format_0wd 2 (second t).

(** An uploaded file ([werkzeug.datastructures.FileStorage]). *)
Record upload := mkUpload { filename : string; data : string }.

Inductive method := GET | POST.

(** The dictionaries the listing and the search hand to the templates. *)
Record box_entry := mkBox {
  id : string; title : string; modified : nat
}.

Record search_result := mkResult {
  result_id : string; result_title : string; preview : list string
}.

Global Instance box_entry_eq_dec : EqDecision box_entry.
Proof. solve_decision. Defined.

(** [url_for] targets and the responses of the handlers.  A rendered
    template is kept as its name and context. *)
Inductive endpoint :=
  | Ep_index
  | Ep_view_box (box_id : string)
  | Ep_edit_box (box_id : string).

Inductive response :=
  | Render_index (boxes : list box_entry)
  | Render_box (box_id content qr_base64 qr_url : string) (photos : list string)
  | Render_edit (box_id content : string)
  | Render_search (query : string) (results : list search_result)
  | Redirect (target : endpoint)
  | Send_file (body : string)
  | Send_png (body download_name : string)
  | Not_found_404.

(** The characters [secure_filename] keeps: [A-Za-z0-9_.-]. *)
Definition filename_ascii_ok (c : ascii) : bool :=
  let n := Py.code c in
  ((65 <=? n) && (n <=? 90)) || ((97 <=? n) && (n <=? 122))
  || ((48 <=? n) && (n <=? 57)) || Py.mem_char c "_.-".

Section App.

(** The resolved location of [DATA_PATH] (or of the application's own
    directory), and the three library functions taken as they are: the
    QR encoder with PNG rendering ([None] when the data does not fit),
    base64, and [unicodedata.normalize("NFKD", s)] followed by
    [encode("ascii", "ignore")]. *)
Variable DATA_DIR : list string.
Variable qrcode_png : string → option string.
Variable b64encode : string → string.
Variable nfkd_ascii : string → string.

Definition DATA : Path := mkPath DATA_DIR [].
Definition BOXES_DIR : Path := DATA </> "boxes".
Definition PHOTOS_DIR : Path := DATA </> "photos".

(** The two [mkdir(exist_ok=True)] calls at import time. *)
Definition startup : M unit :=
  mkdir_exist_ok BOXES_DIR >> mkdir_exist_ok PHOTOS_DIR.

Definition ALLOWED_EXTENSIONS : gset string :=
  {[ "png"; "jpg"; "jpeg"; "gif"; "webp" ]}.

Definition allowed_file (filename : string) : bool :=
  Py.contains "." filename
  && match Py.rsplit1 "."%char filename with
     | Some (_, ext) => bool_decide (Py.lower ext ∈ ALLOWED_EXTENSIONS)
     | None => false
     end.

(** [sorted] on paths of one directory compares their names. *)
Definition path_le (p q : Path) : Prop := String.le (name p) (name q).

Global Instance path_le_dec : RelDecision path_le.
Proof. intros p q. unfold path_le. apply _. Defined.

Definition get_box_photos (box_id : string) : M (list string) :=
  let box_photos_dir := PHOTOS_DIR </> box_id in
  let* e := path_exists box_photos_dir in
  if negb e then ret []
  else
    let* fs := glob box_photos_dir AnyName in
    ret (name <$>
         filter (λ f, Py.lstrip "." (Py.lower (suffix f)) ∈ ALLOWED_EXTENSIONS)
                (merge_sort path_le fs)).

(** The title expression shared by [get_all_boxes] and [search]:
    [lines[0].lstrip('# ').strip() if lines else box_id]. *)
Definition title_of_lines (lines : list string) (box_id : string) : string :=
  match lines with
  | l0 :: _ => Py.strip (Py.lstrip "# " l0)
  | [] => box_id
  end.

Definition newer_first (x y : box_entry) : Prop := modified y ≤ modified x.

Global Instance newer_first_dec : RelDecision newer_first.
Proof. intros x y. unfold newer_first. apply _. Defined.

Definition get_all_boxes : M (list box_entry) :=
  let* fs := glob BOXES_DIR StarDotMd in
  let* boxes := for_collect fs (λ f,
    let box_id := stem f in
    let* content := read_text f in
    let lines := Py.split Py.LF (Py.strip content) in
    let title := title_of_lines lines box_id in
    let* mtime := stat_mtime f in
    ret (mkBox box_id title mtime)) in
  ret (merge_sort newer_first boxes).

Definition box_file (box_id : string) : Path :=
  BOXES_DIR </> (box_id +:+ ".md").

Definition get_box_content (box_id : string) : M (option string) :=
  let* e := path_exists (box_file box_id) in
  if e then let* c := read_text (box_file box_id) in ret (Some c)
  else ret None.

Definition save_box_content (box_id content : string) (now : nat) : M unit :=
  write_file (box_file box_id) content now.

(** [f"box-{counter:03d}"]. *)
Definition box_name (counter : nat) : string :=
  "box-" +:+ Py.format_0wd 3 counter.

(** The [while] loop of [generate_box_id], run for at most [fuel]
    tests of its condition. *)
Fixpoint scan (existing : gset string) (fuel counter : nat) : option nat :=
  match fuel with
  | 0 => None
  | S fuel' =>
      if decide (box_name counter ∈ existing)
      then scan existing fuel' (S counter)
      else Some counter
  end.

Definition generate_box_id : M string :=
  let* fs := glob BOXES_DIR StarDotMd in
  let existing : gset string := list_to_set (stem <$> fs) in
  match scan existing (S (size existing)) 1 with
  | Some counter => ret (box_name counter)
  | None => raise LoopBound
  end.

Definition qr_image (url : string) : M string :=
  match qrcode_png url with
  | Some png => ret png
  | None => raise DataOverflowError
  end.

Definition generate_qr_code (url : string) : M string :=
  let* png := qr_image url in ret (b64encode png).

(** The content a new box starts with. *)
Definition template (box_id : string) : string :=
  "# " +:+ box_id +:+ Py.nl +:+ Py.nl
  +:+ "## Contents" +:+ Py.nl +:+ Py.nl
  +:+ "- " +:+ Py.nl +:+ Py.nl
  +:+ "## Location" +:+ Py.nl +:+ Py.nl +:+ Py.nl
  +:+ "## Notes" +:+ Py.nl +:+ Py.nl.

Definition index : M response :=
  let* boxes := get_all_boxes in ret (Render_index boxes).

Definition view_box (box_id host_url : string) (now : nat) : M response :=
  let* found := get_box_content box_id in
  let* content := match found with
            | None =>
                let content := template box_id in
                save_box_content box_id content now >> ret content
            | Some content => ret content
            end in
  let host := Py.rstrip "/" host_url in
  let qr_url := host +:+ "/box/" +:+ box_id in
  let* qr_base64 := generate_qr_code qr_url in
  let* photos := get_box_photos box_id in
  ret (Render_box box_id content qr_base64 qr_url photos).

(** [form_content] is [request.form.get('content')]. *)
Definition edit_box (box_id : string) (m : method)
    (form_content : option string) (now : nat) : M response :=
  match m with
  | POST =>
      let content := default "" form_content in
      save_box_content box_id content now >>
      ret (Redirect (Ep_view_box box_id))
  | GET =>
      let* found := get_box_content box_id in
      let content := match found with
                     | None => template box_id
                     | Some content => content
                     end in
      ret (Render_edit box_id content)
  end.

Definition download_qr (box_id host_url : string) : M response :=
  let host := Py.rstrip "/" host_url in
  let qr_url := host +:+ "/box/" +:+ box_id in
  let* png := qr_image qr_url in
  ret (Send_png png (box_id +:+ "-qr.png")).

Definition new_box : M response :=
  let* box_id := generate_box_id in ret (Redirect (Ep_edit_box box_id)).

(** [q] is [request.args.get('q')]. *)
Definition search (q : option string) : M response :=
  let query := Py.lower (default "" q) in
  let* results :=
    (if negb (String.eqb query "") then
       let* fs := glob BOXES_DIR StarDotMd in
       let* found := for_collect fs (λ f,
         let* content := read_text f in
         if Py.contains query (Py.lower content) then
           let box_id := stem f in
           let lines := Py.split Py.LF (Py.strip content) in
           let title := title_of_lines lines box_id in
           let matching_lines :=
             take 3 (Py.strip <$>
                     filter (λ l, Py.contains query (Py.lower l) = true) lines) in
           ret [mkResult box_id title matching_lines]
         else ret []) in
       ret (concat found)
     else ret []) in
  ret (Render_search query results).

(** [photo] is [request.files.get('photo')]; [now] is [datetime.now()]
    and [clock] the time the written file is stamped with. *)
Definition upload_photo (box_id : string) (photo : option upload)
    (now : datetime) (clock : nat) : M response :=
  match photo with
  | None => ret (Redirect (Ep_view_box box_id))
  | Some file =>
      if String.eqb (filename file) "" then ret (Redirect (Ep_view_box box_id))
      else
        when (negb (String.eqb (filename file) "") && allowed_file (filename file))
          (let box_photos_dir := PHOTOS_DIR </> box_id in
           mkdir_exist_ok box_photos_dir >>
           let ext := match Py.rsplit1 "."%char (filename file) with
                      | Some (_, e) => Py.lower e
                      | None => ""
                      end in
           let timestamp := strftime_Ymd_HMS now in
           let filename := timestamp +:+ "." +:+ ext in
           write_file (box_photos_dir </> filename) (data file) clock) >>
        ret (Redirect (Ep_view_box box_id))
  end.

(** [werkzeug.utils.secure_filename], POSIX branch. *)
Definition secure_filename (filename : string) : string :=
  let filename := nfkd_ascii filename in
  let filename := Py.replace_char "/"%char " "%char filename in
  Py.strip_chars "._"
    (Py.filter_chars filename_ascii_ok (Py.join "_" (Py.words filename))).

Definition photo_path (box_id filename : string) : Path :=
  PHOTOS_DIR </> box_id </> secure_filename filename.

Definition get_photo (box_id filename : string) : M response :=
  let* e := path_exists (photo_path box_id filename) in
  if e then let* body := read_bytes (photo_path box_id filename) in ret (Send_file body)
  else ret Not_found_404.

Definition delete_photo (box_id filename : string) : M response :=
  let* e := path_exists (photo_path box_id filename) in
  when e (unlink (photo_path box_id filename)) >>
  ret (Redirect (Ep_view_box box_id)).

Definition delete_box (box_id : string) : M response :=
  let* e := path_exists (box_file box_id) in
  when e (unlink (box_file box_id)) >>
  let box_photos_dir := PHOTOS_DIR </> box_id in
  let* e := path_exists box_photos_dir in
  when e (let* photos := glob box_photos_dir AnyName in
          for_each photos unlink >>
          rmdir box_photos_dir) >>
  ret (Redirect Ep_index).

End App.

(** ** Notions for the statements *)

Import Py.

(** A URL path segment as the default converter of the router accepts
    it: not empty and without a slash. *)
Definition route_segment (s : string) : bool :=
  negb (String.eqb s "") && negb (mem_char "/"%char s).

(** An id that is an ordinary name: a path segment other than [.] and
    [..]. *)
Definition ordinary_id (box_id : string) : bool :=
  route_segment box_id
  && negb (String.eqb box_id ".") && negb (String.eqb box_id "..").

Fixpoint forall_chars (q : ascii → bool) (s : string) : bool :=
  match s with
  | "" => true
  | String c r => q c && forall_chars q r
  end.

Definition is_digit (c : ascii) : bool :=
  (48 <=? code c) && (code c <=? 57).

(** The characters of a stored photo name: digits, the underscore, the
    dot and the letters of the allowed extensions. *)
Definition stored_char (c : ascii) : bool :=
  is_digit c || mem_char c "_.pngjeifwb".

(** Reading in text mode, in the words of the documentation of [open]:
    the line endings CR LF and CR are translated into LF.  Every CR LF
    pair is replaced first, then every CR that is left. *)
Fixpoint crlf_to_lf (s : string) : string :=
  match s with
  | "" => ""
  | String c r =>
      match r with
      | String d r' =>
          if Ascii.eqb c CR && Ascii.eqb d LF
          then String LF (crlf_to_lf r')
          else String c (crlf_to_lf r)
      | "" => String c ""
      end
  end.

Fixpoint cr_to_lf (s : string) : string :=
  match s with
  | "" => ""
  | String c r => String (if Ascii.eqb c CR then LF else c) (cr_to_lf r)
  end.

Definition read_as_text (s : string) : string := cr_to_lf (crlf_to_lf s).

(** The characters of a box id that its title keeps: no white space
    and no [#]. *)
Definition plain_char (c : ascii) : bool :=
  negb (isspace c) && negb (Ascii.eqb c "#").

(** Reading a decimal numeral back. *)
Definition read_nat (s : string) : option nat :=
  Nat.of_uint <$> NilEmpty.uint_of_string s.

(** [d] is the decimal numeral of [k] written with exactly [w] digits. *)
Definition numeral (w : nat) (d : string) (k : nat) : Prop :=
  String.length d = w ∧ read_nat d = Some k.

(** [d] is the decimal numeral of [k] padded with zeros to [w] digits:
    it has [w] digits or more, and no zero in front when it has
    more. *)
Definition padded_numeral (w : nat) (d : string) (k : nat) : Prop :=
  w ≤ String.length d ∧ read_nat d = Some k
  ∧ (w < String.length d → String.prefix "0" d = false).

(** A date and a time of the calendar, with a year of four digits. *)
Definition calendar (t : datetime) : Prop :=
  10 ^ 3 ≤ year t < 10 ^ 4 ∧ 1 ≤ month t ≤ 12 ∧ 1 ≤ day t ≤ 31
  ∧ hour t < 24 ∧ minute t < 60 ∧ second t < 60.

(** [nm] is [<YYYYMMDD_HHMMSS>.<ext>] for the time [t]: the year in
    four digits, then month, day, an underscore, hour, minute and
    second in two digits each, a dot and the extension. *)
Definition timestamp_name (t : datetime) (ext nm : string) : Prop :=
  ∃ YYYY MM DD hh mm ss,
    nm = YYYY +:+ MM +:+ DD +:+ "_" +:+ hh +:+ mm +:+ ss +:+ "." +:+ ext
    ∧ numeral 4 YYYY (year t) ∧ numeral 2 MM (month t)
    ∧ numeral 2 DD (day t) ∧ numeral 2 hh (hour t)
    ∧ numeral 2 mm (minute t) ∧ numeral 2 ss (second t).

(** The extension of an uploaded file name: what follows its last dot. *)
Definition extension (filename : string) : option string :=
  snd <$> rsplit1 "."%char filename.

(** The name an accepted upload is stored under. *)
Definition stored_name (now : datetime) (ext : string) : string :=
  strftime_Ymd_HMS now +:+ "." +:+ ext.

(** The title [get_all_boxes] and [search] derive from a content: the
    first line of the stripped content, without leading [#] and spaces
    and stripped again.  The list of lines is never empty, so the id is
    never used. *)
Definition title_of (content : string) : string :=
  strip (lstrip "# " (default "" (head (split LF (strip content))))).

(** The names [get_box_photos] keeps: those whose suffix, in lower case
    and without its dot, is an allowed extension. *)
Definition listed (nm : string) : Prop :=
  lstrip "." (lower (suffix_of nm)) ∈ ALLOWED_EXTENSIONS.

(** Computations that leave the file system as it is. *)
Definition read_only {A} (m : M A) : Prop := ∀ fs, (m fs).1 = fs.

Section Locations.

Variable DATA_DIR : list string.

Local Abbreviation BOXES := (DATA_DIR ++ ["boxes"]).
Local Abbreviation box_loc box_id := (DATA_DIR ++ ["boxes"; box_id +:+ ".md"]).
Local Abbreviation PHOTOS := (DATA_DIR ++ ["photos"]).
Local Abbreviation photos_loc box_id := (DATA_DIR ++ ["photos"; box_id]).

(** The box has a record: the file [<id>.md] in the directory [boxes]
    of the data directory. *)
Definition recorded (fs : FS) (box_id : string) : Prop :=
  fs !! DATA_DIR = Some Dir ∧ fs !! BOXES = Some Dir
  ∧ is_Some (fs !! box_loc box_id).

(** The entries [delete_box] is to remove. *)
Definition of_box (box_id : string) (k : list string) : Prop :=
  k = box_loc box_id ∨ k = photos_loc box_id
  ∨ ∃ n, k = photos_loc box_id ++ [n].

(** The entry of the listing for the markdown file named [nm]. *)
Definition entry_of (fs : FS) (nm : string) : box_entry :=
  match fs !! (BOXES ++ [nm]) with
  | Some (File c t) => mkBox (stem_of nm) (title_of (universal_newlines c)) t
  | _ => mkBox (stem_of nm) "" 0
  end.

(** The preview [search] shows for a content that holds the query: the
    first three lines that hold it, stripped. *)
Definition preview_of (query content : string) : list string :=
  take 3 (strip <$> filter (λ l, contains query (lower l) = true)
                           (split LF (strip content))).

(** The results of [search] for the markdown file named [nm]: one if
    its content holds the query, which is in lower case already. *)
Definition hits_of (fs : FS) (query nm : string) : list search_result :=
  match fs !! (BOXES ++ [nm]) with
  | Some (File c _) =>
      if contains query (lower (universal_newlines c))
      then [mkResult (stem_of nm) (title_of (universal_newlines c))
                     (preview_of query (universal_newlines c))]
      else []
  | _ => []
  end.

(** The names of the markdown files [glob("*.md")] finds. *)
Definition md_names (fs : FS) : list string :=
  if is_dir_at fs DATA_DIR && is_dir_at fs BOXES
  then filter (λ n, endswith ".md" n = true) (children fs BOXES)
  else [].

(** The layout the application gives its store: the data directory
    holds the directories [boxes] and [photos]; an entry of [boxes] is
    a regular file (and not the file [.md], the record of the empty
    id); an entry of [photos] is a directory; an entry of such a
    directory is a regular file; and each of these entries has a name
    the file system accepts, as every entry of a real directory has.
    Whatever else the data directory holds is not looked at. *)
Definition is_file (v : node) : bool :=
  match v with File _ _ => true | Dir => false end.

Definition is_dir (v : node) : bool :=
  match v with File _ _ => false | Dir => true end.

Definition grandchild (l k : list string) : option (string * string) :=
  match last k with
  | Some n =>
      match child_name l (removelast k) with
      | Some b => Some (b, n)
      | None => None
      end
  | None => None
  end.

Definition entry_ok (fs : FS) (k : list string) (v : node) : bool :=
  match child_name BOXES k with
  | Some n => is_file v && negb (String.eqb n ".md") && fs_name n
  | None => true
  end
  && match child_name PHOTOS k with
     | Some b => is_dir v && fs_name b
     | None => true
     end
  && match grandchild PHOTOS k with
     | Some (b, n) =>
         is_file v && negb (String.eqb n "..") && is_dir_at fs (PHOTOS ++ [b])
         && fs_name n
     | None => true
     end.

(** Every record was last modified before [now]. *)
Definition records_before (fs : FS) (now : nat) : bool :=
  forallb (λ kv, match child_name BOXES kv.1, kv.2 with
                 | Some _, File _ t => t <? now
                 | _, _ => true
                 end) (map_to_list fs).

Definition layout_ok (fs : FS) : bool :=
  is_dir_at fs DATA_DIR && is_dir_at fs BOXES && is_dir_at fs PHOTOS
  && forallb (λ kv, entry_ok fs kv.1 kv.2) (map_to_list fs).

(** The layout, read as statements about lookups. *)
Record Layout (fs : FS) : Prop := {
  layout_data : fs !! DATA_DIR = Some Dir;
  layout_boxes : fs !! BOXES = Some Dir;
  layout_photos : fs !! PHOTOS = Some Dir;
  layout_record : ∀ n v, fs !! (BOXES ++ [n]) = Some v →
                         (∃ c t, v = File c t) ∧ n ≠ ".md";
  layout_photo_dir : ∀ b v, fs !! (PHOTOS ++ [b]) = Some v → v = Dir;
  layout_photo : ∀ b n v, fs !! (PHOTOS ++ [b; n]) = Some v →
                          (∃ c t, v = File c t) ∧ n ≠ ".."
                          ∧ fs !! (PHOTOS ++ [b]) = Some Dir;
  layout_record_name : ∀ n v, fs !! (BOXES ++ [n]) = Some v → fs_name n = true;
  layout_photo_dir_name : ∀ b v, fs !! (PHOTOS ++ [b]) = Some v →
                                 fs_name b = true;
  layout_photo_name : ∀ b n v, fs !! (PHOTOS ++ [b; n]) = Some v →
                               fs_name n = true
}.

End Locations.

(** ** Concrete stores

    A data directory [/data], a QR encoder and a base64 that return
    their argument, and, for [secure_filename], the ASCII part of its
    argument (what normalisation and encoding leave of a text that is
    ASCII already). *)

Definition data_dir : list string := ["data"].
Definition qr_stub (url : string) : option string := Some url.
Definition b64_stub (s : string) : string := s.
Definition ascii_part (s : string) : string :=
  filter_chars (λ c, code c <? 128) s.

(** The store right after start-up. *)
Definition store0 : FS :=
  {[ [] := Dir; ["data"] := Dir;
     ["data"; "boxes"] := Dir; ["data"; "photos"] := Dir ]}.

Definition new_year_10am : datetime := mkDatetime 2024 1 1 10 0 0.

(** 2024-03-07 at 09:05:42: month and day differ, and so do minute and
    second. *)
Definition march_7th : datetime := mkDatetime 2024 3 7 9 5 42.

(** A content with a CR LF pair and a CR of its own, and a box id with
    a NUL character, [a<NUL>b]. *)
Definition crlf_text : string :=
  "one" +:+ String CR (String LF "two") +:+ String CR "three".
Definition nul_id : string := String "a" (String NUL "b").

(** A store with one box, [box-001], and one photo of it. *)
Definition store1 : FS :=
  <[["data"; "boxes"; "box-001.md"] := File "# Tools" 1]>
    (<[["data"; "photos"; "box-001"] := Dir]>
       (<[["data"; "photos"; "box-001"; "20240101_100000.jpg"] := File "JFIF" 2]>
          store0)).

(** A store whose data directory also holds [app.py], as it does in the
    default configuration, where the data directory is the directory of
    the application. *)
Definition store2 : FS :=
  <[["data"; "app.py"] := File "SECRET_KEY" 0]> store1.

(** A store with a second box, [box-002]. *)
Definition store3 : FS :=
  <[["data"; "boxes"; "box-002.md"] := File "# Paint" 4]> store1.

(** The store before start-up, with and without the data directory. *)
Definition store_fresh : FS := {[ [] := Dir; ["data"] := Dir ]}.
Definition store_bare : FS := {[ [] := Dir ]}.

(** A QR encoder with a capacity of 2331 characters, and a host name
    too long for it. *)
Definition qr_limited (url : string) : option string :=
  if String.length url <=? 2331 then Some url else None.
Definition long_host : string := "http://" +:+ zeros 2331 +:+ "/".

(** * Properties *)

(** ** Strings *)

Module PyFacts.
Import Py.

Lemma str_app_cons c (s t : string) : String c s +:+ t = String c (s +:+ t).
Proof. reflexivity. Qed.

Lemma str_app_nil_r (s : string) : s +:+ "" = s.
Proof. induction s as [|c s IH]; [done|]. by rewrite str_app_cons, IH. Qed.

Lemma str_app_assoc (s t u : string) : (s +:+ t) +:+ u = s +:+ t +:+ u.
Proof. induction s as [|c s IH]; [done|]. by rewrite !str_app_cons, IH. Qed.

Lemma str_app_length (s t : string) :
  String.length (s +:+ t) = String.length s + String.length t.
Proof. induction s as [|c s IH]; [done|]. rewrite str_app_cons. simpl. by rewrite IH. Qed.

Lemma str_app_eq_nil (s t : string) : s +:+ t = "" → s = "" ∧ t = "".
Proof. destruct s; [done|]. by rewrite str_app_cons. Qed.

Lemma mem_char_app c (s t : string) :
  mem_char c (s +:+ t) = mem_char c s || mem_char c t.
Proof.
  induction s as [|d s IH]; [done|].
  rewrite str_app_cons. simpl. by destruct (Ascii.eqb c d).
Qed.

Lemma split_no_sep sep (s : string) :
  mem_char sep s = false → split sep s = [s].
Proof.
  induction s as [|c s IH]; [done|]. simpl.
  rewrite (Ascii.eqb_sym c sep).
  destruct (Ascii.eqb sep c); [done|]. intros H. by rewrite (IH H).
Qed.

Lemma prefix_char_mem c (s : string) :
  String.prefix (String c "") s = true → mem_char c s = true.
Proof.
  destruct s as [|d s]; [done|]. simpl.
  destruct (ascii_dec c d) as [->|Hne]; [by rewrite Ascii.eqb_refl|done].
Qed.

Lemma prefix_empty (s : string) : String.prefix "" s = true.
Proof. by destruct s. Qed.

(** The empty string occurs in every string. *)
Lemma contains_empty (s : string) : contains "" s = true.
Proof. destruct s; simpl; by rewrite ?prefix_empty. Qed.

Lemma rsplit1_None sep (s : string) :
  mem_char sep s = false → rsplit1 sep s = None.
Proof.
  induction s as [|c s IH]; [done|]. simpl.
  rewrite (Ascii.eqb_sym c sep).
  destruct (Ascii.eqb sep c); [done|]. intros H. by rewrite (IH H).
Qed.

Lemma rsplit1_app sep (h t : string) :
  mem_char sep t = false →
  rsplit1 sep (h +:+ String sep t) = Some (h, t).
Proof.
  intros Ht. induction h as [|c h IH].
  - change ("" +:+ String sep t) with (String sep t). simpl.
    by rewrite (rsplit1_None _ _ Ht), Ascii.eqb_refl.
  - rewrite str_app_cons. simpl. by rewrite IH.
Qed.

Lemma rsplit1_Some sep (s h t : string) :
  rsplit1 sep s = Some (h, t) → s = h +:+ String sep t ∧ mem_char sep t = false.
Proof.
  revert h t. induction s as [|c s IH]; [done|]. intros h t. simpl.
  destruct (rsplit1 sep s) as [[h' t']|] eqn:E.
  - intros [= <- <-]. destruct (IH _ _ eq_refl) as [-> ?]. by rewrite str_app_cons.
  - destruct (Ascii.eqb_spec c sep) as [->|]; [|done].
    intros [= <- <-]. split; [done|].
    clear IH. induction s as [|d s IH]; [done|]. simpl in *.
    destruct (rsplit1 sep s) as [[? ?]|]; [done|].
    rewrite (Ascii.eqb_sym sep d). destruct (Ascii.eqb d sep); [done|]. by apply IH.
Qed.

Lemma endswith_app (suf x : string) : endswith suf (x +:+ suf) = true.
Proof.
  induction x as [|c x IH].
  - change ("" +:+ suf) with suf.
    destruct suf as [|a suf]; [done|].
    cbn [endswith]. by rewrite String.eqb_refl.
  - rewrite str_app_cons. cbn [endswith]. rewrite IH. by destruct (String.eqb _ _).
Qed.

Lemma endswith_inv (suf s : string) :
  endswith suf s = true → ∃ x, s = x +:+ suf.
Proof.
  induction s as [|c s IH]; cbn [endswith].
  - destruct suf; [intros _; by exists ""|done].
  - destruct (String.eqb_spec (String c s) suf) as [<-|_]; [intros _; by exists ""|].
    intros [x ->]%IH. by exists (String c x).
Qed.

(** [lstrip] stops at a character it does not remove; [rstrip] and
    [lstrip] only drop characters. *)
Lemma lstrip_by_head p (s : string) c r :
  lstrip_by p s = String c r → p c = false.
Proof.
  induction s as [|d s IH]; [done|]. simpl.
  destruct (p d) eqn:E; [done|]. by intros [= <- <-].
Qed.

Lemma forall_chars_lstrip q p (s : string) :
  forall_chars q s = true → forall_chars q (lstrip_by p s) = true.
Proof.
  induction s as [|d s IH]; [done|]. simpl.
  intros [? ?]%andb_true_iff. destruct (p d); [by apply IH|].
  simpl. by apply andb_true_iff.
Qed.

Lemma forall_chars_rstrip q p (s : string) :
  forall_chars q s = true → forall_chars q (rstrip_by p s) = true.
Proof.
  induction s as [|d s IH]; [done|]. simpl.
  intros [Hd Hs]%andb_true_iff. specialize (IH Hs).
  destruct (rstrip_by p s) as [|e r].
  - destruct (p d); [done|]. simpl. by rewrite Hd.
  - simpl in *. by rewrite Hd, IH.
Qed.

Lemma forall_chars_filter q (s : string) :
  forall_chars q (filter_chars q s) = true.
Proof.
  induction s as [|d s IH]; [done|]. simpl.
  destruct (q d) eqn:E; [|done]. simpl. by rewrite E, IH.
Qed.

Lemma forall_chars_not_mem q c (s : string) :
  q c = false → forall_chars q s = true → mem_char c s = false.
Proof.
  intros Hc. induction s as [|d s IH]; [done|]. simpl.
  intros [Hd Hs]%andb_true_iff.
  destruct (Ascii.eqb_spec c d) as [->|]; [congruence|]. by apply IH.
Qed.

(** Decimal formatting can be read back, so it is injective. *)
Lemma read_nat_zeros k (s : string) : read_nat (zeros k +:+ s) = read_nat s.
Proof.
  induction k as [|k IH]; [done|].
  simpl zeros. rewrite str_app_cons. unfold read_nat in *. simpl.
  destruct (NilEmpty.uint_of_string (zeros k +:+ s)) as [d|],
           (NilEmpty.uint_of_string s) as [d'|]; simplify_eq/=; try done.
  f_equal. done.
Qed.

Lemma read_nat_format w n : read_nat (format_0wd w n) = Some n.
Proof.
  unfold format_0wd, zfill. rewrite read_nat_zeros.
  unfold read_nat, str_of_nat. rewrite NilEmpty.usu. simpl.
  by rewrite DecimalNat.Unsigned.of_to.
Qed.

Lemma format_0wd_inj w : Inj (=) (=) (format_0wd w).
Proof.
  intros n m H. apply (f_equal read_nat) in H.
  rewrite !read_nat_format in H. by simplify_eq.
Qed.

(** Universal newlines leave a text without CR as it is. *)
Lemma universal_newlines_id (s : string) :
  mem_char CR s = false → universal_newlines s = s.
Proof.
  induction s as [|c s IH]; [done|]. cbn [mem_char universal_newlines].
  rewrite (Ascii.eqb_sym CR c).
  destruct (Ascii.eqb c CR); [done|]. intros H. by rewrite (IH H).
Qed.

(** Text-mode reading is the translation of the line endings. *)
Lemma universal_newlines_spec (s : string) :
  universal_newlines s = read_as_text s.
Proof.
  unfold read_as_text.
  remember (String.length s) as n eqn:Hn. revert s Hn.
  induction n as [n IH] using lt_wf_ind. intros s ->.
  destruct s as [|c r]; [done|]. cbn [universal_newlines crlf_to_lf].
  destruct r as [|d r'].
  - cbn [cr_to_lf universal_newlines]. by destruct (Ascii.eqb c CR).
  - destruct (Ascii.eqb_spec c CR) as [->|Hc]; cbn [andb].
    + destruct (Ascii.eqb_spec d LF) as [->|Hd].
      * cbn [cr_to_lf]. change (Ascii.eqb LF CR) with false. cbv iota.
        f_equal. apply (IH (String.length r')); [simpl; lia|done].
      * cbn [cr_to_lf]. rewrite Ascii.eqb_refl. f_equal.
        apply (IH (String.length (String d r'))); [simpl; lia|done].
    + cbn [cr_to_lf]. destruct (Ascii.eqb_spec c CR); [done|]. f_equal.
      apply (IH (String.length (String d r'))); [simpl; lia|done].
Qed.

Lemma cr_to_lf_no_cr (s : string) : mem_char CR (cr_to_lf s) = false.
Proof.
  induction s as [|c s IH]; [done|]. cbn [cr_to_lf mem_char].
  rewrite IH. destruct (Ascii.eqb_spec c CR) as [->|Hc]; [done|].
  by destruct (Ascii.eqb_spec CR c).
Qed.

Lemma read_as_text_no_cr (s : string) : mem_char CR (read_as_text s) = false.
Proof. apply cr_to_lf_no_cr. Qed.

Lemma read_as_text_id (s : string) :
  mem_char CR s = false → read_as_text s = s.
Proof.
  intros H. rewrite <- universal_newlines_spec. by apply universal_newlines_id.
Qed.

(** The length of a name in bytes. *)
Lemma fsencode_length_app (s t : string) :
  fsencode_length (s +:+ t) = fsencode_length s + fsencode_length t.
Proof.
  induction s as [|c s IH]; [done|].
  rewrite str_app_cons. cbn [fsencode_length]. rewrite IH. lia.
Qed.

Lemma fsencode_length_bound (s : string) :
  String.length s ≤ fsencode_length s ≤ 2 * String.length s.
Proof.
  induction s as [|c s IH]; [simpl; lia|]. cbn [fsencode_length String.length].
  destruct (code c <? 128); lia.
Qed.

End PyFacts.

(** ** The file system *)

Section FsFacts.

Implicit Types (fs : FS) (l k : list string) (n : string).

Lemma child_name_spec l k n : child_name l k = Some n ↔ k = l ++ [n].
Proof.
  unfold child_name. split.
  - destruct (last k) as [m|] eqn:E; [|done].
    apply last_Some in E as [k' ->].
    rewrite removelast_last. case_decide; [|done]. by intros [= ->]; subst.
  - intros ->. rewrite last_snoc, removelast_last. by case_decide.
Qed.

Lemma elem_of_children fs l n :
  n ∈ children fs l ↔ is_Some (fs !! (l ++ [n])).
Proof.
  unfold children. rewrite list_elem_of_omap. split.
  - intros [[k v] [Hin Hn]]. simpl in Hn.
    apply child_name_spec in Hn as ->.
    apply elem_of_map_to_list in Hin. eauto.
  - intros [v Hv]. exists (l ++ [n], v). split.
    + by apply elem_of_map_to_list.
    + by apply child_name_spec.
Qed.

Lemma children_nil fs l :
  children fs l = [] ↔ ∀ n, fs !! (l ++ [n]) = None.
Proof.
  split.
  - intros E n. apply eq_None_not_Some. rewrite <- elem_of_children, E.
    apply not_elem_of_nil.
  - intros H. destruct (children fs l) as [|n r] eqn:E; [done|].
    assert (n ∈ children fs l) as Hn by (rewrite E; left).
    apply elem_of_children in Hn as [v Hv]. by rewrite H in Hv.
Qed.

Lemma NoDup_children fs l : NoDup (children fs l).
Proof.
  unfold children.
  pose proof (NoDup_fst_map_to_list fs) as Hnd.
  induction (map_to_list fs) as [|[k v] r IH]; simpl; [constructor|].
  apply NoDup_cons in Hnd as [Hk Hr]. specialize (IH Hr).
  destruct (child_name l k) as [n|] eqn:E; [|done].
  apply NoDup_cons. split; [|done].
  rewrite list_elem_of_omap. intros [[k' v'] [Hin Hn]]. simpl in Hn.
  apply child_name_spec in E, Hn. subst. apply Hk.
  apply list_elem_of_fmap. by exists (l ++ [n], v').
Qed.

Lemma walk_app fs l ps qs :
  walk fs l (ps ++ qs)
  = match walk fs l ps with Ok l' => walk fs l' qs | Raise e => Raise e end.
Proof.
  revert l. induction ps as [|c ps IH]; intros l; [done|]. simpl.
  destruct (fs !! l) as [[]|]; [done| |done].
  destruct (too_long c); [done|]. apply IH.
Qed.

Lemma fs_name_spec n :
  fs_name n = true ↔ has_nul n = false ∧ too_long n = false.
Proof.
  unfold fs_name. by rewrite andb_true_iff, !negb_true_iff.
Qed.

(** One step down into an existing directory. *)
Lemma walk_step fs l n :
  fs !! l = Some Dir → too_long n = false → n ≠ ".." →
  walk fs l [n] = Ok (l ++ [n]).
Proof.
  intros Hl Hlen Hn. simpl. rewrite Hl, Hlen.
  by destruct (String.eqb_spec n "..").
Qed.

(** A step with a name that is too long. *)
Lemma walk_too_long fs l n ps :
  fs !! l = Some Dir → too_long n = true →
  walk fs l (n :: ps) = Raise NameTooLong.
Proof. intros Hl Hlen. simpl. by rewrite Hl, Hlen. Qed.

Lemma locate_walk fs p :
  existsb has_nul (parts p) = false →
  locate fs p = walk fs (anchor p) (parts p).
Proof. intros H. unfold locate. by rewrite H. Qed.

Lemma locate_Ok fs p l :
  locate fs p = Ok l →
  existsb has_nul (parts p) = false ∧ walk fs (anchor p) (parts p) = Ok l.
Proof. unfold locate. by destruct (existsb _ _). Qed.

(** Creating or replacing a node that is not a directory, and creating
    a directory, keep every resolved path resolved. *)
Lemma walk_insert fs l ps l' k v :
  fs !! k ≠ Some Dir ∨ v = Dir →
  walk fs l ps = Ok l' → walk (<[k := v]> fs) l ps = Ok l'.
Proof.
  intros Hk. revert l. induction ps as [|c ps IH]; intros l; [done|]. simpl.
  destruct (fs !! l) as [[]|] eqn:E; [done| |done].
  destruct (too_long c); [done|].
  intros H. destruct (decide (k = l)) as [->|Hne].
  - rewrite lookup_insert_eq. destruct Hk as [Hk| ->]; [done|]. by apply IH.
  - rewrite lookup_insert_ne, E by done. by apply IH.
Qed.

Lemma walk_delete fs l ps l' k :
  fs !! k ≠ Some Dir →
  walk fs l ps = Ok l' → walk (delete k fs) l ps = Ok l'.
Proof.
  intros Hk. revert l. induction ps as [|c ps IH]; intros l; [done|]. simpl.
  destruct (fs !! l) as [[]|] eqn:E; [done| |done].
  destruct (too_long c); [done|].
  intros H. rewrite lookup_delete_ne, E by congruence. by apply IH.
Qed.

End FsFacts.

Lemma read_only_ret {A} (a : A) : read_only (ret a).
Proof. done. Qed.

Lemma read_only_raise {A} e : read_only (@raise A e).
Proof. done. Qed.

Lemma read_only_bind {A B} (m : M A) (k : A → M B) :
  read_only m → (∀ a, read_only (k a)) → read_only (bind m k).
Proof.
  intros Hm Hk fs. unfold bind. specialize (Hm fs).
  destruct (m fs) as [fs' [a|e]]; simpl in *; subst; [apply Hk|done].
Qed.

Lemma read_only_path_exists p : read_only (path_exists p).
Proof. intros fs. unfold path_exists. by destruct (locate fs p) as [|[]]. Qed.

Lemma read_only_glob p pat : read_only (glob p pat).
Proof. intros fs. unfold glob. by destruct (locate fs p) as [|[]]. Qed.

Lemma read_only_read_text p : read_only (read_text p).
Proof.
  intros fs. unfold read_text.
  destruct (locate fs p); [|done]. by destruct (fs !! _) as [[]|].
Qed.

Lemma read_only_read_bytes p : read_only (read_bytes p).
Proof.
  intros fs. unfold read_bytes.
  destruct (locate fs p); [|done]. by destruct (fs !! _) as [[]|].
Qed.

Lemma read_only_stat_mtime p : read_only (stat_mtime p).
Proof.
  intros fs. unfold stat_mtime.
  destruct (locate fs p); [|done]. by destruct (fs !! _) as [[]|].
Qed.

Lemma read_only_for_collect {A B} (l : list A) (f : A → M B) :
  (∀ a, read_only (f a)) → read_only (for_collect l f).
Proof.
  intros Hf. induction l as [|x l IH]; [done|]. simpl.
  apply read_only_bind; [done|]. intros y.
  apply read_only_bind; [done|]. intros ys. apply read_only_ret.
Qed.

Create HintDb read_only.
#[export] Hint Resolve read_only_ret read_only_raise read_only_path_exists
  read_only_glob read_only_read_text read_only_read_bytes
  read_only_stat_mtime : read_only.

Ltac read_only_tac :=
  repeat first
    [ progress eauto with read_only
    | apply read_only_bind; [|intros ?]
    | apply read_only_for_collect; intros ?
    | match goal with
      | |- read_only (if ?b then _ else _) => destruct b
      | |- read_only (match ?o with Some _ => _ | None => _ end) => destruct o
      end ].

(** ** The application *)

Section AppFacts.

Import Py PyFacts.

Set Default Proof Using "Type".

Variable DATA_DIR : list string.
Variable qrcode_png : string → option string.
Variable b64encode : string → string.
Variable nfkd_ascii : string → string.

Implicit Types (fs : FS) (box_id host_url content : string).

Abbreviation BOXES := (DATA_DIR ++ ["boxes"]).
Abbreviation PHOTOS := (DATA_DIR ++ ["photos"]).
Abbreviation box_loc box_id := (DATA_DIR ++ ["boxes"; box_id +:+ ".md"]).

(** *** Paths built from a path segment *)

Lemma route_segment_spec s :
  route_segment s = true ↔ s ≠ "" ∧ mem_char "/"%char s = false.
Proof.
  unfold route_segment. rewrite andb_true_iff, !negb_true_iff.
  by rewrite String.eqb_neq.
Qed.

Lemma path_parts_segment s :
  mem_char "/"%char s = false → s ≠ "" → s ≠ "." → path_parts s = [s].
Proof.
  intros Hs H1 H2. unfold path_parts. rewrite (split_no_sep _ _ Hs).
  rewrite filter_cons, decide_True by done. done.
Qed.

Lemma startswith_slash s :
  mem_char "/"%char s = false → startswith "/" s = false.
Proof.
  intros Hs. destruct (startswith "/" s) eqn:E; [|done].
  apply prefix_char_mem in E. congruence.
Qed.

Lemma joinpath_segment p s :
  mem_char "/"%char s = false → s ≠ "" → s ≠ "." →
  p </> s = mkPath (anchor p) (parts p ++ [s]).
Proof.
  intros Hs H1 H2. unfold joinpath.
  by rewrite (startswith_slash _ Hs), path_parts_segment.
Qed.

Lemma name_child a ps n : name (mkPath a (ps ++ [n])) = n.
Proof. unfold name. simpl. by rewrite (assoc_L (++)), last_snoc. Qed.

Lemma name_boxes_child n : name (mkPath DATA_DIR ["boxes"; n]) = n.
Proof. apply (name_child DATA_DIR ["boxes"] n). Qed.

Lemma BOXES_DIR_eq : BOXES_DIR DATA_DIR = mkPath DATA_DIR ["boxes"].
Proof. reflexivity. Qed.

Lemma PHOTOS_DIR_eq : PHOTOS_DIR DATA_DIR = mkPath DATA_DIR ["photos"].
Proof. reflexivity. Qed.

Lemma md_name_facts box_id :
  route_segment box_id = true →
  mem_char "/"%char (box_id +:+ ".md") = false
  ∧ box_id +:+ ".md" ≠ "" ∧ box_id +:+ ".md" ≠ "." ∧ box_id +:+ ".md" ≠ "..".
Proof.
  intros [Hne Hs]%route_segment_spec. split.
  { rewrite mem_char_app, Hs. done. }
  destruct box_id as [|c r]; [done|]. rewrite str_app_cons.
  split; [done|]. split.
  - intros [= _ H]. by apply str_app_eq_nil in H as [_ ?].
  - intros [= _ H]. destruct r; [done|]. rewrite str_app_cons in H.
    injection H as _ H. by apply str_app_eq_nil in H as [_ ?].
Qed.

Lemma box_file_eq box_id :
  route_segment box_id = true →
  box_file DATA_DIR box_id = mkPath DATA_DIR ["boxes"; box_id +:+ ".md"].
Proof.
  intros Hr. destruct (md_name_facts _ Hr) as (H1 & H2 & H3 & _).
  unfold box_file. rewrite BOXES_DIR_eq. by rewrite joinpath_segment.
Qed.

(** Names the file system accepts. *)
Lemma has_nul_app (s t : string) :
  has_nul (s +:+ t) = has_nul s || has_nul t.
Proof. apply mem_char_app. Qed.

Lemma too_long_app_l (s t : string) :
  too_long (s +:+ t) = false → too_long s = false.
Proof.
  unfold too_long. rewrite fsencode_length_app, !Nat.ltb_ge. lia.
Qed.

Lemma fs_name_md box_id :
  fs_name (box_id +:+ ".md") = true → fs_name box_id = true.
Proof.
  rewrite !fs_name_spec, has_nul_app. intros [H1 H2].
  apply orb_false_iff in H1 as [H1 _]. split; [done|].
  by apply too_long_app_l in H2.
Qed.

(** Where an entry of [boxes] is looked up. *)
Lemma locate_boxes_child fs nm :
  fs !! DATA_DIR = Some Dir → fs !! BOXES = Some Dir → nm ≠ ".." →
  locate fs (mkPath DATA_DIR ["boxes"; nm])
  = if has_nul nm then Raise ValueError
    else if too_long nm then Raise NameTooLong
    else Ok (BOXES ++ [nm]).
Proof.
  intros HD HB Hnm. unfold locate. cbn [parts anchor existsb].
  change (has_nul "boxes") with false. rewrite orb_false_r. cbn [orb].
  destruct (has_nul nm); [done|]. cbn [walk]. rewrite HD.
  change (too_long "boxes") with false. cbv iota.
  change (String.eqb "boxes" "..") with false. cbv iota. rewrite HB.
  destruct (too_long nm); [done|].
  by destruct (String.eqb_spec nm "..").
Qed.

(** Where the markdown file of a box is looked up. *)
Lemma locate_box_file_cases fs box_id :
  route_segment box_id = true →
  fs !! DATA_DIR = Some Dir → fs !! BOXES = Some Dir →
  locate fs (box_file DATA_DIR box_id)
  = if has_nul (box_id +:+ ".md") then Raise ValueError
    else if too_long (box_id +:+ ".md") then Raise NameTooLong
    else Ok (box_loc box_id).
Proof.
  intros Hr HD HB. rewrite box_file_eq by done.
  destruct (md_name_facts _ Hr) as (_ & _ & _ & H4).
  rewrite locate_boxes_child by done. by rewrite <- (assoc_L (++)).
Qed.

Lemma locate_box_file fs box_id :
  route_segment box_id = true → fs_name (box_id +:+ ".md") = true →
  fs !! DATA_DIR = Some Dir → fs !! BOXES = Some Dir →
  locate fs (box_file DATA_DIR box_id) = Ok (box_loc box_id).
Proof.
  intros Hr [H1 H2]%fs_name_spec HD HB.
  rewrite locate_box_file_cases by done. by rewrite H1, H2.
Qed.

Lemma box_loc_snoc (x : string) : DATA_DIR ++ ["boxes"; x] = BOXES ++ [x].
Proof. by rewrite <- (assoc_L (++)). Qed.

Lemma longer_ne {A} (l r : list A) : r ≠ [] → l ++ r ≠ l.
Proof.
  intros Hr E. apply (f_equal length) in E. rewrite length_app in E.
  destruct r; [done|]. simpl in E. lia.
Qed.

Lemma box_loc_ne_data x : box_loc x ≠ DATA_DIR.
Proof. by apply longer_ne. Qed.

Lemma box_loc_ne_boxes x : box_loc x ≠ BOXES.
Proof. rewrite box_loc_snoc. by apply longer_ne. Qed.

(** *** Reading and writing a box *)

Lemma get_box_content_read_only box_id :
  read_only (get_box_content DATA_DIR box_id).
Proof. unfold get_box_content. read_only_tac. Qed.

Lemma get_box_content_file fs box_id c t :
  route_segment box_id = true → fs_name (box_id +:+ ".md") = true →
  fs !! DATA_DIR = Some Dir → fs !! BOXES = Some Dir →
  fs !! box_loc box_id = Some (File c t) →
  get_box_content DATA_DIR box_id fs = (fs, Ok (Some (universal_newlines c))).
Proof.
  intros Hr Hn HD HB Hf.
  unfold get_box_content, bind, path_exists.
  rewrite locate_box_file, Hf by done.
  rewrite bool_decide_eq_true_2 by eauto.
  unfold read_text. by rewrite locate_box_file, Hf by done.
Qed.

Lemma get_box_content_absent fs box_id :
  route_segment box_id = true → fs_name (box_id +:+ ".md") = true →
  fs !! DATA_DIR = Some Dir → fs !! BOXES = Some Dir →
  fs !! box_loc box_id = None →
  get_box_content DATA_DIR box_id fs = (fs, Ok None).
Proof.
  intros Hr Hn HD HB Hf.
  unfold get_box_content, bind, path_exists.
  rewrite locate_box_file, Hf by done.
  rewrite bool_decide_eq_false_2; [done|]. by intros [? ?].
Qed.

Lemma save_box_content_ok fs box_id content now :
  route_segment box_id = true → fs_name (box_id +:+ ".md") = true →
  fs !! DATA_DIR = Some Dir → fs !! BOXES = Some Dir →
  fs !! box_loc box_id ≠ Some Dir →
  save_box_content DATA_DIR box_id content now fs
  = (<[box_loc box_id := File content now]> fs, Ok tt).
Proof.
  intros Hr Hn HD HB Hf. unfold save_box_content, write_file.
  rewrite locate_box_file by done.
  destruct (fs !! box_loc box_id) as [[]|] eqn:E; [done|done|].
  unfold is_dir_at. by rewrite box_loc_snoc, removelast_last, HB.
Qed.

(** C2 (amended).  For a box id whose record name [<id>.md] the file
    system accepts, writing [content] to the box and reading the box
    back succeeds whether or not the box had a record, and returns
    [content] with every CR LF pair and every CR that is left replaced
    by LF, as reading in text mode does.  What is read holds no
    carriage return, and is [content] itself when [content] holds
    none. *)
Theorem write_then_read fs box_id content now :
  route_segment box_id = true → fs_name (box_id +:+ ".md") = true →
  fs !! DATA_DIR = Some Dir → fs !! BOXES = Some Dir →
  fs !! box_loc box_id ≠ Some Dir →
  (save_box_content DATA_DIR box_id content now
   >> get_box_content DATA_DIR box_id) fs
  = (<[box_loc box_id := File content now]> fs,
     Ok (Some (read_as_text content)))
  ∧ mem_char CR (read_as_text content) = false
  ∧ (mem_char CR content = false → read_as_text content = content).
Proof.
  intros Hr Hn HD HB Hf.
  split; [|split; [apply read_as_text_no_cr|apply read_as_text_id]].
  rewrite <- universal_newlines_spec.
  unfold bind at 1. rewrite save_box_content_ok by done.
  apply get_box_content_file with (t := now); [done|done| | |].
  - by rewrite lookup_insert_ne by apply box_loc_ne_data.
  - by rewrite lookup_insert_ne by apply box_loc_ne_boxes.
  - apply lookup_insert_eq.
Qed.

(** *** Viewing a box that has a record *)

Lemma qr_image_read_only url : read_only (qr_image qrcode_png url).
Proof. unfold qr_image. destruct (qrcode_png url); read_only_tac. Qed.

Lemma generate_qr_code_read_only url :
  read_only (generate_qr_code qrcode_png b64encode url).
Proof.
  unfold generate_qr_code.
  apply read_only_bind; [apply qr_image_read_only|]. intros; apply read_only_ret.
Qed.

Lemma get_box_photos_read_only box_id :
  read_only (get_box_photos DATA_DIR box_id).
Proof. unfold get_box_photos. read_only_tac. Qed.

(** C10.  Viewing a box whose markdown file exists changes nothing in
    the file system: no box record and no photo is created, altered or
    removed, whatever the handler returns. *)
Theorem view_existing_box_unchanged fs box_id host_url now :
  eval (path_exists (box_file DATA_DIR box_id)) fs = Ok true →
  exec (view_box DATA_DIR qrcode_png b64encode box_id host_url now) fs = fs.
Proof.
  intros He. unfold exec, view_box. unfold bind at 1.
  pose proof (get_box_content_read_only box_id fs) as Hro.
  assert (eval (get_box_content DATA_DIR box_id) fs ≠ Ok None) as Hsome.
  { unfold eval, get_box_content, bind.
    unfold eval in He. destruct (path_exists _ fs) as [fs1 [[]|]]; simplify_eq/=.
    by destruct (read_text _ fs1) as [? []]. }
  unfold eval in Hsome.
  destruct (get_box_content DATA_DIR box_id fs) as [fs1 [[c|]|e]];
    simpl in *; subst fs1; [|done|done].
  apply (read_only_bind (ret c)); [apply read_only_ret|]. intros c'.
  apply read_only_bind; [apply generate_qr_code_read_only|]. intros qr.
  apply read_only_bind; [apply get_box_photos_read_only|]. intros ps.
  apply read_only_ret.
Qed.

(** *** Searching *)

(** C9.  A search with the empty query, or without the [q] argument,
    reports no result, although the empty string occurs in the content
    of every box. *)
Theorem search_empty_query fs :
  search DATA_DIR (Some "") fs = (fs, Ok (Render_search "" []))
  ∧ search DATA_DIR None fs = (fs, Ok (Render_search "" []))
  ∧ ∀ content, contains "" (lower content) = true.
Proof. split; [done|]. split; [done|]. intros. apply contains_empty. Qed.

(** *** Viewing a box that has no record yet *)

Lemma prefix_app (s t : string) : String.prefix s (s +:+ t) = true.
Proof.
  induction s as [|c s IH]; [apply prefix_empty|].
  rewrite str_app_cons. simpl. by destruct (ascii_dec c c).
Qed.

Lemma contains_prefix (q s : string) :
  String.prefix q s = true → contains q s = true.
Proof. intros H. destruct s; simpl in *; by rewrite H. Qed.

Lemma contains_app_r (q s t : string) :
  contains q t = true → contains q (s +:+ t) = true.
Proof.
  intros H. induction s as [|c s IH]; [done|].
  rewrite str_app_cons. simpl. rewrite IH. apply orb_true_r.
Qed.

Lemma template_head box_id :
  startswith ("# " +:+ box_id) (template box_id) = true.
Proof.
  unfold template, startswith.
  rewrite <- (str_app_assoc "# " box_id). apply prefix_app.
Qed.

Lemma template_sections box_id :
  contains "## Contents" (template box_id) = true
  ∧ contains "## Location" (template box_id) = true
  ∧ contains "## Notes" (template box_id) = true.
Proof.
  unfold template.
  repeat split; apply (contains_app_r _ "# "), contains_app_r; reflexivity.
Qed.

Lemma template_no_cr box_id :
  mem_char CR box_id = false → mem_char CR (template box_id) = false.
Proof.
  intros H. unfold template. rewrite !mem_char_app, H. reflexivity.
Qed.

Lemma path_exists_false fs box_id :
  route_segment box_id = true → fs_name (box_id +:+ ".md") = true →
  fs !! DATA_DIR = Some Dir → fs !! BOXES = Some Dir →
  eval (path_exists (box_file DATA_DIR box_id)) fs = Ok false →
  fs !! box_loc box_id = None.
Proof.
  intros Hr Hn HD HB. unfold eval, path_exists.
  rewrite locate_box_file by done. intros [= H].
  apply bool_decide_eq_false in H. by apply eq_None_not_Some.
Qed.

(** C4 (amended).  For a box id whose record name [<id>.md] the file
    system accepts, viewing a box that has no record creates the record
    with the template as its content; the template starts with
    [# <id>] and holds the three section headers.  Reading the box
    afterwards returns the template with every CR LF pair and every CR
    that is left replaced by LF, which is the template itself when the
    id holds no carriage return. *)
Theorem view_creates_box fs box_id host_url now :
  route_segment box_id = true → fs_name (box_id +:+ ".md") = true →
  fs !! DATA_DIR = Some Dir → fs !! BOXES = Some Dir →
  eval (path_exists (box_file DATA_DIR box_id)) fs = Ok false →
  let fs' := exec (view_box DATA_DIR qrcode_png b64encode box_id host_url now) fs in
  fs' = <[box_loc box_id := File (template box_id) now]> fs
  ∧ startswith ("# " +:+ box_id) (template box_id) = true
  ∧ contains "## Contents" (template box_id) = true
  ∧ contains "## Location" (template box_id) = true
  ∧ contains "## Notes" (template box_id) = true
  ∧ get_box_content DATA_DIR box_id fs'
    = (fs', Ok (Some (read_as_text (template box_id))))
  ∧ (mem_char CR box_id = false →
     read_as_text (template box_id) = template box_id).
Proof.
  intros Hr Hn HD HB He fs'.
  pose proof (path_exists_false _ _ Hr Hn HD HB He) as Hnone.
  assert (fs' = <[box_loc box_id := File (template box_id) now]> fs) as Hfs'.
  { unfold fs', exec, view_box. unfold bind at 1.
    rewrite get_box_content_absent by done.
    unfold bind at 1. unfold bind at 1.
    rewrite save_box_content_ok by (done || congruence).
    apply (read_only_bind (ret (template box_id))); [apply read_only_ret|].
    intros c'.
    apply read_only_bind; [apply generate_qr_code_read_only|]. intros qr.
    apply read_only_bind; [apply get_box_photos_read_only|]. intros ps.
    apply read_only_ret. }
  split; [done|]. split; [apply template_head|].
  destruct (template_sections box_id) as (H1 & H2 & H3).
  do 3 (split; [done|]). split.
  - rewrite Hfs', <- universal_newlines_spec.
    apply get_box_content_file with (t := now); [done|done| | |].
    + by rewrite lookup_insert_ne by apply box_loc_ne_data.
    + by rewrite lookup_insert_ne by apply box_loc_ne_boxes.
    + apply lookup_insert_eq.
  - intros H. by apply read_as_text_id, template_no_cr.
Qed.

(** *** Uploading a photo *)

Lemma contains_char c (s : string) :
  contains (String c "") s = mem_char c s.
Proof.
  induction s as [|d s IH]; [done|]. simpl.
  rewrite IH. destruct (ascii_dec c d) as [->|Hne].
  - by rewrite Ascii.eqb_refl, prefix_empty.
  - by destruct (Ascii.eqb_spec c d).
Qed.

Lemma allowed_file_spec filename :
  allowed_file filename = true
  ↔ ∃ e, extension filename = Some e ∧ lower e ∈ ALLOWED_EXTENSIONS.
Proof.
  unfold allowed_file, extension.
  destruct (rsplit1 "."%char filename) as [[h e]|] eqn:E; simpl.
  - apply rsplit1_Some in E as [-> _].
    rewrite contains_char, mem_char_app. simpl. rewrite orb_true_r. simpl.
    rewrite bool_decide_eq_true. split.
    + intros H. by exists e.
    + by intros (e' & [= <-] & H).
  - rewrite andb_false_r. split; [done|]. by intros (e & ? & _).
Qed.

(** C7.  An upload whose file name has no extension in the allowed set
    (compared in lower case), or that carries no file at all, changes
    nothing and redirects to the box: no file is stored and the photo
    list of the box is what it was.  [exe] is such an extension. *)
Theorem upload_rejected_noop fs box_id photo now clock :
  (∀ file e, photo = Some file → extension (filename file) = Some e →
             lower e ∉ ALLOWED_EXTENSIONS) →
  upload_photo DATA_DIR box_id photo now clock fs
  = (fs, Ok (Redirect (Ep_view_box box_id)))
  ∧ get_box_photos DATA_DIR box_id
      (exec (upload_photo DATA_DIR box_id photo now clock) fs)
    = get_box_photos DATA_DIR box_id fs
  ∧ "exe" ∉ ALLOWED_EXTENSIONS.
Proof.
  intros H.
  assert (upload_photo DATA_DIR box_id photo now clock fs
          = (fs, Ok (Redirect (Ep_view_box box_id)))) as E.
  { unfold upload_photo. destruct photo as [file|]; [|done].
    destruct (String.eqb (filename file) ""); [done|].
    destruct (allowed_file (filename file)) eqn:Ea; [|done].
    apply allowed_file_spec in Ea as (e & He & Hin). by destruct (H file e). }
  split; [done|]. split; [unfold exec; by rewrite E|].
  unfold ALLOWED_EXTENSIONS. rewrite !elem_of_union, !elem_of_singleton.
  by intros [[[[?|?]|?]|?]|?].
Qed.

Lemma forall_chars_app q (s t : string) :
  forall_chars q (s +:+ t) = forall_chars q s && forall_chars q t.
Proof.
  induction s as [|c s IH]; [done|].
  rewrite str_app_cons. simpl. by rewrite IH, andb_assoc.
Qed.

Lemma format_0wd_digits w n : forall_chars is_digit (format_0wd w n) = true.
Proof.
  unfold format_0wd, zfill, str_of_nat. rewrite forall_chars_app.
  apply andb_true_iff. split.
  - induction (w - _) as [|k IH]; [done|]. simpl. by rewrite IH.
  - induction (Nat.to_uint n) as [|d IH|d IH|d IH|d IH|d IH|d IH|d IH|d IH|d IH|d IH];
      [done|simpl; by rewrite IH..].
Qed.

Lemma format_0wd_length w n : w ≤ String.length (format_0wd w n).
Proof.
  unfold format_0wd, zfill. rewrite str_app_length.
  assert (String.length (zeros (w - String.length (str_of_nat n)))
          = w - String.length (str_of_nat n)) as ->; [|lia].
  induction (w - _) as [|k IH]; [done|]. simpl. by rewrite IH.
Qed.

Lemma is_digit_stored (s : string) :
  forall_chars is_digit s = true → forall_chars stored_char s = true.
Proof.
  induction s as [|c s IH]; [done|]. simpl.
  intros [Hc Hs]%andb_true_iff. unfold stored_char at 1. by rewrite Hc, IH.
Qed.

Lemma allowed_extension_chars e :
  e ∈ ALLOWED_EXTENSIONS → forall_chars stored_char e = true.
Proof.
  unfold ALLOWED_EXTENSIONS. rewrite !elem_of_union, !elem_of_singleton.
  intros [[[[->| ->]| ->]| ->]| ->]; reflexivity.
Qed.

Lemma stored_name_facts now e :
  e ∈ ALLOWED_EXTENSIONS →
  mem_char "/"%char (stored_name now e) = false
  ∧ stored_name now e ≠ "" ∧ stored_name now e ≠ "."
  ∧ stored_name now e ≠ "..".
Proof.
  intros He. split.
  - apply (forall_chars_not_mem stored_char); [done|].
    unfold stored_name, strftime_Ymd_HMS.
    rewrite !forall_chars_app.
    rewrite !(is_digit_stored _ (format_0wd_digits _ _)).
    by rewrite (allowed_extension_chars _ He).
  - assert (4 ≤ String.length (stored_name now e)) as Hlen.
    { unfold stored_name, strftime_Ymd_HMS. rewrite !str_app_length.
      pose proof (format_0wd_length 4 (year now)). lia. }
    repeat split; intros E; rewrite E in Hlen; simpl in Hlen; lia.
Qed.

(** Resolution of an entry of a directory that resolves, and after a
    write that removes no directory. *)
Lemma locate_child fs p l n :
  locate fs p = Ok l → fs !! l = Some Dir → fs_name n = true → n ≠ ".." →
  locate fs (mkPath (anchor p) (parts p ++ [n])) = Ok (l ++ [n]).
Proof.
  intros [Hnul Hw]%locate_Ok Hl [H1 H2]%fs_name_spec Hn.
  unfold locate. cbn [parts anchor].
  rewrite existsb_app, Hnul. cbn [existsb orb]. rewrite H1. cbn [orb].
  rewrite walk_app, Hw. by apply walk_step.
Qed.

Lemma locate_insert fs p l k v :
  fs !! k ≠ Some Dir ∨ v = Dir →
  locate fs p = Ok l → locate (<[k := v]> fs) p = Ok l.
Proof.
  intros Hk [Hnul Hw]%locate_Ok. unfold locate. rewrite Hnul.
  by apply walk_insert.
Qed.

Lemma locate_delete fs p l k :
  fs !! k ≠ Some Dir →
  locate fs p = Ok l → locate (delete k fs) p = Ok l.
Proof.
  intros Hk [Hnul Hw]%locate_Ok. unfold locate. rewrite Hnul.
  by apply walk_delete.
Qed.

(** The fields of the time stamp have their width. *)
Lemma format_0wd_2 k : k < 60 → String.length (format_0wd 2 k) = 2.
Proof. intros H. do 60 (destruct k as [|k]; [reflexivity|]). lia. Qed.

Lemma format_0wd_4 k :
  10 ^ 3 ≤ k < 10 ^ 4 → String.length (format_0wd 4 k) = 4.
Proof.
  intros H.
  assert (forallb (λ k, String.length (format_0wd 4 k) =? 4)
                  (seq (10 ^ 3) (10 ^ 4 - 10 ^ 3)) = true) as Hall
    by (vm_compute; reflexivity).
  rewrite forallb_forall in Hall. apply Nat.eqb_eq, Hall, in_seq. lia.
Qed.

Lemma numeral_format_2 k : k < 60 → numeral 2 (format_0wd 2 k) k.
Proof. intros H. split; [by apply format_0wd_2|apply read_nat_format]. Qed.

(** The stored name is laid out as [<YYYYMMDD_HHMMSS>.<ext>]. *)
Lemma stored_name_layout now e :
  calendar now → timestamp_name now e (stored_name now e).
Proof.
  intros (Hy & Hm & Hd & Hh & Hmi & Hs).
  exists (format_0wd 4 (year now)), (format_0wd 2 (month now)),
    (format_0wd 2 (day now)), (format_0wd 2 (hour now)),
    (format_0wd 2 (minute now)), (format_0wd 2 (second now)).
  split.
  { unfold stored_name, strftime_Ymd_HMS. by rewrite !str_app_assoc. }
  split; [split; [by apply format_0wd_4|apply read_nat_format]|].
  repeat split; try apply read_nat_format; apply format_0wd_2; lia.
Qed.

Lemma ascii_fsencode_length (s : string) :
  forall_chars (λ c, code c <? 128) s = true →
  fsencode_length s = String.length s.
Proof.
  induction s as [|c s IH]; [done|]. cbn [forall_chars fsencode_length].
  intros [Hc Hs]%andb_true_iff. rewrite Hc, (IH Hs). done.
Qed.

Lemma stored_chars_forall now e :
  e ∈ ALLOWED_EXTENSIONS → forall_chars stored_char (stored_name now e) = true.
Proof.
  intros He. unfold stored_name, strftime_Ymd_HMS.
  rewrite !forall_chars_app.
  rewrite !(is_digit_stored _ (format_0wd_digits _ _)).
  by rewrite (allowed_extension_chars _ He).
Qed.

Lemma forall_chars_weaken (p q : ascii → bool) (s : string) :
  (∀ c, p c = true → q c = true) →
  forall_chars p s = true → forall_chars q s = true.
Proof.
  intros H. induction s as [|c s IH]; [done|]. simpl.
  intros [Hc Hs]%andb_true_iff. by rewrite (H _ Hc), IH.
Qed.

(** The file system accepts the stored name. *)
Lemma stored_name_fs_name now e :
  calendar now → e ∈ ALLOWED_EXTENSIONS → fs_name (stored_name now e) = true.
Proof.
  intros (Hy & Hm & Hd & Hh & Hmi & Hs) He.
  pose proof (stored_chars_forall now e He) as Hc.
  apply fs_name_spec. split.
  - apply (forall_chars_not_mem stored_char); done.
  - unfold too_long. apply Nat.ltb_ge.
    rewrite ascii_fsencode_length.
    2:{ apply (forall_chars_weaken stored_char); [|done].
        intros [[] [] [] [] [] [] [] []]; by vm_compute. }
    unfold stored_name, strftime_Ymd_HMS. rewrite !str_app_length.
    rewrite format_0wd_4 by done. rewrite !format_0wd_2 by lia.
    assert (String.length e ≤ 4) as Hlen.
    { revert He. unfold ALLOWED_EXTENSIONS.
      rewrite !elem_of_union, !elem_of_singleton.
      intros [[[[->| ->]| ->]| ->]| ->]; simpl; lia. }
    unfold NAME_MAX. simpl String.length. lia.
Qed.

(** C8 (amended).  An accepted upload made at a time of the calendar is
    stored in the photo directory of the box under the name
    [<YYYYMMDD_HHMMSS>.<ext>]: the year in four digits, month, day, an
    underscore, hour, minute and second in two digits each, a dot, and
    the extension of the uploaded file name converted to lower case.
    The file holds the uploaded data.  [l] is the place the photo
    directory of the box resolves to, so the box id is a name the file
    system accepts; the directory exists already or is created by the
    upload. *)
Theorem upload_stores_timestamp_name fs box_id file now clock h ext l :
  rsplit1 "."%char (filename file) = Some (h, ext) →
  lower ext ∈ ALLOWED_EXTENSIONS →
  calendar now →
  locate fs (PHOTOS_DIR DATA_DIR </> box_id) = Ok l →
  fs !! l = Some Dir ∨ (fs !! l = None ∧ fs !! removelast l = Some Dir) →
  fs !! (l ++ [stored_name now (lower ext)]) ≠ Some Dir →
  timestamp_name now (lower ext) (stored_name now (lower ext))
  ∧ upload_photo DATA_DIR box_id (Some file) now clock fs
    = (<[l ++ [stored_name now (lower ext)] := File (data file) clock]>
         (<[l := Dir]> fs),
       Ok (Redirect (Ep_view_box box_id))).
Proof.
  intros Hsplit Hext Hcal Hloc Hl Hfile.
  split; [by apply stored_name_layout|].
  destruct (stored_name_facts now _ Hext) as (N1 & N2 & N3 & N4).
  pose proof (stored_name_fs_name now _ Hcal Hext) as N5.
  assert (allowed_file (filename file) = true) as Ha.
  { apply allowed_file_spec. exists ext. unfold extension. by rewrite Hsplit. }
  assert (String.eqb (filename file) "" = false) as Hne.
  { apply String.eqb_neq. intros E. by rewrite E in Hsplit. }
  unfold upload_photo. rewrite Hne, Ha, Hsplit. simpl.
  fold (stored_name now (lower ext)).
  set (dir := PHOTOS_DIR DATA_DIR </> box_id) in *.
  set (fs1 := <[l := Dir]> fs).
  assert (mkdir_exist_ok dir fs = (fs1, Ok tt)) as Hmk.
  { unfold mkdir_exist_ok, fs1. rewrite Hloc.
    destruct Hl as [Hd|[Hn Hp]].
    - rewrite Hd. by rewrite insert_id.
    - rewrite Hn. unfold is_dir_at. by rewrite Hp. }
  assert (fs1 !! l = Some Dir) as Hl1 by apply lookup_insert_eq.
  assert (locate fs1 (dir </> stored_name now (lower ext))
          = Ok (l ++ [stored_name now (lower ext)])) as Hloc1.
  { rewrite joinpath_segment by done.
    apply locate_child; [|done..].
    apply locate_insert; [by right|done]. }
  assert (fs1 !! (l ++ [stored_name now (lower ext)])
          = fs !! (l ++ [stored_name now (lower ext)])) as Hsame.
  { unfold fs1. apply lookup_insert_ne. intros E. symmetry in E. by apply longer_ne in E. }
  unfold bind. rewrite Hmk. cbn beta iota.
  unfold write_file. rewrite Hloc1, Hsame.
  destruct (fs !! (l ++ [stored_name now (lower ext)])) as [[]|] eqn:E; [done|done|].
  unfold is_dir_at. by rewrite removelast_last, Hl1.
Qed.

(** *** Allocating a box id *)

Lemma stem_of_md (x : string) :
  stem_of (x +:+ ".md") = if String.eqb x "" then ".md" else x.
Proof.
  unfold stem_of.
  rewrite (rsplit1_app "."%char x "md") by done.
  unfold has_suffix. by destruct (String.eqb_spec x "") as [->|].
Qed.

(** Among the names [glob("*.md")] yields, only [s.md] has the stem
    [s], for a stem that is not [.md] itself. *)
Lemma stem_of_inv (nm s : string) :
  endswith ".md" nm = true → stem_of nm = s → s ≠ ".md" → nm = s +:+ ".md".
Proof.
  intros [x ->]%endswith_inv. rewrite stem_of_md.
  destruct (String.eqb x ""); [congruence|]. by intros ->.
Qed.

Lemma box_name_inj : Inj (=) (=) box_name.
Proof.
  intros n m H. unfold box_name in H.
  apply (inj (String.app "box-")) in H. by apply format_0wd_inj in H.
Qed.

Lemma box_name_segment n : route_segment (box_name n) = true.
Proof.
  apply route_segment_spec. split; [done|].
  unfold box_name. rewrite mem_char_app. simpl.
  apply (forall_chars_not_mem is_digit); [done|apply format_0wd_digits].
Qed.

Lemma box_name_not_md n : box_name n ≠ ".md".
Proof. done. Qed.

(** What the loop of [generate_box_id] finds. *)
Lemma scan_Some existing fuel c r :
  scan existing fuel c = Some r →
  c ≤ r ∧ (box_name r ∉ existing) ∧ (∀ j, c ≤ j < r → box_name j ∈ existing).
Proof.
  revert c. induction fuel as [|fuel IH]; intros c; [done|]. simpl.
  case_decide as Hc.
  - intros (H1 & H2 & H3)%IH. split; [lia|]. split; [done|].
    intros j Hj. destruct (decide (j = c)) as [->|]; [done|]. apply H3. lia.
  - intros [= <-]. split; [lia|]. split; [done|]. lia.
Qed.

Lemma scan_None existing fuel c :
  scan existing fuel c = None →
  ∀ j, c ≤ j < c + fuel → box_name j ∈ existing.
Proof.
  revert c. induction fuel as [|fuel IH]; intros c; simpl; [lia|].
  case_decide as Hc; [|done].
  intros H j Hj. destruct (decide (j = c)) as [->|]; [done|].
  apply (IH _ H). lia.
Qed.

(** The names are pairwise different, so a finite set holds fewer of
    them than the loop is given tests: it always finds a free one. *)
Lemma scan_terminates (existing : gset string) c :
  is_Some (scan existing (S (size existing)) c).
Proof.
  destruct (scan existing (S (size existing)) c) eqn:E; [eauto|].
  exfalso. pose proof (scan_None _ _ _ E) as H.
  set (l := box_name <$> seq c (S (size existing))).
  assert (NoDup l) as Hnd.
  { apply NoDup_fmap_2_strong; [|apply NoDup_seq].
    intros x y _ _. apply box_name_inj. }
  assert (list_to_set l ⊆ existing) as Hsub.
  { intros x [y [-> Hy]]%elem_of_list_to_set%list_elem_of_fmap.
    apply elem_of_seq in Hy. apply H. lia. }
  apply subseteq_size in Hsub.
  rewrite size_list_to_set in Hsub by done.
  unfold l in Hsub. rewrite length_fmap, length_seq in Hsub. lia.
Qed.


Lemma locate_boxes fs :
  locate fs (BOXES_DIR DATA_DIR)
  = match fs !! DATA_DIR with
    | Some Dir => Ok BOXES
    | Some (File _ _) => Raise NotADirectoryError
    | None => Raise FileNotFoundError
    end.
Proof.
  rewrite BOXES_DIR_eq. unfold locate. cbn [parts anchor existsb walk].
  change (has_nul "boxes") with false. cbn [orb].
  destruct (fs !! DATA_DIR) as [[]|]; done.
Qed.

Lemma locate_photos fs :
  locate fs (PHOTOS_DIR DATA_DIR)
  = match fs !! DATA_DIR with
    | Some Dir => Ok PHOTOS
    | Some (File _ _) => Raise NotADirectoryError
    | None => Raise FileNotFoundError
    end.
Proof.
  rewrite PHOTOS_DIR_eq. unfold locate. cbn [parts anchor existsb walk].
  change (has_nul "photos") with false. cbn [orb].
  destruct (fs !! DATA_DIR) as [[]|]; done.
Qed.

Lemma glob_boxes fs :
  glob (BOXES_DIR DATA_DIR) StarDotMd fs
  = (fs, Ok (if is_dir_at fs DATA_DIR && is_dir_at fs BOXES
             then (λ n, mkPath DATA_DIR ["boxes"; n])
                    <$> filter (λ n, endswith ".md" n = true) (children fs BOXES)
             else [])).
Proof.
  unfold glob. rewrite locate_boxes. rewrite BOXES_DIR_eq.
  unfold is_dir_at. cbn [parts anchor pattern_match].
  destruct (fs !! DATA_DIR) as [[]|]; [done| |done].
  by destruct (fs !! BOXES) as [[]|].
Qed.

(** [path_exists] on a box file whose name the file system accepts,
    spelled out. *)
Lemma box_file_exists fs s :
  route_segment s = true → fs_name (s +:+ ".md") = true →
  eval (path_exists (box_file DATA_DIR s)) fs
  = Ok (is_dir_at fs DATA_DIR && is_dir_at fs BOXES
        && bool_decide (is_Some (fs !! (BOXES ++ [s +:+ ".md"])))).
Proof.
  intros Hr [H1 H2]%fs_name_spec. unfold eval, path_exists.
  rewrite box_file_eq by done.
  destruct (md_name_facts _ Hr) as (_ & _ & _ & H4).
  unfold locate, is_dir_at. cbn [parts anchor existsb walk].
  change (has_nul "boxes") with false. rewrite H1, H2. cbn [orb].
  change (too_long "boxes") with false. cbv iota.
  change (String.eqb "boxes" "..") with false. cbv iota.
  destruct (fs !! DATA_DIR) as [[]|]; [done| |done].
  destruct (fs !! BOXES) as [[]|]; [done| |done].
  destruct (String.eqb_spec (s +:+ ".md") ".."); [done|].
  by rewrite <- (assoc_L (++)).
Qed.

(** For a name the file system accepts, [exists()] tells whether the
    box has a record. *)
Lemma recorded_exists fs s :
  route_segment s = true → fs_name (s +:+ ".md") = true →
  recorded DATA_DIR fs s
  ↔ eval (path_exists (box_file DATA_DIR s)) fs = Ok true.
Proof.
  intros Hr Hn. rewrite box_file_exists by done.
  unfold recorded, is_dir_at. rewrite box_loc_snoc. split.
  - intros (-> & -> & H). by rewrite bool_decide_eq_true_2.
  - destruct (fs !! DATA_DIR) as [[]|]; try done.
    destruct (fs !! BOXES) as [[]|]; try done.
    by intros [= H%bool_decide_eq_true].
Qed.

Lemma exists_recorded fs s :
  route_segment s = true →
  eval (path_exists (box_file DATA_DIR s)) fs = Ok true →
  recorded DATA_DIR fs s.
Proof.
  intros Hr. unfold eval, path_exists. rewrite box_file_eq by done.
  destruct (md_name_facts _ Hr) as (_ & _ & _ & H4).
  destruct (locate fs _) as [l|e] eqn:El; [|by destruct e].
  apply locate_Ok in El as [_ El]. cbn [parts anchor walk] in El.
  unfold recorded.
  destruct (fs !! DATA_DIR) as [[]|]; try done.
  destruct (too_long "boxes"); [done|].
  change (String.eqb "boxes" "..") with false in El. cbv iota in El.
  destruct (fs !! BOXES) as [[]|]; try done.
  destruct (too_long (s +:+ ".md")); [done|].
  destruct (String.eqb_spec (s +:+ ".md") ".."); [done|].
  injection El as <-. rewrite <- (assoc_L (++)). cbn [snd].
  by intros [= H%bool_decide_eq_true].
Qed.

(** The stems of the markdown files are the ids of the boxes that
    have a record, for every id a route can carry. *)
Lemma existing_spec fs paths s :
  glob (BOXES_DIR DATA_DIR) StarDotMd fs = (fs, Ok paths) →
  route_segment s = true → s ≠ ".md" →
  s ∈ (list_to_set (stem <$> paths) : gset string)
  ↔ recorded DATA_DIR fs s.
Proof.
  rewrite glob_boxes. intros [= <-] Hr Hmd.
  unfold recorded, is_dir_at. rewrite box_loc_snoc.
  destruct (fs !! DATA_DIR) as [[]|];
    try (rewrite elem_of_list_to_set;
         split; [by intros ?%elem_of_nil|by intros (? & _)]).
  destruct (fs !! BOXES) as [[]|];
    try (rewrite elem_of_list_to_set;
         split; [by intros ?%elem_of_nil|by intros (_ & ? & _)]).
  cbn [andb]. rewrite elem_of_list_to_set, list_elem_of_fmap. split.
  - intros (p & -> & (n & -> & Hn)%list_elem_of_fmap).
    apply list_elem_of_filter in Hn as [Hmatch Hn].
    unfold stem in Hmd |- *.
    rewrite name_boxes_child in Hmd |- *.
    rewrite <- (stem_of_inv n _ Hmatch eq_refl Hmd).
    apply elem_of_children in Hn. done.
  - intros (_ & _ & H).
    exists (mkPath DATA_DIR ["boxes"; s +:+ ".md"]). split.
    + unfold stem. rewrite name_boxes_child, stem_of_md.
      apply route_segment_spec in Hr as [Hne _].
      by destruct (String.eqb_spec s "").
    + apply list_elem_of_fmap. exists (s +:+ ".md"). split; [done|].
      apply list_elem_of_filter. split; [apply endswith_app|].
      by apply elem_of_children.
Qed.

Lemma generate_box_id_read_only : read_only (generate_box_id DATA_DIR).
Proof.
  unfold generate_box_id. apply read_only_bind; [apply read_only_glob|].
  intros paths. destruct (scan _ _ _); [apply read_only_ret|apply read_only_raise].
Qed.

(** The id [generate_box_id] returns: without a record, with every
    smaller one recorded. *)
Lemma generate_box_id_least fs :
  ∃ n, generate_box_id DATA_DIR fs = (fs, Ok (box_name n))
    ∧ 1 ≤ n
    ∧ ¬ recorded DATA_DIR fs (box_name n)
    ∧ ∀ k, 1 ≤ k < n → recorded DATA_DIR fs (box_name k).
Proof.
  assert (∃ paths, glob (BOXES_DIR DATA_DIR) StarDotMd fs = (fs, Ok paths))
    as [paths Eg] by (rewrite glob_boxes; eauto).
  pose proof (λ k, existing_spec fs paths (box_name k) Eg (box_name_segment k)
                     (box_name_not_md k)) as Hspec.
  unfold generate_box_id, bind. rewrite Eg. cbn beta iota zeta.
  match goal with |- context [scan ?ex _ _] => set (existing := ex) in * end.
  destruct (scan_terminates existing 1) as [n Hscan]. rewrite Hscan.
  apply scan_Some in Hscan as (H1 & H2 & H3).
  exists n. split; [done|]. split; [done|]. split.
  - by rewrite <- Hspec.
  - intros k Hk. apply Hspec. by apply H3.
Qed.

(** The numerals of the box names. *)
Lemma zeros_length k : String.length (zeros k) = k.
Proof. induction k as [|k IH]; [done|]. simpl. by rewrite IH. Qed.

Lemma str_of_nat_head n :
  1 < String.length (str_of_nat n) → String.prefix "0" (str_of_nat n) = false.
Proof.
  unfold str_of_nat.
  assert (Nat.to_uint n = Decimal.unorm (Nat.to_uint n)) as E.
  { rewrite <- (DecimalNat.Unsigned.to_of (Nat.to_uint n)).
    by rewrite DecimalNat.Unsigned.of_to. }
  destruct (Nat.to_uint n) as [|u|u|u|u|u|u|u|u|u|u] eqn:Eu; try done.
  unfold Decimal.unorm in E.
  destruct (Decimal.nzhead (Decimal.D0 u)) as [|v|v|v|v|v|v|v|v|v|v] eqn:Eh;
    try discriminate E.
  - injection E as ->. simpl. lia.
  - by apply DecimalFacts.nzhead_nonzero in Eh.
Qed.

Lemma padded_numeral_format w n :
  1 ≤ w → padded_numeral w (format_0wd w n) n.
Proof.
  intros Hw.
  split; [apply format_0wd_length|]. split; [apply read_nat_format|].
  unfold format_0wd, zfill. rewrite str_app_length, zeros_length. intros H.
  assert (w - String.length (str_of_nat n) = 0) as E by lia. rewrite E.
  apply str_of_nat_head. lia.
Qed.

(** C3.  [generate_box_id] returns, in every state of the store, the
    id [box-NNN] of the least counter from 1 whose box has no record:
    [box-] followed by the decimal numeral of the counter, padded with
    zeros to three digits.  The returned id has no record, every
    smaller one has, and a second call right after the first returns
    the same id. *)
Theorem generate_box_id_smallest_unused fs :
  ∃ n d, 1 ≤ n
    ∧ padded_numeral 3 d n
    ∧ generate_box_id DATA_DIR fs = (fs, Ok ("box-" +:+ d))
    ∧ ¬ recorded DATA_DIR fs ("box-" +:+ d)
    ∧ eval (path_exists (box_file DATA_DIR ("box-" +:+ d))) fs ≠ Ok true
    ∧ (∀ k, 1 ≤ k < n → recorded DATA_DIR fs (box_name k))
    ∧ (let* a := generate_box_id DATA_DIR in
       let* b := generate_box_id DATA_DIR in
       ret (a, b)) fs = (fs, Ok ("box-" +:+ d, "box-" +:+ d)).
Proof.
  destruct (generate_box_id_least fs) as (n & Hgen & Hn & Hfree & Hbelow).
  exists n, (format_0wd 3 n). split; [done|].
  split; [apply padded_numeral_format; lia|].
  change ("box-" +:+ format_0wd 3 n) with (box_name n).
  do 2 (split; [done|]). split.
  - intros He. apply Hfree.
    by apply exists_recorded; [apply box_name_segment|].
  - split; [done|]. unfold bind. by rewrite !Hgen.
Qed.

(** The returned id depends only on which of the boxes up to it have a
    record: whatever happens between two calls, as long as none of
    these boxes is created or deleted, the second call returns what the
    first returned. *)
Lemma generate_box_id_stable fs fs' n :
  eval (generate_box_id DATA_DIR) fs = Ok (box_name n) →
  (∀ k, 1 ≤ k ≤ n →
     recorded DATA_DIR fs' (box_name k) ↔ recorded DATA_DIR fs (box_name k)) →
  eval (generate_box_id DATA_DIR) fs' = Ok (box_name n).
Proof.
  intros Hg Hsame.
  destruct (generate_box_id_least fs) as (m & Hgen & Hm & Hfree & Hbelow).
  unfold eval in Hg. rewrite Hgen in Hg. simpl in Hg.
  assert (m = n) as -> by (apply box_name_inj; congruence).
  destruct (generate_box_id_least fs') as (m' & Hgen' & Hm' & Hfree' & Hbelow').
  unfold eval at 1. rewrite Hgen'. simpl. do 2 f_equal.
  destruct (Nat.lt_trichotomy m' n) as [Hlt|[->|Hgt]]; [|done|].
  - exfalso. apply Hfree'. apply Hsame; [lia|]. apply Hbelow. lia.
  - exfalso. apply Hfree. apply Hsame; [lia|]. apply Hbelow'. lia.
Qed.

(** *** Paths of photos *)

(** What [secure_filename] returns holds only the characters
    [A-Za-z0-9_.-] and does not start with a dot or an underscore. *)
Lemma secure_filename_chars f :
  forall_chars filename_ascii_ok (secure_filename nfkd_ascii f) = true.
Proof.
  unfold secure_filename, strip_chars, strip_by.
  apply forall_chars_lstrip, forall_chars_rstrip, forall_chars_filter.
Qed.

Lemma secure_filename_head f c r :
  secure_filename nfkd_ascii f = String c r → mem_char c "._" = false.
Proof.
  unfold secure_filename, strip_chars, strip_by. intros H.
  by apply lstrip_by_head in H.
Qed.

Lemma secure_filename_segment f :
  mem_char "/"%char (secure_filename nfkd_ascii f) = false
  ∧ secure_filename nfkd_ascii f ≠ "."
  ∧ secure_filename nfkd_ascii f ≠ "..".
Proof.
  split.
  - apply (forall_chars_not_mem filename_ascii_ok); [done|].
    apply secure_filename_chars.
  - split; intros E; by apply secure_filename_head in E.
Qed.

Lemma path_parts_empty : path_parts "" = [].
Proof. reflexivity. Qed.

(** The path of a photo is the photo directory of the box, extended by
    the sanitised file name when that is not empty. *)
Lemma photo_path_eq box_id f :
  photo_path DATA_DIR nfkd_ascii box_id f
  = let dir := PHOTOS_DIR DATA_DIR </> box_id in
    if String.eqb (secure_filename nfkd_ascii f) "" then
      mkPath (anchor dir) (parts dir)
    else mkPath (anchor dir) (parts dir ++ [secure_filename nfkd_ascii f]).
Proof.
  unfold photo_path. simpl.
  destruct (secure_filename_segment f) as (H1 & H2 & H3).
  destruct (String.eqb_spec (secure_filename nfkd_ascii f) "") as [E|Hne].
  - rewrite E. unfold joinpath at 1. simpl. by rewrite app_nil_r.
  - by rewrite joinpath_segment.
Qed.

(** The photo path resolves to the place the photo directory of the box
    resolves to, or to an entry of it: the file name never leads out of
    that directory. *)
Lemma photo_path_under_box_dir fs box_id f l :
  locate fs (photo_path DATA_DIR nfkd_ascii box_id f) = Ok l →
  ∃ d, locate fs (PHOTOS_DIR DATA_DIR </> box_id) = Ok d
       ∧ (l = d ∨ l = d ++ [secure_filename nfkd_ascii f]).
Proof.
  rewrite photo_path_eq. simpl.
  destruct (secure_filename_segment f) as (H1 & H2 & H3).
  destruct (String.eqb_spec (secure_filename nfkd_ascii f) "") as [E|Hne].
  - intros H. exists l. split; [|by left].
    by destruct (PHOTOS_DIR DATA_DIR </> box_id).
  - intros [Hnul Hw]%locate_Ok. cbn [parts anchor] in Hnul, Hw.
    rewrite existsb_app in Hnul. apply orb_false_iff in Hnul as [Hnul _].
    rewrite walk_app in Hw.
    destruct (walk fs _ (parts _)) as [d|e] eqn:Ed; [|done].
    exists d. split; [unfold locate; by rewrite Hnul|]. right.
    cbn [walk] in Hw.
    destruct (fs !! d) as [[]|]; [done| |done].
    destruct (too_long _); [done|].
    destruct (String.eqb_spec (secure_filename nfkd_ascii f) ".."); [done|].
    by simplify_eq.
Qed.

Lemma ordinary_id_spec box_id :
  ordinary_id box_id = true
  ↔ route_segment box_id = true ∧ box_id ≠ "." ∧ box_id ≠ "..".
Proof.
  unfold ordinary_id. rewrite !andb_true_iff, !negb_true_iff.
  rewrite !String.eqb_neq. by rewrite (assoc and).
Qed.

Lemma photos_dir_eq box_id :
  ordinary_id box_id = true →
  PHOTOS_DIR DATA_DIR </> box_id = mkPath DATA_DIR ["photos"; box_id].
Proof.
  intros (Hr & H1 & H2)%ordinary_id_spec.
  apply route_segment_spec in Hr as [Hne Hs].
  rewrite PHOTOS_DIR_eq. by rewrite joinpath_segment.
Qed.

Abbreviation photos_loc box_id := (DATA_DIR ++ ["photos"; box_id]).

Lemma photos_loc_snoc (x : string) : photos_loc x = PHOTOS ++ [x].
Proof. by rewrite <- (assoc_L (++)). Qed.

Lemma locate_photos_dir_cases fs box_id :
  ordinary_id box_id = true →
  fs !! DATA_DIR = Some Dir → fs !! PHOTOS = Some Dir →
  locate fs (PHOTOS_DIR DATA_DIR </> box_id)
  = if has_nul box_id then Raise ValueError
    else if too_long box_id then Raise NameTooLong
    else Ok (photos_loc box_id).
Proof.
  intros Ho HD HP. rewrite photos_dir_eq by done.
  apply ordinary_id_spec in Ho as (_ & _ & H2).
  unfold locate. cbn [parts anchor existsb].
  change (has_nul "photos") with false. rewrite orb_false_r. cbn [orb].
  destruct (has_nul box_id); [done|]. cbn [walk]. rewrite HD.
  change (too_long "photos") with false. cbv iota.
  change (String.eqb "photos" "..") with false. cbv iota. rewrite HP.
  destruct (too_long box_id); [done|].
  destruct (String.eqb_spec box_id ".."); [done|].
  by rewrite <- (assoc_L (++)).
Qed.

Lemma locate_photos_dir fs box_id :
  ordinary_id box_id = true → fs_name box_id = true →
  fs !! DATA_DIR = Some Dir → fs !! PHOTOS = Some Dir →
  locate fs (PHOTOS_DIR DATA_DIR </> box_id) = Ok (photos_loc box_id).
Proof.
  intros Ho [H1 H2]%fs_name_spec HD HP.
  rewrite locate_photos_dir_cases by done. by rewrite H1, H2.
Qed.

(** Where the photo directory of a box resolves to, when it does. *)
Lemma locate_photos_dir_inv fs box_id d :
  ordinary_id box_id = true →
  locate fs (PHOTOS_DIR DATA_DIR </> box_id) = Ok d →
  d = photos_loc box_id ∧ fs_name box_id = true
  ∧ fs !! DATA_DIR = Some Dir ∧ fs !! PHOTOS = Some Dir.
Proof.
  intros Ho. rewrite photos_dir_eq by done.
  apply ordinary_id_spec in Ho as (_ & _ & H2).
  intros [Hnul Hw]%locate_Ok. cbn [parts anchor existsb walk] in Hnul, Hw.
  rewrite orb_false_r in Hnul. apply orb_false_iff in Hnul as [_ Hnul].
  destruct (fs !! DATA_DIR) as [[]|]; try done.
  destruct (too_long "photos"); [done|].
  change (String.eqb "photos" "..") with false in Hw. cbv iota in Hw.
  destruct (fs !! PHOTOS) as [[]|]; try done.
  destruct (too_long box_id) eqn:E; [done|].
  destruct (String.eqb_spec box_id ".."); [done|].
  injection Hw as <-. rewrite <- (assoc_L (++)).
  split; [done|]. split; [by apply fs_name_spec|done].
Qed.

(** For an ordinary id, every photo path that resolves stays inside
    [photos/<id>]. *)
Lemma photo_path_confined fs box_id f l :
  ordinary_id box_id = true →
  locate fs (photo_path DATA_DIR nfkd_ascii box_id f) = Ok l →
  photos_loc box_id `prefix_of` l.
Proof.
  intros Ho Hl. apply photo_path_under_box_dir in Hl as (d & Hd & Hl).
  apply locate_photos_dir_inv in Hd as (-> & _); [|done].
  destruct Hl as [->| ->]; [done|]. by apply prefix_app_r.
Qed.

(** The markdown file of a box is an entry of the boxes directory,
    whatever id the route carries. *)
Lemma box_file_confined fs box_id l :
  route_segment box_id = true →
  locate fs (box_file DATA_DIR box_id) = Ok l →
  l = BOXES ++ [box_id +:+ ".md"].
Proof.
  intros Hr. rewrite box_file_eq by done.
  destruct (md_name_facts _ Hr) as (_ & _ & _ & H4).
  intros [_ Hw]%locate_Ok. cbn [parts anchor walk] in Hw.
  destruct (fs !! DATA_DIR) as [[]|]; try done.
  destruct (too_long "boxes"); [done|].
  change (String.eqb "boxes" "..") with false in Hw. cbv iota in Hw.
  destruct (fs !! BOXES) as [[]|]; try done.
  destruct (too_long _); [done|].
  destruct (String.eqb_spec (box_id +:+ ".md") ".."); [done|].
  by injection Hw as <-.
Qed.

(** With the id [..] the photo directory of the box is the data
    directory itself, and a photo path names an entry of the data
    directory. *)
Lemma photo_path_dotdot fs f :
  fs !! DATA_DIR = Some Dir → fs !! PHOTOS = Some Dir →
  fs_name (secure_filename nfkd_ascii f) = true →
  locate fs (PHOTOS_DIR DATA_DIR </> "..") = Ok DATA_DIR
  ∧ (secure_filename nfkd_ascii f ≠ "" →
     locate fs (photo_path DATA_DIR nfkd_ascii ".." f)
     = Ok (DATA_DIR ++ [secure_filename nfkd_ascii f])).
Proof.
  intros HD HP Hn.
  assert (locate fs (PHOTOS_DIR DATA_DIR </> "..") = Ok DATA_DIR) as Hd.
  { rewrite PHOTOS_DIR_eq, joinpath_segment by done.
    unfold locate. cbn [parts anchor app].
    change (existsb has_nul ["photos"; ".."]) with false. cbv iota.
    cbn [walk]. rewrite HD.
    change (too_long "photos") with false. cbv iota.
    change (String.eqb "photos" "..") with false. cbv iota. rewrite HP.
    change (too_long "..") with false. cbv iota.
    change (String.eqb ".." "..") with true. cbv iota.
    by rewrite removelast_last. }
  split; [done|]. intros Hne.
  destruct (secure_filename_segment f) as (H1 & H2 & H3).
  rewrite photo_path_eq. cbv zeta.
  destruct (String.eqb_spec (secure_filename nfkd_ascii f) ""); [done|].
  rewrite (locate_child fs (PHOTOS_DIR DATA_DIR </> "..") DATA_DIR); done.
Qed.

(** *** Deleting a box *)

(** Unlinking, one after the other, entries of a directory that are
    regular files removes exactly these entries. *)
Lemma for_each_unlink fs a ps d ns :
  locate fs (mkPath a ps) = Ok d → fs !! d = Some Dir → NoDup ns →
  (∀ n, n ∈ ns → n ≠ ".." ∧ fs_name n = true
                 ∧ ∃ c t, fs !! (d ++ [n]) = Some (File c t)) →
  ∃ fs', for_each ((λ n, mkPath a (ps ++ [n])) <$> ns) unlink fs = (fs', Ok tt)
    ∧ (∀ n, n ∈ ns → fs' !! (d ++ [n]) = None)
    ∧ (∀ k, (∀ n, n ∈ ns → k ≠ d ++ [n]) → fs' !! k = fs !! k).
Proof.
  revert fs. induction ns as [|x r IH]; intros fs Hw Hd Hnd Hfiles.
  { exists fs. split; [done|]. split; [by intros n ?%elem_of_nil|done]. }
  apply NoDup_cons in Hnd as [Hx Hr].
  destruct (Hfiles x) as (Hx2 & Hx3 & c & t & Hfx); [left|].
  set (fs1 := delete (d ++ [x]) fs).
  assert (unlink (mkPath a (ps ++ [x])) fs = (fs1, Ok tt)) as Hun.
  { unfold unlink.
    pose proof (locate_child fs (mkPath a ps) d x Hw Hd Hx3 Hx2) as Hl.
    cbn [anchor parts] in Hl. by rewrite Hl, Hfx. }
  destruct (IH fs1) as (fs' & Hrun & Hgone & Hframe); [| |done| |].
  - apply locate_delete; [by rewrite Hfx|done].
  - unfold fs1. rewrite lookup_delete_ne; [done|].
    intros E. by apply longer_ne in E.
  - intros n Hn. destruct (Hfiles n) as (? & ? & c' & t' & ?); [by right|].
    split; [done|]. split; [done|].
    exists c', t'. unfold fs1. rewrite lookup_delete_ne; [done|].
    intros E%(inj (app d)). by simplify_eq.
  - exists fs'. split; [|split].
    + rewrite fmap_cons. cbn [for_each]. unfold bind. by rewrite Hun.
    + intros n [->|Hn]%elem_of_cons; [|by apply Hgone].
      destruct (decide (x ∈ r)) as [|Hxr]; [by apply Hgone|].
      rewrite Hframe.
      * apply lookup_delete_eq.
      * intros n Hn E%(inj (app d)). by simplify_eq.
    + intros k Hk. rewrite Hframe.
      * unfold fs1. apply lookup_delete_ne. intros E. by apply (Hk x); [left|].
      * intros n Hn. apply Hk. by right.
Qed.

Lemma filter_any_name (ns : list string) :
  filter (λ n, pattern_match AnyName n = true) ns = ns.
Proof.
  induction ns as [|n ns IH]; [done|].
  rewrite filter_cons, decide_True by done. by rewrite IH.
Qed.

Lemma box_loc_ne_photos x : box_loc x ≠ PHOTOS.
Proof.
  rewrite box_loc_snoc. intros E.
  apply (f_equal length) in E. rewrite !length_app in E. simpl in E. lia.
Qed.

Lemma box_loc_ne_photos_loc x y : box_loc x ≠ photos_loc y.
Proof. by intros E%(inj (app DATA_DIR)). Qed.

Lemma box_loc_ne_photo x y n : box_loc x ≠ photos_loc y ++ [n].
Proof.
  rewrite <- (assoc_L (++)). by intros E%(inj (app DATA_DIR)).
Qed.

Lemma photos_loc_ne_data x : photos_loc x ≠ DATA_DIR.
Proof. by apply longer_ne. Qed.

Lemma photos_loc_ne_photos x : photos_loc x ≠ PHOTOS.
Proof. rewrite photos_loc_snoc. by apply longer_ne. Qed.

Lemma photo_ne_data x n : photos_loc x ++ [n] ≠ DATA_DIR.
Proof. rewrite <- (assoc_L (++)). by apply longer_ne. Qed.

Lemma photo_ne_photos x n : photos_loc x ++ [n] ≠ PHOTOS.
Proof.
  rewrite photos_loc_snoc, <- (assoc_L (++)). by apply longer_ne.
Qed.

Lemma bind_run {A B} (m : M A) (k : A → M B) fs fs1 a :
  m fs = (fs1, Ok a) → bind m k fs = k a fs1.
Proof. intros H. unfold bind. by rewrite H. Qed.

Lemma bind_raise {A B} (m : M A) (k : A → M B) fs fs1 e :
  m fs = (fs1, Raise e) → bind m k fs = (fs1, Raise e).
Proof. intros H. unfold bind. by rewrite H. Qed.

Lemma path_exists_photos_dir fs box_id :
  ordinary_id box_id = true → fs_name box_id = true →
  fs !! DATA_DIR = Some Dir → fs !! PHOTOS = Some Dir →
  path_exists (PHOTOS_DIR DATA_DIR </> box_id) fs
  = (fs, Ok (bool_decide (is_Some (fs !! photos_loc box_id)))).
Proof.
  intros Ho Hn HD HP. unfold path_exists. by rewrite locate_photos_dir.
Qed.

Lemma secure_filename_no_nul f : has_nul (secure_filename nfkd_ascii f) = false.
Proof.
  apply (forall_chars_not_mem filename_ascii_ok); [done|].
  apply secure_filename_chars.
Qed.

(** Where the path of a photo resolves to, for a file name that is not
    sanitised away. *)
Lemma locate_photo_cases fs box_id f :
  ordinary_id box_id = true → fs_name box_id = true →
  fs !! DATA_DIR = Some Dir → fs !! PHOTOS = Some Dir →
  secure_filename nfkd_ascii f ≠ "" →
  locate fs (photo_path DATA_DIR nfkd_ascii box_id f)
  = match fs !! photos_loc box_id with
    | Some Dir =>
        if too_long (secure_filename nfkd_ascii f) then Raise NameTooLong
        else Ok (photos_loc box_id ++ [secure_filename nfkd_ascii f])
    | Some (File _ _) => Raise NotADirectoryError
    | None => Raise FileNotFoundError
    end.
Proof.
  intros Ho Hn HD HP Hs.
  pose proof (locate_photos_dir fs box_id Ho Hn HD HP) as Hd.
  apply locate_Ok in Hd as [Hnul Hw].
  rewrite photo_path_eq. cbv zeta.
  destruct (String.eqb_spec (secure_filename nfkd_ascii f) ""); [done|].
  unfold locate. cbn [parts anchor].
  rewrite existsb_app, Hnul. cbn [existsb orb].
  rewrite secure_filename_no_nul. cbn [orb].
  rewrite walk_app, Hw. cbn [walk].
  destruct (fs !! photos_loc box_id) as [[]|]; [done| |done].
  destruct (too_long _); [done|].
  destruct (secure_filename_segment f) as (_ & _ & H3).
  by destruct (String.eqb_spec (secure_filename nfkd_ascii f) "..").
Qed.

(** The second half of [delete_box]: the photos, then their directory. *)
Lemma remove_photos fs box_id :
  ordinary_id box_id = true → fs_name box_id = true →
  fs !! DATA_DIR = Some Dir → fs !! PHOTOS = Some Dir →
  (∀ c t, fs !! photos_loc box_id ≠ Some (File c t)) →
  (∀ n v, fs !! (photos_loc box_id ++ [n]) = Some v →
          fs !! photos_loc box_id = Some Dir ∧ n ≠ ".." ∧ fs_name n = true
          ∧ ∃ c t, v = File c t) →
  ∃ fs',
    when (bool_decide (is_Some (fs !! photos_loc box_id)))
      (let* photos := glob (PHOTOS_DIR DATA_DIR </> box_id) AnyName in
       for_each photos unlink >> rmdir (PHOTOS_DIR DATA_DIR </> box_id)) fs
    = (fs', Ok tt)
    ∧ fs' !! photos_loc box_id = None
    ∧ (∀ n, fs' !! (photos_loc box_id ++ [n]) = None)
    ∧ (∀ k, k ≠ photos_loc box_id → (∀ n, k ≠ photos_loc box_id ++ [n]) →
            fs' !! k = fs !! k).
Proof.
  intros Ho Hn HD HP Hdir Hent.
  pose proof (locate_photos_dir fs box_id Ho Hn HD HP) as Hloc.
  destruct (fs !! photos_loc box_id) as [[c t|]|] eqn:Ephotos;
    [by destruct (Hdir c t)| |].
  2:{ rewrite bool_decide_eq_false_2 by (by intros [? ?]).
      exists fs. split; [done|]. split; [done|]. split; [|done].
      intros n. apply eq_None_not_Some. intros [v Hv].
      by destruct (Hent n v Hv) as [? _]. }
  rewrite bool_decide_eq_true_2 by eauto. cbn [when].
  set (ns := children fs (photos_loc box_id)).
  assert (glob (PHOTOS_DIR DATA_DIR </> box_id) AnyName fs
          = (fs, Ok ((λ n, mkPath DATA_DIR (["photos"; box_id] ++ [n])) <$> ns)))
    as Hglob.
  { unfold glob. rewrite Hloc. unfold is_dir_at. rewrite Ephotos.
    rewrite filter_any_name. by rewrite photos_dir_eq. }
  destruct (for_each_unlink fs DATA_DIR ["photos"; box_id]
              (photos_loc box_id) ns) as (fs2 & Hrun & Hgone & Hframe).
  { rewrite <- Hloc. by rewrite photos_dir_eq. }
  { done. }
  { apply NoDup_children. }
  { intros n [v Hv]%elem_of_children.
    destruct (Hent n v Hv) as (_ & ? & ? & c & t & ->). eauto. }
  assert (∀ n, fs2 !! (photos_loc box_id ++ [n]) = None) as Hnone.
  { intros n. destruct (decide (n ∈ ns)) as [Hin|Hnin]; [by apply Hgone|].
    rewrite Hframe.
    - apply eq_None_not_Some. by rewrite <- elem_of_children.
    - intros m Hm E%(inj (app _)). by simplify_eq. }
  assert (∀ k, (∀ n, k ≠ photos_loc box_id ++ [n]) → fs2 !! k = fs !! k)
    as Hframe'.
  { intros k Hk. apply Hframe. intros n _. apply Hk. }
  assert (rmdir (PHOTOS_DIR DATA_DIR </> box_id) fs2
          = (delete (photos_loc box_id) fs2, Ok tt)) as Hrm.
  { unfold rmdir. rewrite locate_photos_dir; [|done|done| |].
    - rewrite Hframe', Ephotos.
      + by rewrite (proj2 (children_nil fs2 (photos_loc box_id)) Hnone).
      + intros n E. symmetry in E. by apply longer_ne in E.
    - rewrite Hframe'; [done|]. intros n E. symmetry in E.
      by apply photo_ne_data in E.
    - rewrite Hframe'; [done|]. intros n E. symmetry in E.
      by apply photo_ne_photos in E. }
  exists (delete (photos_loc box_id) fs2). split.
  { rewrite (bind_run _ _ _ _ _ Hglob).
    rewrite (bind_run _ _ _ _ _ Hrun). exact Hrm. }
  split; [apply lookup_delete_eq|]. split.
  - intros n. rewrite lookup_delete_ne; [apply Hnone|].
    apply not_eq_sym, longer_ne. done.
  - intros k Hk1 Hk2. rewrite lookup_delete_ne by done. by apply Hframe'.
Qed.

(** Deleting a box with an ordinary id, in a store where entries live
    in directories and the photo directory of the box holds regular
    files only: the handler redirects to the index, the record, the
    photos and the photo directory are gone, and nothing else has
    changed.  It does not matter whether the record or the photo
    directory existed. *)
Lemma delete_box_cascade fs box_id :
  ordinary_id box_id = true → fs_name (box_id +:+ ".md") = true →
  fs !! DATA_DIR = Some Dir → fs !! BOXES = Some Dir → fs !! PHOTOS = Some Dir →
  fs !! box_loc box_id ≠ Some Dir →
  (∀ c t, fs !! photos_loc box_id ≠ Some (File c t)) →
  (∀ n v, fs !! (photos_loc box_id ++ [n]) = Some v →
          fs !! photos_loc box_id = Some Dir ∧ n ≠ ".." ∧ fs_name n = true
          ∧ ∃ c t, v = File c t) →
  ∃ fs', delete_box DATA_DIR box_id fs = (fs', Ok (Redirect Ep_index))
    ∧ (∀ k, of_box DATA_DIR box_id k → fs' !! k = None)
    ∧ (∀ k, ¬ of_box DATA_DIR box_id k → fs' !! k = fs !! k).
Proof.
  intros Ho Hmd HD HB HP Hbox Hdir Hent.
  pose proof Ho as (Hr & Hdot & Hdotdot)%ordinary_id_spec.
  pose proof (fs_name_md _ Hmd) as Hn.
  set (fs1 := delete (box_loc box_id) fs).
  assert (path_exists (box_file DATA_DIR box_id) fs
          = (fs, Ok (bool_decide (is_Some (fs !! box_loc box_id))))) as S1.
  { unfold path_exists. by rewrite locate_box_file. }
  assert (when (bool_decide (is_Some (fs !! box_loc box_id)))
            (unlink (box_file DATA_DIR box_id)) fs = (fs1, Ok tt)) as S2.
  { destruct (fs !! box_loc box_id) as [[]|] eqn:E; [|done|].
    - rewrite bool_decide_eq_true_2 by eauto. simpl.
      unfold unlink. by rewrite locate_box_file, E by done.
    - rewrite bool_decide_eq_false_2 by (by intros [? ?]). simpl.
      unfold fs1. by rewrite delete_id. }
  assert (fs1 !! DATA_DIR = Some Dir) as HD1.
  { unfold fs1. rewrite lookup_delete_ne; [done|apply box_loc_ne_data]. }
  assert (fs1 !! PHOTOS = Some Dir) as HP1.
  { unfold fs1. rewrite lookup_delete_ne; [done|apply box_loc_ne_photos]. }
  assert (fs1 !! photos_loc box_id = fs !! photos_loc box_id) as Hsame.
  { unfold fs1. apply lookup_delete_ne, box_loc_ne_photos_loc. }
  assert (∀ n, fs1 !! (photos_loc box_id ++ [n])
               = fs !! (photos_loc box_id ++ [n])) as Hsame'.
  { intros n. unfold fs1. apply lookup_delete_ne, box_loc_ne_photo. }
  destruct (remove_photos fs1 box_id Ho Hn HD1 HP1)
    as (fs' & S4 & Hgone1 & Hgone2 & Hframe).
  { intros c t. rewrite Hsame. apply Hdir. }
  { intros n v. rewrite Hsame', Hsame. apply Hent. }
  exists fs'. split.
  { unfold delete_box.
    rewrite (bind_run _ _ _ _ _ S1). rewrite (bind_run _ _ _ _ _ S2).
    rewrite (bind_run _ _ _ _ _
               (path_exists_photos_dir fs1 box_id Ho Hn HD1 HP1)).
    by rewrite (bind_run _ _ _ _ _ S4). }
  split.
  - intros k [->|[->|[n ->]]]; [|done|done].
    rewrite Hframe.
    + apply lookup_delete_eq.
    + apply box_loc_ne_photos_loc.
    + intros n. apply box_loc_ne_photo.
  - intros k Hk. rewrite Hframe.
    + unfold fs1. apply lookup_delete_ne. intros <-. apply Hk. by left.
    + intros ->. apply Hk. right. by left.
    + intros n ->. apply Hk. right. right. eauto.
Qed.

(** *** Listing the boxes *)

Lemma for_collect_run {A B} (l : list A) (f : A → M B) (g : A → B) fs :
  (∀ x, x ∈ l → f x fs = (fs, Ok (g x))) →
  for_collect l f fs = (fs, Ok (g <$> l)).
Proof.
  induction l as [|x l IH]; intros H; [done|]. cbn [for_collect].
  rewrite (bind_run _ _ _ _ _ (H x ltac:(left))).
  rewrite (bind_run _ _ _ _ _ (IH (λ y Hy, H y ltac:(by right)))). done.
Qed.

Lemma split_not_nil sep (s : string) : split sep s ≠ [].
Proof.
  destruct s as [|c s]; [done|]. simpl.
  destruct (Ascii.eqb c sep); [done|]. by destruct (split sep s).
Qed.

Lemma title_of_lines_split content box_id :
  title_of_lines (split LF (strip content)) box_id = title_of content.
Proof.
  unfold title_of, title_of_lines.
  pose proof (split_not_nil LF (strip content)).
  by destruct (split LF (strip content)).
Qed.

Lemma endswith_md_not_dotdot nm : endswith ".md" nm = true → nm ≠ "..".
Proof. by intros H ->. Qed.

(** The listing, when every markdown entry is a regular file with a
    name the file system accepts. *)
Lemma get_all_boxes_eval fs :
  (∀ nm v, fs !! (BOXES ++ [nm]) = Some v → endswith ".md" nm = true →
           fs_name nm = true ∧ ∃ c t, v = File c t) →
  get_all_boxes DATA_DIR fs
  = (fs, Ok (merge_sort newer_first (entry_of DATA_DIR fs <$> md_names DATA_DIR fs))).
Proof.
  intros Hfiles. unfold get_all_boxes.
  rewrite (bind_run _ _ _ _ _ (glob_boxes fs)).
  unfold md_names.
  destruct (is_dir_at fs DATA_DIR && is_dir_at fs BOXES) eqn:Ed; [|done].
  apply andb_true_iff in Ed as [HD HB]. unfold is_dir_at in HD, HB.
  destruct (fs !! DATA_DIR) as [[]|] eqn:ED; try done.
  destruct (fs !! BOXES) as [[]|] eqn:EB; try done.
  erewrite bind_run; [reflexivity|].
  rewrite (for_collect_run _ _
             (λ p, entry_of DATA_DIR fs (name p))).
  { rewrite <- list_fmap_compose. do 2 f_equal.
    apply list_fmap_ext. intros i n _. simpl. by rewrite name_boxes_child. }
  intros p (nm & -> & Hnm)%list_elem_of_fmap.
  apply list_elem_of_filter in Hnm as [Hmd [v Hv]%elem_of_children].
  destruct (Hfiles nm v Hv Hmd) as ([N1 N2]%fs_name_spec & c & t & ->).
  assert (locate fs (mkPath DATA_DIR ["boxes"; nm]) = Ok (BOXES ++ [nm])) as Hl.
  { rewrite locate_boxes_child; [by rewrite N1, N2|done..|].
    by apply endswith_md_not_dotdot. }
  assert (read_text (mkPath DATA_DIR ["boxes"; nm]) fs
          = (fs, Ok (universal_newlines c))) as Hread.
  { unfold read_text. by rewrite Hl, Hv. }
  assert (stat_mtime (mkPath DATA_DIR ["boxes"; nm]) fs = (fs, Ok t)) as Hstat.
  { unfold stat_mtime. by rewrite Hl, Hv. }
  rewrite (bind_run _ _ _ _ _ Hread). rewrite (bind_run _ _ _ _ _ Hstat).
  unfold entry_of, stem. rewrite name_boxes_child, Hv.
  by rewrite title_of_lines_split.
Qed.

(** Every entry of the listing is the entry of a markdown file that is
    there. *)
Lemma elem_of_listing fs b :
  b ∈ merge_sort newer_first (entry_of DATA_DIR fs <$> md_names DATA_DIR fs) →
  ∃ nm, is_Some (fs !! (BOXES ++ [nm])) ∧ endswith ".md" nm = true
        ∧ b = entry_of DATA_DIR fs nm.
Proof.
  rewrite merge_sort_Permutation.
  intros (nm & -> & Hnm)%list_elem_of_fmap. exists nm.
  unfold md_names in Hnm. destruct (_ && _); [|by apply elem_of_nil in Hnm].
  apply list_elem_of_filter in Hnm as [Hmd Hin%elem_of_children]. done.
Qed.

Lemma entry_of_id fs nm : id (entry_of DATA_DIR fs nm) = stem_of nm.
Proof. unfold entry_of. by destruct (fs !! _) as [[]|]. Qed.

(** A box that is not there is not listed, unless a file named [.md]
    (the record of the empty id, which no route creates) stands for
    the id [.md]. *)
Lemma listing_excludes fs box_id b :
  route_segment box_id = true →
  fs !! box_loc box_id = None → fs !! (BOXES ++ [".md"]) = None →
  b ∈ merge_sort newer_first (entry_of DATA_DIR fs <$> md_names DATA_DIR fs) →
  id b ≠ box_id.
Proof.
  intros Hr Hnone Hempty (nm & [v Hv] & Hmd & ->)%elem_of_listing.
  rewrite entry_of_id. intros E.
  apply endswith_inv in Hmd as [x ->]. rewrite stem_of_md in E.
  destruct (String.eqb_spec x "") as [->|_].
  - change ("" +:+ ".md") with ".md" in Hv. congruence.
  - subst x. rewrite <- box_loc_snoc in Hv. congruence.
Qed.

(** A photo path in a box without photo directory does not exist. *)
Lemma photo_path_no_dir fs box_id f :
  ordinary_id box_id = true → fs_name box_id = true →
  fs !! DATA_DIR = Some Dir → fs !! PHOTOS = Some Dir →
  fs !! photos_loc box_id = None →
  path_exists (photo_path DATA_DIR nfkd_ascii box_id f) fs = (fs, Ok false).
Proof.
  intros Ho Hn HD HP Hnone. unfold path_exists.
  destruct (decide (secure_filename nfkd_ascii f = "")) as [E|Hs].
  - rewrite photo_path_eq, E. cbv zeta. cbn [String.eqb].
    pose proof (locate_photos_dir fs box_id Ho Hn HD HP) as Hd.
    destruct (PHOTOS_DIR DATA_DIR </> box_id) as [a ps].
    cbn [anchor parts]. rewrite Hd, Hnone.
    by rewrite bool_decide_eq_false_2 by (by intros [? ?]).
  - by rewrite locate_photo_cases, Hnone by done.
Qed.

Lemma get_photo_no_dir fs box_id f :
  ordinary_id box_id = true → fs_name box_id = true →
  fs !! DATA_DIR = Some Dir → fs !! PHOTOS = Some Dir →
  fs !! photos_loc box_id = None →
  get_photo DATA_DIR nfkd_ascii box_id f fs = (fs, Ok Not_found_404).
Proof.
  intros Ho Hn HD HP Hnone. unfold get_photo.
  by rewrite (bind_run _ _ _ _ _ (photo_path_no_dir fs box_id f Ho Hn HD HP Hnone)).
Qed.

(** Deleting a box, as the specification describes it, for a box with
    an ordinary id in a store laid out as the application lays it out:
    the handler succeeds whether or not the record and the photo
    directory exist; afterwards the record, the photos and the photo
    directory are gone, the listing succeeds and does not show the box,
    and serving any photo of the box answers 404. *)
Lemma delete_box_spec fs box_id :
  ordinary_id box_id = true → fs_name (box_id +:+ ".md") = true →
  fs !! DATA_DIR = Some Dir → fs !! BOXES = Some Dir → fs !! PHOTOS = Some Dir →
  (∀ nm v, fs !! (BOXES ++ [nm]) = Some v →
           fs_name nm = true ∧ ∃ c t, v = File c t) →
  fs !! (BOXES ++ [".md"]) = None →
  (∀ c t, fs !! photos_loc box_id ≠ Some (File c t)) →
  (∀ n v, fs !! (photos_loc box_id ++ [n]) = Some v →
          fs !! photos_loc box_id = Some Dir ∧ n ≠ ".." ∧ fs_name n = true
          ∧ ∃ c t, v = File c t) →
  ∃ fs', delete_box DATA_DIR box_id fs = (fs', Ok (Redirect Ep_index))
    ∧ (∀ k, of_box DATA_DIR box_id k → fs' !! k = None)
    ∧ (∀ k, ¬ of_box DATA_DIR box_id k → fs' !! k = fs !! k)
    ∧ (∃ boxes, get_all_boxes DATA_DIR fs' = (fs', Ok boxes)
                ∧ ∀ b, b ∈ boxes → id b ≠ box_id)
    ∧ (∀ f, get_photo DATA_DIR nfkd_ascii box_id f fs' = (fs', Ok Not_found_404)).
Proof.
  intros Ho Hmd HD HB HP Hfiles Hempty Hdir Hent.
  pose proof Ho as (Hr & _)%ordinary_id_spec.
  destruct (delete_box_cascade fs box_id Ho Hmd HD HB HP)
    as (fs' & Hrun & Hgone & Hframe); [|done|done|].
  { rewrite box_loc_snoc. intros E.
    by destruct (Hfiles _ _ E) as (_ & ? & ? & ?). }
  assert (∀ nm, fs' !! (BOXES ++ [nm]) = None
                ∨ fs' !! (BOXES ++ [nm]) = fs !! (BOXES ++ [nm])) as Hcases.
  { intros nm. destruct (decide (nm = box_id +:+ ".md")) as [->|Hne].
    - left. apply Hgone. left. by rewrite box_loc_snoc.
    - right. apply Hframe. rewrite <- box_loc_snoc.
      intros [E|[E|[n E]]].
      + apply (inj (app DATA_DIR)) in E. by simplify_eq.
      + by apply (inj (app DATA_DIR)) in E.
      + rewrite <- (assoc_L (++)) in E. by apply (inj (app DATA_DIR)) in E. }
  assert (¬ of_box DATA_DIR box_id DATA_DIR) as ND.
  { intros [E|[E|[n E]]]; symmetry in E.
    - by apply box_loc_ne_data in E.
    - by apply photos_loc_ne_data in E.
    - by apply photo_ne_data in E. }
  assert (¬ of_box DATA_DIR box_id PHOTOS) as NP.
  { intros [E|[E|[n E]]]; symmetry in E.
    - by apply box_loc_ne_photos in E.
    - by apply photos_loc_ne_photos in E.
    - by apply photo_ne_photos in E. }
  exists fs'. do 3 (split; [done|]). split.
  - eexists. split.
    + apply get_all_boxes_eval. intros nm v Hv _.
      destruct (Hcases nm) as [E|E]; rewrite E in Hv; [done|].
      by apply (Hfiles nm).
    + intros b Hb. apply (listing_excludes fs' box_id b); [done| | |done].
      * apply Hgone. by left.
      * destruct (Hcases ".md") as [E|E]; [done|congruence].
  - intros f. apply get_photo_no_dir; [done|by apply fs_name_md| | |].
    + by rewrite Hframe.
    + by rewrite Hframe.
    + apply Hgone. right. by left.
Qed.

(** *** The layout of the store *)

Lemma grandchild_spec l k b n :
  grandchild l k = Some (b, n) ↔ k = l ++ [b; n].
Proof.
  unfold grandchild. split.
  - destruct (last k) as [m|] eqn:E; [|done].
    apply last_Some in E as [k' ->]. rewrite removelast_last.
    destruct (child_name l k') as [b'|] eqn:E'; [|done].
    apply child_name_spec in E' as ->. intros [= -> ->].
    by rewrite <- (assoc_L (++)).
  - intros ->. change [b; n] with ([b] ++ [n]).
    rewrite (assoc_L (++)), last_snoc, removelast_last.
    by rewrite (proj2 (child_name_spec l (l ++ [b]) b) eq_refl).
Qed.

Lemma is_dir_at_true fs l : is_dir_at fs l = true ↔ fs !! l = Some Dir.
Proof. unfold is_dir_at. by destruct (fs !! l) as [[]|]. Qed.

Lemma is_file_true v : is_file v = true ↔ ∃ c t, v = File c t.
Proof.
  destruct v as [c t|]; simpl; split; [eauto|done|done|].
  by intros (? & ? & ?).
Qed.

Lemma is_dir_true v : is_dir v = true ↔ v = Dir.
Proof. by destruct v. Qed.

Lemma layout_ok_spec fs : layout_ok DATA_DIR fs = true ↔ Layout DATA_DIR fs.
Proof.
  unfold layout_ok. rewrite !andb_true_iff, !is_dir_at_true, forallb_forall.
  split.
  - intros [[[HD HB] HP] Hall].
    assert (∀ k v, fs !! k = Some v → entry_ok DATA_DIR fs k v = true) as Hok.
    { intros k v Hkv. apply (Hall (k, v)).
      apply list_elem_of_In. by apply elem_of_map_to_list. }
    assert (∀ n v, fs !! (BOXES ++ [n]) = Some v →
                   is_file v = true ∧ String.eqb n ".md" = false
                   ∧ fs_name n = true) as Hr.
    { intros n v Hv. specialize (Hok _ _ Hv). unfold entry_ok in Hok.
      rewrite (proj2 (child_name_spec BOXES (BOXES ++ [n]) n) eq_refl) in Hok.
      rewrite !andb_true_iff, negb_true_iff in Hok.
      by destruct Hok as [[[[? ?] ?] _] _]. }
    assert (∀ b v, fs !! (PHOTOS ++ [b]) = Some v →
                   is_dir v = true ∧ fs_name b = true) as Hd.
    { intros b v Hv. specialize (Hok _ _ Hv). unfold entry_ok in Hok.
      rewrite (proj2 (child_name_spec PHOTOS (PHOTOS ++ [b]) b) eq_refl) in Hok.
      rewrite !andb_true_iff in Hok. by destruct Hok as [[_ [? ?]] _]. }
    assert (∀ b n v, fs !! (PHOTOS ++ [b; n]) = Some v →
                     is_file v = true ∧ String.eqb n ".." = false
                     ∧ is_dir_at fs (PHOTOS ++ [b]) = true
                     ∧ fs_name n = true) as Hp.
    { intros b n v Hv. specialize (Hok _ _ Hv). unfold entry_ok in Hok.
      rewrite (proj2 (grandchild_spec PHOTOS (PHOTOS ++ [b; n]) b n) eq_refl)
        in Hok.
      rewrite !andb_true_iff, negb_true_iff in Hok.
      by destruct Hok as [_ [[[? ?] ?] ?]]. }
    split; [done..| | | | | |].
    + intros n v (Hf & Hn & _)%Hr. split; [by apply is_file_true|].
      by apply String.eqb_neq.
    + intros b v [Hv _]%Hd. by apply is_dir_true.
    + intros b n v (Hf & Hn & Hb & _)%Hp. split; [by apply is_file_true|].
      split; [by apply String.eqb_neq|by apply is_dir_at_true].
    + by intros n v (_ & _ & ?)%Hr.
    + by intros b v [_ ?]%Hd.
    + by intros b n v (_ & _ & _ & ?)%Hp.
  - intros [HD HB HP Hrec Hdir Hph Hrn Hdn Hpn]. split; [done|].
    intros [k v] Hin%list_elem_of_In%elem_of_map_to_list. simpl.
    unfold entry_ok. rewrite !andb_true_iff. split; [split|].
    + destruct (child_name BOXES k) as [n|] eqn:E; [|done].
      apply child_name_spec in E as ->. destruct (Hrec n v Hin) as [Hf Hn].
      rewrite !andb_true_iff. split; [split|]; [by apply is_file_true| |by eauto].
      apply negb_true_iff. by apply String.eqb_neq.
    + destruct (child_name PHOTOS k) as [b|] eqn:E; [|done].
      apply child_name_spec in E as ->. apply andb_true_iff.
      split; [apply is_dir_true; by apply (Hdir b)|by eauto].
    + destruct (grandchild PHOTOS k) as [[b n]|] eqn:E; [|done].
      apply grandchild_spec in E as ->. destruct (Hph b n v Hin) as (Hf & Hn & Hd).
      rewrite !andb_true_iff. split; [split; [split|]|].
      * by apply is_file_true.
      * apply negb_true_iff. by apply String.eqb_neq.
      * by apply is_dir_at_true.
      * by eauto.
Qed.

Lemma app_eq_self {A} (l r : list A) : l ++ r = l → r = [].
Proof.
  intros E. destruct r; [done|]. by apply longer_ne in E.
Qed.

(** Keys of the store are compared through what follows [DATA_DIR]. *)
Ltac key_eq E :=
  rewrite <- ?(assoc_L (++)) in E; cbn [app] in E;
  first [ apply (inj (app _)) in E
        | apply app_eq_self in E
        | symmetry in E; apply app_eq_self in E ];
  simplify_eq.

Ltac key_ne := let E := fresh "E" in intros E; key_eq E.

Lemma Layout_insert_record fs n c t :
  Layout DATA_DIR fs → n ≠ ".md" → fs_name n = true →
  Layout DATA_DIR (<[BOXES ++ [n] := File c t]> fs).
Proof.
  intros [HD HB HP Hrec Hdir Hph Hrn Hdn Hpn] Hn Hnm. split.
  - rewrite lookup_insert_ne by key_ne. done.
  - rewrite lookup_insert_ne by key_ne. done.
  - rewrite lookup_insert_ne by key_ne. done.
  - intros n' v. destruct (decide (n = n')) as [<-|Hne].
    + rewrite lookup_insert_eq. intros [= <-]. eauto.
    + rewrite lookup_insert_ne by key_ne. apply Hrec.
  - intros b v. rewrite lookup_insert_ne by key_ne. apply Hdir.
  - intros b n' v. rewrite !lookup_insert_ne by key_ne. apply Hph.
  - intros n' v. destruct (decide (n = n')) as [<-|Hne]; [done|].
    rewrite lookup_insert_ne by key_ne. apply Hrn.
  - intros b v. rewrite lookup_insert_ne by key_ne. apply Hdn.
  - intros b n' v. rewrite !lookup_insert_ne by key_ne. apply Hpn.
Qed.

Lemma Layout_insert_photo_dir fs b :
  Layout DATA_DIR fs → fs_name b = true →
  Layout DATA_DIR (<[PHOTOS ++ [b] := Dir]> fs).
Proof.
  intros [HD HB HP Hrec Hdir Hph Hrn Hdn Hpn] Hnm. split.
  - rewrite lookup_insert_ne by key_ne. done.
  - rewrite lookup_insert_ne by key_ne. done.
  - rewrite lookup_insert_ne by key_ne. done.
  - intros n v. rewrite lookup_insert_ne by key_ne. apply Hrec.
  - intros b' v. destruct (decide (b = b')) as [<-|Hne].
    + rewrite lookup_insert_eq. by intros [= <-].
    + rewrite lookup_insert_ne by key_ne. apply Hdir.
  - intros b' n v. rewrite lookup_insert_ne by key_ne.
    intros (Hf & Hn & Hd)%Hph. split; [done|]. split; [done|].
    destruct (decide (b = b')) as [<-|Hne].
    + apply lookup_insert_eq.
    + by rewrite lookup_insert_ne by key_ne.
  - intros n v. rewrite lookup_insert_ne by key_ne. apply Hrn.
  - intros b' v. destruct (decide (b = b')) as [<-|Hne]; [done|].
    rewrite lookup_insert_ne by key_ne. apply Hdn.
  - intros b' n v. rewrite lookup_insert_ne by key_ne. apply Hpn.
Qed.

Lemma Layout_insert_photo fs b n c t :
  Layout DATA_DIR fs → fs !! (PHOTOS ++ [b]) = Some Dir → n ≠ ".." →
  fs_name n = true →
  Layout DATA_DIR (<[PHOTOS ++ [b; n] := File c t]> fs).
Proof.
  intros [HD HB HP Hrec Hdir Hph Hrn Hdn Hpn] Hb Hn Hnm. split.
  - rewrite lookup_insert_ne by key_ne. done.
  - rewrite lookup_insert_ne by key_ne. done.
  - rewrite lookup_insert_ne by key_ne. done.
  - intros n' v. rewrite lookup_insert_ne by key_ne. apply Hrec.
  - intros b' v. rewrite lookup_insert_ne by key_ne. apply Hdir.
  - intros b' n' v. rewrite (lookup_insert_ne _ _ (PHOTOS ++ [b'])) by key_ne.
    destruct (decide (b = b' ∧ n = n')) as [[<- <-]|Hne].
    + rewrite lookup_insert_eq. intros [= <-]. eauto.
    + rewrite lookup_insert_ne; [apply Hph|].
      intros E. key_eq E. by apply Hne.
  - intros n' v. rewrite lookup_insert_ne by key_ne. apply Hrn.
  - intros b' v. rewrite lookup_insert_ne by key_ne. apply Hdn.
  - intros b' n' v. destruct (decide (b = b' ∧ n = n')) as [[<- <-]|Hne];
      [done|].
    rewrite lookup_insert_ne; [apply Hpn|].
    intros E. key_eq E. by apply Hne.
Qed.

(** Removing entries keeps the layout, as long as the three directories
    stay and no photo outlives its directory. *)
Lemma Layout_shrink fs fs' :
  Layout DATA_DIR fs →
  (∀ k, fs' !! k = None ∨ fs' !! k = fs !! k) →
  fs' !! DATA_DIR = Some Dir → fs' !! BOXES = Some Dir →
  fs' !! PHOTOS = Some Dir →
  (∀ b n, is_Some (fs' !! (PHOTOS ++ [b; n])) →
          is_Some (fs' !! (PHOTOS ++ [b]))) →
  Layout DATA_DIR fs'.
Proof.
  intros [HD HB HP Hrec Hdir Hph Hrn Hdn Hpn] Hsub HD' HB' HP' Hkeep.
  split; [done..| | | | | |].
  - intros n v Hv. destruct (Hsub (BOXES ++ [n])) as [E|E]; rewrite E in Hv;
      [done|by apply Hrec].
  - intros b v Hv. destruct (Hsub (PHOTOS ++ [b])) as [E|E]; rewrite E in Hv;
      [done|by apply (Hdir b)].
  - intros b n v Hv.
    destruct (Hkeep b n) as [d Hd]; [eauto|].
    destruct (Hsub (PHOTOS ++ [b; n])) as [E|E]; rewrite E in Hv; [done|].
    destruct (Hph b n v Hv) as (Hf & Hn & Hb). split; [done|]. split; [done|].
    destruct (Hsub (PHOTOS ++ [b])) as [E'|E']; rewrite E' in Hd; [done|].
    by rewrite E'.
  - intros n v Hv. destruct (Hsub (BOXES ++ [n])) as [E|E]; rewrite E in Hv;
      [done|by apply (Hrn n v)].
  - intros b v Hv. destruct (Hsub (PHOTOS ++ [b])) as [E|E]; rewrite E in Hv;
      [done|by apply (Hdn b v)].
  - intros b n v Hv. destruct (Hsub (PHOTOS ++ [b; n])) as [E|E];
      rewrite E in Hv; [done|by apply (Hpn b n v)].
Qed.

Lemma Layout_box_loc fs box_id v :
  Layout DATA_DIR fs → fs !! box_loc box_id = Some v → ∃ c t, v = File c t.
Proof.
  intros [_ _ _ Hrec _ _ Hrn _ _] E. rewrite box_loc_snoc in E.
  by destruct (Hrec _ _ E) as [? _].
Qed.

Lemma record_name_ne (s : string) : s ≠ "" → s +:+ ".md" ≠ ".md".
Proof.
  intros Hs E. apply (f_equal String.length) in E.
  rewrite str_app_length in E. simpl in E.
  destruct s; [done|simpl in E; lia].
Qed.

Lemma Layout_save fs box_id content now :
  Layout DATA_DIR fs → route_segment box_id = true →
  fs_name (box_id +:+ ".md") = true →
  Layout DATA_DIR (<[box_loc box_id := File content now]> fs).
Proof.
  intros HL [Hne _]%route_segment_spec Hnm. rewrite box_loc_snoc.
  apply Layout_insert_record; [done| |done]. by apply record_name_ne.
Qed.

(** *** Start-up *)

(** X1.  The two [mkdir(exist_ok=True)] calls at import time succeed
    when the data directory exists and neither [boxes] nor [photos] is
    a regular file: afterwards both are directories and nothing else
    has changed; on a store that is laid out already they change
    nothing. *)
Theorem startup_creates_directories fs :
  fs !! DATA_DIR = Some Dir →
  fs !! BOXES = None ∨ fs !! BOXES = Some Dir →
  fs !! PHOTOS = None ∨ fs !! PHOTOS = Some Dir →
  startup DATA_DIR fs = (<[PHOTOS := Dir]> (<[BOXES := Dir]> fs), Ok tt)
  ∧ (layout_ok DATA_DIR fs = true → startup DATA_DIR fs = (fs, Ok tt)).
Proof.
  intros HD HB HP.
  assert (mkdir_exist_ok (BOXES_DIR DATA_DIR) fs = (<[BOXES := Dir]> fs, Ok tt))
    as H1.
  { unfold mkdir_exist_ok. rewrite locate_boxes, HD.
    destruct HB as [E|E]; rewrite E.
    - unfold is_dir_at. by rewrite removelast_last, HD.
    - by rewrite insert_id. }
  assert (mkdir_exist_ok (PHOTOS_DIR DATA_DIR) (<[BOXES := Dir]> fs)
          = (<[PHOTOS := Dir]> (<[BOXES := Dir]> fs), Ok tt)) as H2.
  { unfold mkdir_exist_ok. rewrite locate_photos.
    rewrite (lookup_insert_ne _ BOXES DATA_DIR) by key_ne. rewrite HD.
    rewrite (lookup_insert_ne _ BOXES PHOTOS) by key_ne.
    destruct HP as [E|E]; rewrite E.
    - unfold is_dir_at. rewrite removelast_last.
      by rewrite (lookup_insert_ne _ BOXES DATA_DIR), HD by key_ne.
    - rewrite (insert_id (<[BOXES := Dir]> fs) PHOTOS); [done|].
      by rewrite lookup_insert_ne by key_ne. }
  assert (startup DATA_DIR fs = (<[PHOTOS := Dir]> (<[BOXES := Dir]> fs), Ok tt))
    as Hrun.
  { unfold startup. rewrite (bind_run _ _ _ _ _ H1). exact H2. }
  split; [done|]. intros [_ HB' HP' _ _ _ _ _ _]%layout_ok_spec.
  rewrite Hrun. by rewrite (insert_id fs BOXES), (insert_id fs PHOTOS).
Qed.

(** X2.  Start-up does not create the data directory: when it is
    missing, the first [mkdir] raises [FileNotFoundError] and nothing
    is created. *)
Theorem startup_needs_data_directory fs :
  fs !! DATA_DIR = None →
  startup DATA_DIR fs = (fs, Raise FileNotFoundError).
Proof.
  intros HD. unfold startup, bind, mkdir_exist_ok.
  by rewrite locate_boxes, HD.
Qed.

(** *** Records of different boxes *)

Lemma str_app_inj_r (s t u : string) : s +:+ u = t +:+ u → s = t.
Proof.
  revert t. induction s as [|c s IH]; intros [|d t] E.
  - done.
  - apply (f_equal String.length) in E.
    rewrite !str_app_length in E. simpl in E. lia.
  - apply (f_equal String.length) in E.
    rewrite !str_app_length in E. simpl in E. lia.
  - rewrite !str_app_cons in E. injection E as -> E. f_equal. by apply IH.
Qed.

Lemma box_loc_inj a b : box_loc a = box_loc b → a = b.
Proof.
  intros E. apply (inj (app DATA_DIR)) in E.
  injection E as E. by apply str_app_inj_r in E.
Qed.

(** What [get_box_content] returns, when [boxes] is there and the
    record is not a directory. *)
Lemma get_box_content_eval fs box_id :
  route_segment box_id = true → fs_name (box_id +:+ ".md") = true →
  fs !! DATA_DIR = Some Dir → fs !! BOXES = Some Dir →
  fs !! box_loc box_id ≠ Some Dir →
  get_box_content DATA_DIR box_id fs
  = (fs, Ok match fs !! box_loc box_id with
            | Some (File c _) => Some (universal_newlines c)
            | _ => None
            end).
Proof.
  intros Hr Hn HD HB Hf. destruct (fs !! box_loc box_id) as [[c t|]|] eqn:E.
  - by apply get_box_content_file with (t := t).
  - done.
  - by apply get_box_content_absent.
Qed.

(** Reading and writing under a record name the file system refuses:
    [exists()] is false for a name with a NUL character and raises for
    a name that is too long; the write raises for both and creates
    nothing. *)
Lemma get_box_content_refused fs box_id :
  route_segment box_id = true → fs_name (box_id +:+ ".md") = false →
  fs !! DATA_DIR = Some Dir → fs !! BOXES = Some Dir →
  get_box_content DATA_DIR box_id fs
  = (fs, if has_nul (box_id +:+ ".md") then Ok None else Raise NameTooLong).
Proof.
  intros Hr Hn HD HB. unfold get_box_content, bind, path_exists.
  rewrite locate_box_file_cases by done. unfold fs_name in Hn.
  destruct (has_nul (box_id +:+ ".md")); [done|].
  by destruct (too_long (box_id +:+ ".md")).
Qed.

Lemma save_box_content_refused fs box_id content now :
  route_segment box_id = true → fs_name (box_id +:+ ".md") = false →
  fs !! DATA_DIR = Some Dir → fs !! BOXES = Some Dir →
  save_box_content DATA_DIR box_id content now fs
  = (fs, Raise (if has_nul (box_id +:+ ".md") then ValueError
                else NameTooLong)).
Proof.
  intros Hr Hn HD HB. unfold save_box_content, write_file.
  rewrite locate_box_file_cases by done. unfold fs_name in Hn.
  destruct (has_nul (box_id +:+ ".md")); [done|].
  by destruct (too_long (box_id +:+ ".md")).
Qed.

(** X3.  Boxes do not share records: writing the content of one box
    leaves what reading any other box returns as it was. *)
Theorem save_leaves_other_boxes fs a b content now :
  route_segment a = true → route_segment b = true → a ≠ b →
  fs !! DATA_DIR = Some Dir → fs !! BOXES = Some Dir →
  fs !! box_loc a ≠ Some Dir → fs !! box_loc b ≠ Some Dir →
  eval (get_box_content DATA_DIR b)
       (exec (save_box_content DATA_DIR a content now) fs)
  = eval (get_box_content DATA_DIR b) fs.
Proof.
  intros Ha Hb Hab HD HB Hfa Hfb. unfold exec.
  destruct (fs_name (a +:+ ".md")) eqn:Na;
    [|by rewrite save_box_content_refused].
  rewrite save_box_content_ok by done. simpl. unfold eval.
  assert (box_loc a ≠ box_loc b) as Hne by (intros E; by apply box_loc_inj in E).
  destruct (fs_name (b +:+ ".md")) eqn:Nb.
  - rewrite !get_box_content_eval; try done.
    + simpl. by rewrite lookup_insert_ne.
    + by rewrite lookup_insert_ne by key_ne.
    + by rewrite lookup_insert_ne by key_ne.
    + by rewrite lookup_insert_ne.
  - rewrite !get_box_content_refused; try done.
    + by rewrite lookup_insert_ne by key_ne.
    + by rewrite lookup_insert_ne by key_ne.
Qed.

(** *** The edit form *)

(** X4.  For a box id whose record name [<id>.md] the file system
    accepts, opening the edit form of a box that has no record shows
    the template and, unlike viewing the box, creates nothing: the box
    still has no record afterwards. *)
Theorem edit_form_creates_nothing fs box_id now :
  route_segment box_id = true → fs_name (box_id +:+ ".md") = true →
  fs !! DATA_DIR = Some Dir → fs !! BOXES = Some Dir →
  fs !! box_loc box_id = None →
  edit_box DATA_DIR box_id GET None now fs
  = (fs, Ok (Render_edit box_id (template box_id)))
  ∧ eval (edit_box DATA_DIR box_id GET None now
          >> get_box_content DATA_DIR box_id) fs = Ok None.
Proof.
  intros Hr Hn HD HB Hnone.
  assert (edit_box DATA_DIR box_id GET None now fs
          = (fs, Ok (Render_edit box_id (template box_id)))) as H.
  { unfold edit_box.
    by rewrite (bind_run _ _ _ _ _
                  (get_box_content_absent _ _ Hr Hn HD HB Hnone)). }
  split; [done|]. unfold eval. rewrite (bind_run _ _ _ _ _ H).
  by rewrite get_box_content_absent.
Qed.

(** X5.  For a box id whose record name [<id>.md] the file system
    accepts, submitting the edit form stores the submitted content as
    it is, creating the record when there is none, and redirects to the
    box; a submission without the [content] field stores the empty
    content.  The edit form opened afterwards shows the stored content
    with every CR LF pair and every CR that is left replaced by LF. *)
Theorem edit_submit_then_form fs box_id form now now' :
  route_segment box_id = true → fs_name (box_id +:+ ".md") = true →
  fs !! DATA_DIR = Some Dir → fs !! BOXES = Some Dir →
  fs !! box_loc box_id ≠ Some Dir →
  edit_box DATA_DIR box_id POST form now fs
  = (<[box_loc box_id := File (default "" form) now]> fs,
     Ok (Redirect (Ep_view_box box_id)))
  ∧ eval (edit_box DATA_DIR box_id POST form now
          >> edit_box DATA_DIR box_id GET None now') fs
    = Ok (Render_edit box_id (read_as_text (default "" form))).
Proof.
  intros Hr Hn HD HB Hf.
  assert (edit_box DATA_DIR box_id POST form now fs
          = (<[box_loc box_id := File (default "" form) now]> fs,
             Ok (Redirect (Ep_view_box box_id)))) as H.
  { unfold edit_box.
    by rewrite (bind_run _ _ _ _ _
                  (save_box_content_ok _ _ _ _ Hr Hn HD HB Hf)). }
  split; [done|]. unfold eval. rewrite (bind_run _ _ _ _ _ H).
  set (fs1 := <[box_loc box_id := File (default "" form) now]> fs).
  assert (get_box_content DATA_DIR box_id fs1
          = (fs1, Ok (Some (universal_newlines (default "" form))))) as Hg.
  { apply get_box_content_file with (t := now); [done|done| | |].
    - unfold fs1. by rewrite lookup_insert_ne by key_ne.
    - unfold fs1. by rewrite lookup_insert_ne by key_ne.
    - apply lookup_insert_eq. }
  unfold edit_box. rewrite (bind_run _ _ _ _ _ Hg).
  by rewrite universal_newlines_spec.
Qed.

(** *** Allocating ids one after the other *)

(** X6.  [new_box] does not reserve the id it redirects to, but once
    the box of that id is saved, the next [new_box] redirects to a
    later id.  The id is one whose record name the file system
    accepts, as every id [box-NNN] of at most 252 characters is; beyond
    that the save fails and the same id is handed out again. *)
Theorem new_box_after_save fs n form now :
  fs_name (box_name n +:+ ".md") = true →
  fs !! DATA_DIR = Some Dir → fs !! BOXES = Some Dir →
  eval (new_box DATA_DIR) fs = Ok (Redirect (Ep_edit_box (box_name n))) →
  let fs' := exec (edit_box DATA_DIR (box_name n) POST form now) fs in
  ∃ m, n < m
    ∧ new_box DATA_DIR fs' = (fs', Ok (Redirect (Ep_edit_box (box_name m)))).
Proof.
  intros Hnm HD HB Hnew fs'.
  destruct (generate_box_id_least fs) as (n' & Hgen & Hn & Hfree & Hbelow).
  unfold eval, new_box in Hnew. rewrite (bind_run _ _ _ _ _ Hgen) in Hnew.
  assert (box_name n' = box_name n) as Hnn.
  { set (x := box_name n') in *. set (y := box_name n) in *.
    clearbody x y. unfold ret in Hnew. cbn [snd] in Hnew. by simplify_eq. }
  apply box_name_inj in Hnn as ->. clear Hnew.
  pose proof (box_name_segment n) as Hr.
  assert (fs !! box_loc (box_name n) = None) as Hnone.
  { apply eq_None_not_Some. intros H. by apply Hfree. }
  assert (fs' = <[box_loc (box_name n) := File (default "" form) now]> fs) as Hfs'.
  { unfold fs', exec, edit_box.
    rewrite (bind_run _ _ _ _ _
               (save_box_content_ok _ _ (default "" form) now Hr Hnm HD HB
                  ltac:(congruence))). done. }
  assert (fs' !! DATA_DIR = Some Dir) as HD'
    by (rewrite Hfs'; by rewrite lookup_insert_ne by key_ne).
  assert (fs' !! BOXES = Some Dir) as HB'
    by (rewrite Hfs'; by rewrite lookup_insert_ne by key_ne).
  destruct (generate_box_id_least fs') as (m & Hgen' & Hm & Hfree' & Hbelow').
  exists m. split.
  - destruct (decide (n < m)) as [|Hle]; [done|]. exfalso. apply Hfree'.
    split; [done|]. split; [done|]. rewrite Hfs'.
    destruct (decide (m = n)) as [->|Hne]; [rewrite lookup_insert_eq; eauto|].
    rewrite lookup_insert_ne.
    + by destruct (Hbelow m ltac:(lia)) as (_ & _ & H).
    + intros E%box_loc_inj%box_name_inj. done.
  - unfold new_box. by rewrite (bind_run _ _ _ _ _ Hgen').
Qed.

(** *** The photos of a box *)

Lemma glob_photos fs box_id :
  ordinary_id box_id = true → fs_name box_id = true →
  fs !! DATA_DIR = Some Dir → fs !! PHOTOS = Some Dir →
  glob (PHOTOS_DIR DATA_DIR </> box_id) AnyName fs
  = (fs, Ok (if is_dir_at fs (photos_loc box_id)
             then (λ n, mkPath DATA_DIR (["photos"; box_id] ++ [n]))
                    <$> children fs (photos_loc box_id)
             else [])).
Proof.
  intros Ho Hn HD HP. unfold glob. rewrite locate_photos_dir by done.
  rewrite filter_any_name. by rewrite photos_dir_eq.
Qed.

Lemma StronglySorted_filter {A} (R : relation A) (P : A → Prop)
    `{∀ x, Decision (P x)} (l : list A) :
  StronglySorted R l → StronglySorted R (filter P l).
Proof.
  induction 1 as [|x l Hl IH Hx]; [constructor|].
  rewrite filter_cons. case_decide; [|done].
  constructor; [done|].
  apply Forall_forall. intros y [_ Hy]%list_elem_of_filter.
  by apply (proj1 (Forall_forall _ _) Hx).
Qed.

Global Instance path_le_trans : Transitive path_le.
Proof. intros p q r. unfold path_le. apply transitivity. Qed.

Global Instance path_le_total : Total path_le.
Proof. intros p q. unfold path_le. apply total, _. Qed.

(** The photo list of a box in a store laid out by the application. *)
Lemma get_box_photos_spec fs box_id :
  Layout DATA_DIR fs → ordinary_id box_id = true → fs_name box_id = true →
  ∃ l, get_box_photos DATA_DIR box_id fs = (fs, Ok l)
    ∧ StronglySorted String.le l
    ∧ NoDup l
    ∧ (∀ n, n ∈ l ↔ is_Some (fs !! (photos_loc box_id ++ [n])) ∧ listed n)
    ∧ (fs !! photos_loc box_id = None → l = []).
Proof.
  intros [HD HB HP Hrec Hdir Hph Hrn Hdn Hpn] Ho Hnm.
  set (P := λ f : Path,
         lstrip "." (lower (suffix f)) ∈ ALLOWED_EXTENSIONS).
  set (mk := λ n, mkPath DATA_DIR (["photos"; box_id] ++ [n])).
  set (ns := if is_dir_at fs (photos_loc box_id)
             then children fs (photos_loc box_id) else []).
  assert (∀ n, name (mk n) = n) as Hname
    by (intros n; apply name_child).
  exists (name <$> filter P (merge_sort path_le (mk <$> ns))).
  assert (∀ n, n ∈ ns ↔ is_Some (fs !! (photos_loc box_id ++ [n]))) as Hns.
  { intros n. unfold ns, is_dir_at. rewrite photos_loc_snoc.
    destruct (fs !! (PHOTOS ++ [box_id])) as [[]|] eqn:E.
    - by pose proof (Hdir _ _ E).
    - apply elem_of_children.
    - split; [by intros ?%elem_of_nil|]. intros [v Hv].
      rewrite <- (assoc_L (++)) in Hv. simpl in Hv.
      destruct (Hph _ _ _ Hv) as (_ & _ & Hd). congruence. }
  assert (NoDup ns) as Hnd.
  { unfold ns. destruct (is_dir_at _ _); [apply NoDup_children|constructor]. }
  split; [|split; [|split; [|split]]].
  - unfold get_box_photos.
    rewrite (bind_run _ _ _ _ _ (path_exists_photos_dir fs box_id Ho Hnm HD HP)).
    destruct (fs !! photos_loc box_id) as [v|] eqn:E.
    + rewrite bool_decide_eq_true_2 by eauto. simpl.
      rewrite (bind_run _ _ _ _ _ (glob_photos fs box_id Ho Hnm HD HP)).
      unfold ns. by destruct (is_dir_at fs (photos_loc box_id)).
    + rewrite bool_decide_eq_false_2 by (by intros [? ?]). simpl.
      unfold ns, is_dir_at. by rewrite E.
  - apply (StronglySorted_fmap _ path_le); [by intros x y|].
    apply StronglySorted_filter, StronglySorted_merge_sort; apply _.
  - apply NoDup_fmap_2_strong.
    + intros p q Hp%list_elem_of_filter Hq%list_elem_of_filter E.
      destruct Hp as [_ Hp], Hq as [_ Hq].
      rewrite merge_sort_Permutation in Hp, Hq.
      apply list_elem_of_fmap in Hp as [n [-> _]].
      apply list_elem_of_fmap in Hq as [m [-> _]].
      rewrite !Hname in E. by subst.
    + apply NoDup_filter. rewrite merge_sort_Permutation.
      apply NoDup_fmap_2_strong; [|done].
      intros n m _ _ E. apply (f_equal name) in E. by rewrite !Hname in E.
  - intros n. rewrite <- Hns. rewrite list_elem_of_fmap. split.
    + intros (p & -> & [Hp Hin]%list_elem_of_filter).
      rewrite merge_sort_Permutation in Hin.
      apply list_elem_of_fmap in Hin as [m [-> Hm]].
      rewrite Hname. split; [done|]. unfold P, suffix in Hp.
      by rewrite Hname in Hp.
    + intros [Hin Hl]. exists (mk n). split; [by rewrite Hname|].
      apply list_elem_of_filter. split.
      * unfold P, suffix. by rewrite Hname.
      * rewrite merge_sort_Permutation. apply list_elem_of_fmap. eauto.
  - intros E. unfold ns, is_dir_at. rewrite E. done.
Qed.

(** Two photo lists with the same names are the same list. *)
Lemma sorted_names_unique (l l' : list string) :
  StronglySorted String.le l → NoDup l →
  StronglySorted String.le l' → NoDup l' →
  (∀ n, n ∈ l ↔ n ∈ l') → l = l'.
Proof.
  intros Hs Hn Hs' Hn' H.
  apply (StronglySorted_unique String.le); [done..|].
  by apply NoDup_Permutation.
Qed.

(** X7.  In a store laid out by the application and for a box id that
    the file system accepts as a name, [get_box_photos] never fails and
    changes nothing.  It returns, each once and in increasing order,
    the names of the entries of the photo directory of the box whose
    suffix is an allowed extension in any case; that is the empty list
    when the box has no photo directory.  Two stores with the same such
    entries give the same list. *)
Theorem get_box_photos_sorted_listing fs box_id :
  layout_ok DATA_DIR fs = true → ordinary_id box_id = true →
  fs_name box_id = true →
  ∃ l, get_box_photos DATA_DIR box_id fs = (fs, Ok l)
    ∧ StronglySorted String.le l
    ∧ NoDup l
    ∧ (∀ n, n ∈ l ↔ is_Some (fs !! (photos_loc box_id ++ [n])) ∧ listed n)
    ∧ (fs !! photos_loc box_id = None → l = [])
    ∧ (∀ fs', layout_ok DATA_DIR fs' = true →
         (∀ n, listed n → is_Some (fs' !! (photos_loc box_id ++ [n]))
                          ↔ is_Some (fs !! (photos_loc box_id ++ [n]))) →
         eval (get_box_photos DATA_DIR box_id) fs' = Ok l).
Proof.
  intros HL%layout_ok_spec Ho Hnm.
  destruct (get_box_photos_spec fs box_id HL Ho Hnm)
    as (l & E & Hs & Hn & Hm & Hz).
  exists l. do 5 (split; [done|]).
  intros fs' HL'%layout_ok_spec Hsame.
  destruct (get_box_photos_spec fs' box_id HL' Ho Hnm)
    as (l' & E' & Hs' & Hn' & Hm' & _).
  unfold eval. rewrite E'. simpl. f_equal.
  apply sorted_names_unique; [done..|].
  intros n. rewrite Hm, Hm'. split; intros [H1 H2]; (split; [|done]);
    by apply (Hsame n H2).
Qed.

(** *** Photos in a laid-out store *)

Lemma rev_app_rev_app (s t u : string) :
  String.rev_app (String.rev_app s t) u = String.rev_app t (s +:+ u).
Proof.
  revert t u. induction s as [|a s IH]; intros t u; [done|].
  cbn [String.rev_app]. by rewrite IH.
Qed.

Lemma rev_rev (s : string) : String.rev (String.rev s) = s.
Proof.
  unfold String.rev. rewrite rev_app_rev_app. cbn [String.rev_app].
  apply str_app_nil_r.
Qed.

Lemma words_go_no_space acc (s : string) :
  forall_chars (λ c, negb (isspace c)) s = true →
  words_go (Some acc) s = [String.rev (String.rev_app s acc)].
Proof.
  revert acc. induction s as [|c s IH]; intros acc; [done|].
  cbn [forall_chars words_go]. intros [Hc Hs]%andb_true_iff.
  apply negb_true_iff in Hc. rewrite Hc. cbn [default]. by rewrite IH.
Qed.

Lemma words_no_space (s : string) :
  s ≠ "" → forall_chars (λ c, negb (isspace c)) s = true → words s = [s].
Proof.
  destruct s as [|c s]; [done|]. intros _.
  cbn [forall_chars]. intros [Hc Hs]%andb_true_iff.
  apply negb_true_iff in Hc. unfold words. cbn [words_go]. rewrite Hc.
  cbn [default]. rewrite words_go_no_space by done.
  change (String.rev_app s (String c "")) with (String.rev (String c s)).
  by rewrite rev_rev.
Qed.

Lemma replace_char_id a b (s : string) :
  mem_char a s = false → replace_char a b s = s.
Proof.
  induction s as [|c s IH]; [done|]. simpl.
  destruct (Ascii.eqb_spec a c) as [->|Hne]; [done|].
  intros H. rewrite (IH H). destruct (Ascii.eqb_spec c a); [by subst|done].
Qed.

Lemma filter_chars_id p (s : string) :
  forall_chars p s = true → filter_chars p s = s.
Proof.
  induction s as [|c s IH]; [done|]. simpl.
  intros [Hc Hs]%andb_true_iff. by rewrite Hc, IH.
Qed.

Lemma rstrip_by_app p (s t : string) :
  rstrip_by p t = t → t ≠ "" → rstrip_by p (s +:+ t) = s +:+ t.
Proof.
  intros Ht Hne. induction s as [|a s IH]; [done|].
  rewrite str_app_cons. cbn [rstrip_by]. rewrite IH.
  destruct (s +:+ t) eqn:E; [|done].
  by apply str_app_eq_nil in E as [_ ->].
Qed.

Lemma strftime_head now :
  ∃ c r, strftime_Ymd_HMS now = String c r ∧ is_digit c = true.
Proof.
  unfold strftime_Ymd_HMS.
  pose proof (format_0wd_digits 4 (year now)) as Hd.
  pose proof (format_0wd_length 4 (year now)) as Hl.
  destruct (format_0wd 4 (year now)) as [|c r]; [simpl in Hl; lia|].
  exists c. eexists. split; [by rewrite str_app_cons|].
  cbn [forall_chars] in Hd. by apply andb_true_iff in Hd as [? _].
Qed.

(** [secure_filename] leaves the name of a stored photo as it is, when
    the normalisation does. *)
Lemma secure_filename_stored now e :
  e ∈ ALLOWED_EXTENSIONS →
  nfkd_ascii (stored_name now e) = stored_name now e →
  secure_filename nfkd_ascii (stored_name now e) = stored_name now e.
Proof.
  intros He Hn. unfold secure_filename. rewrite Hn.
  destruct (stored_name_facts now e He) as (N1 & N2 & _).
  pose proof (stored_chars_forall now e He) as Hc.
  rewrite replace_char_id by done.
  rewrite words_no_space; [|done|].
  2:{ apply (forall_chars_weaken stored_char); [|done].
      intros [[] [] [] [] [] [] [] []]; by vm_compute. }
  cbn [join]. rewrite filter_chars_id.
  2:{ apply (forall_chars_weaken stored_char); [|done].
      intros [[] [] [] [] [] [] [] []]; by vm_compute. }
  unfold strip_chars, strip_by.
  assert (rstrip_by (λ c, mem_char c "._") (stored_name now e)
          = stored_name now e) as ->.
  { unfold stored_name. rewrite <- str_app_assoc.
    apply rstrip_by_app.
    - revert He. unfold ALLOWED_EXTENSIONS.
      rewrite !elem_of_union, !elem_of_singleton.
      intros [[[[->| ->]| ->]| ->]| ->]; reflexivity.
    - intros ->. by vm_compute in He. }
  unfold stored_name.
  destruct (strftime_head now) as (c & r & -> & Hd).
  rewrite str_app_cons. cbn [lstrip_by].
  assert (mem_char c "._" = false) as ->; [|done].
  revert Hd. clear. destruct c as [[] [] [] [] [] [] [] []]; by vm_compute.
Qed.

Lemma stored_name_listed now e :
  e ∈ ALLOWED_EXTENSIONS → listed (stored_name now e).
Proof.
  intros He. unfold listed, suffix_of, stored_name.
  change ("." +:+ e) with (String "."%char e).
  assert (mem_char "."%char e = false ∧ e ≠ ""
          ∧ lstrip "." (lower ("." +:+ e)) = e) as (H1 & H2 & H3).
  { revert He. unfold ALLOWED_EXTENSIONS.
    rewrite !elem_of_union, !elem_of_singleton.
    intros [[[[->| ->]| ->]| ->]| ->]; by vm_compute. }
  rewrite rsplit1_app by done. unfold has_suffix.
  destruct (strftime_head now) as (c & r & -> & _).
  destruct (String.eqb_spec e ""); [done|]. cbn [String.eqb negb andb].
  by rewrite H3.
Qed.

Lemma photo_key (b n : string) : photos_loc b ++ [n] = PHOTOS ++ [b; n].
Proof. by rewrite <- !(assoc_L (++)). Qed.

Lemma stored_name_no_nul now e :
  e ∈ ALLOWED_EXTENSIONS → has_nul (stored_name now e) = false.
Proof.
  intros He. apply (forall_chars_not_mem stored_char); [done|].
  by apply stored_chars_forall.
Qed.

(** An accepted upload into a laid-out store: refused by [mkdir] when
    the file system does not accept the box id as a name; refused by
    the write, after the photo directory was made, when the stored name
    is too long; stored otherwise. *)
Lemma upload_accepted_run fs box_id file now clock e :
  Layout DATA_DIR fs → ordinary_id box_id = true →
  extension (filename file) = Some e → lower e ∈ ALLOWED_EXTENSIONS →
  upload_photo DATA_DIR box_id (Some file) now clock fs
  = if has_nul box_id then (fs, Raise ValueError)
    else if too_long box_id then (fs, Raise NameTooLong)
    else if too_long (stored_name now (lower e))
    then (<[photos_loc box_id := Dir]> fs, Raise NameTooLong)
    else (<[photos_loc box_id ++ [stored_name now (lower e)]
            := File (data file) clock]> (<[photos_loc box_id := Dir]> fs),
          Ok (Redirect (Ep_view_box box_id))).
Proof.
  intros [HD HB HP Hrec Hdir Hph Hrn Hdn Hpn] Ho Hext He.
  unfold extension in Hext.
  destruct (rsplit1 "."%char (filename file)) as [[h ext]|] eqn:Hsplit;
    [|done].
  simpl in Hext. injection Hext as ->.
  destruct (stored_name_facts now _ He) as (N1 & N2 & N3 & N4).
  assert (allowed_file (filename file) = true) as Ha.
  { apply allowed_file_spec. exists e. unfold extension. by rewrite Hsplit. }
  assert (String.eqb (filename file) "" = false) as Hne.
  { apply String.eqb_neq. intros E. by rewrite E in Hsplit. }
  unfold upload_photo. rewrite Hne, Ha, Hsplit. simpl.
  fold (stored_name now (lower e)).
  set (dir := PHOTOS_DIR DATA_DIR </> box_id) in *.
  set (l := photos_loc box_id).
  set (fs1 := <[l := Dir]> fs).
  pose proof (locate_photos_dir_cases fs box_id Ho HD HP) as Hloc.
  fold dir l in Hloc.
  destruct (has_nul box_id) eqn:Hnul.
  { unfold bind, mkdir_exist_ok. by rewrite Hloc. }
  destruct (too_long box_id) eqn:Hlong.
  { unfold bind, mkdir_exist_ok. by rewrite Hloc. }
  assert (mkdir_exist_ok dir fs = (fs1, Ok tt)) as Hmk.
  { unfold mkdir_exist_ok, fs1. rewrite Hloc.
    destruct (fs !! l) as [v|] eqn:E.
    - unfold l in E. rewrite photos_loc_snoc in E.
      rewrite (Hdir _ _ E) in E |- *. unfold l. rewrite photos_loc_snoc.
      by rewrite insert_id.
    - unfold is_dir_at, l. rewrite photos_loc_snoc, removelast_last.
      by rewrite HP. }
  assert (fs1 !! l = Some Dir) as Hl1 by apply lookup_insert_eq.
  assert (locate fs1 (dir </> stored_name now (lower e))
          = if too_long (stored_name now (lower e)) then Raise NameTooLong
            else Ok (l ++ [stored_name now (lower e)])) as Hloc1.
  { rewrite joinpath_segment by done.
    apply locate_Ok in Hloc as [Hn0 Hw].
    unfold locate. cbn [parts anchor].
    rewrite existsb_app, Hn0. cbn [existsb orb].
    rewrite (stored_name_no_nul _ _ He). cbn [orb].
    rewrite walk_app. unfold fs1.
    rewrite (walk_insert fs (anchor dir) (parts dir) l l Dir); [|by right|done].
    fold fs1. cbn [walk]. rewrite Hl1.
    destruct (too_long _); [done|].
    by destruct (String.eqb_spec (stored_name now (lower e)) ".."). }
  assert (fs1 !! (l ++ [stored_name now (lower e)])
          = fs !! (l ++ [stored_name now (lower e)])) as Hsame.
  { unfold fs1. apply lookup_insert_ne. intros E. symmetry in E.
    by apply longer_ne in E. }
  unfold bind. rewrite Hmk. cbn beta iota.
  unfold write_file. rewrite Hloc1.
  destruct (too_long (stored_name now (lower e))); [done|]. rewrite Hsame.
  destruct (fs !! (l ++ [stored_name now (lower e)])) as [[]|] eqn:E; [done| |].
  - unfold l in E. rewrite photo_key in E.
    by destruct (Hph _ _ _ E) as [(? & ? & ?) _].
  - unfold is_dir_at. by rewrite removelast_last, Hl1.
Qed.

(** An accepted upload made at a time of the calendar for a box id the
    file system accepts as a name. *)
Lemma upload_accepted fs box_id file now clock e :
  Layout DATA_DIR fs → ordinary_id box_id = true → fs_name box_id = true →
  calendar now →
  extension (filename file) = Some e → lower e ∈ ALLOWED_EXTENSIONS →
  upload_photo DATA_DIR box_id (Some file) now clock fs
  = (<[photos_loc box_id ++ [stored_name now (lower e)] := File (data file) clock]>
       (<[photos_loc box_id := Dir]> fs),
     Ok (Redirect (Ep_view_box box_id))).
Proof.
  intros HL Ho [N1 N2]%fs_name_spec Hc Hext He.
  rewrite (upload_accepted_run _ _ _ _ _ e) by done. rewrite N1, N2.
  pose proof (stored_name_fs_name now _ Hc He) as [_ N3]%fs_name_spec.
  by rewrite N3.
Qed.

Lemma upload_accepted_layout fs box_id data clock nm :
  Layout DATA_DIR fs → fs_name box_id = true → nm ≠ ".." →
  fs_name nm = true →
  Layout DATA_DIR (<[photos_loc box_id ++ [nm] := File data clock]>
                     (<[photos_loc box_id := Dir]> fs)).
Proof.
  intros HL Hb Hnm Hn. rewrite photo_key, photos_loc_snoc.
  apply Layout_insert_photo; [by apply Layout_insert_photo_dir| |done..].
  apply lookup_insert_eq.
Qed.

Lemma upload_exec_cases fs box_id photo now clock :
  exec (upload_photo DATA_DIR box_id photo now clock) fs = fs
  ∨ ∃ file e, photo = Some file ∧ extension (filename file) = Some e
              ∧ lower e ∈ ALLOWED_EXTENSIONS.
Proof.
  unfold upload_photo. destruct photo as [file|]; [|by left].
  destruct (String.eqb (filename file) ""); [by left|].
  destruct (allowed_file (filename file)) eqn:Ea; [|by left].
  apply allowed_file_spec in Ea as (e & He & Hin). right. by exists file, e.
Qed.

(** What an upload leaves alone, accepted or not, stored or refused:
    the store stays laid out, and only the photo directory of the box
    and its entries can have changed. *)
Lemma upload_frame fs box_id photo now clock :
  Layout DATA_DIR fs → ordinary_id box_id = true →
  let fs' := exec (upload_photo DATA_DIR box_id photo now clock) fs in
  Layout DATA_DIR fs'
  ∧ ∀ k, k ≠ photos_loc box_id → (∀ n, k ≠ photos_loc box_id ++ [n]) →
         fs' !! k = fs !! k.
Proof.
  intros HL Ho fs'.
  destruct (upload_exec_cases fs box_id photo now clock)
    as [E|(file & e & -> & He & Hin)].
  { unfold fs'. by rewrite E. }
  unfold fs', exec. rewrite (upload_accepted_run _ _ _ _ _ e) by done.
  destruct (has_nul box_id) eqn:Hnul; [done|].
  destruct (too_long box_id) eqn:Hlong; [done|].
  assert (fs_name box_id = true) as Hnm by (by apply fs_name_spec).
  destruct (too_long (stored_name now (lower e))) eqn:Hs; cbn [fst].
  - split.
    + rewrite photos_loc_snoc. by apply Layout_insert_photo_dir.
    + intros k H1 _. by rewrite lookup_insert_ne.
  - split.
    + apply upload_accepted_layout; [done..| |].
      * by destruct (stored_name_facts now _ Hin) as (_ & _ & _ & ?).
      * apply fs_name_spec. split; [by apply stored_name_no_nul|done].
    + intros k H1 H2. rewrite lookup_insert_ne by (apply not_eq_sym, H2).
      by rewrite lookup_insert_ne.
Qed.

Lemma locate_photo fs box_id f :
  ordinary_id box_id = true → fs_name box_id = true →
  fs_name (secure_filename nfkd_ascii f) = true →
  fs !! DATA_DIR = Some Dir → fs !! PHOTOS = Some Dir →
  fs !! photos_loc box_id = Some Dir →
  secure_filename nfkd_ascii f ≠ "" →
  locate fs (photo_path DATA_DIR nfkd_ascii box_id f)
  = Ok (photos_loc box_id ++ [secure_filename nfkd_ascii f]).
Proof.
  intros Ho Hn [_ Hlen]%fs_name_spec HD HP Hdir Hs.
  rewrite locate_photo_cases by done. by rewrite Hdir, Hlen.
Qed.

(** Serving a photo from a laid-out store: the bytes of the file in the
    photo directory of the box under the sanitised name, or the 404
    response. *)
Lemma get_photo_eval fs box_id f :
  Layout DATA_DIR fs → ordinary_id box_id = true → fs_name box_id = true →
  fs_name (secure_filename nfkd_ascii f) = true →
  secure_filename nfkd_ascii f ≠ "" →
  get_photo DATA_DIR nfkd_ascii box_id f fs
  = (fs, Ok match fs !! (photos_loc box_id ++ [secure_filename nfkd_ascii f]) with
            | Some (File c _) => Send_file c
            | _ => Not_found_404
            end).
Proof.
  intros [HD HB HP Hrec Hdir Hph Hrn Hdn Hpn] Ho Hn Hf Hs.
  set (k := photos_loc box_id ++ [secure_filename nfkd_ascii f]).
  destruct (fs !! photos_loc box_id) as [v|] eqn:Ed.
  - assert (v = Dir) as -> by (rewrite photos_loc_snoc in Ed; eauto).
    pose proof (locate_photo fs box_id f Ho Hn Hf HD HP Ed Hs) as Hl.
    fold k in Hl.
    assert (path_exists (photo_path DATA_DIR nfkd_ascii box_id f) fs
            = (fs, Ok (bool_decide (is_Some (fs !! k))))) as He
      by (unfold path_exists; by rewrite Hl).
    unfold get_photo. rewrite (bind_run _ _ _ _ _ He).
    destruct (fs !! k) as [[c t|]|] eqn:Ek.
    + rewrite bool_decide_eq_true_2 by eauto.
      unfold bind, read_bytes. by rewrite Hl, Ek.
    + unfold k in Ek. rewrite photo_key in Ek.
      by destruct (Hph _ _ _ Ek) as [(? & ? & ?) _].
    + by rewrite bool_decide_eq_false_2 by (by intros [? ?]).
  - rewrite get_photo_no_dir by done.
    destruct (fs !! k) as [v|] eqn:Ek; [|done].
    unfold k in Ek. rewrite photo_key in Ek.
    destruct (Hph _ _ _ Ek) as (_ & _ & Hd').
    rewrite photos_loc_snoc in Ed. congruence.
Qed.

Lemma delete_photo_eval fs box_id f :
  Layout DATA_DIR fs → ordinary_id box_id = true → fs_name box_id = true →
  fs_name (secure_filename nfkd_ascii f) = true →
  secure_filename nfkd_ascii f ≠ "" →
  delete_photo DATA_DIR nfkd_ascii box_id f fs
  = (delete (photos_loc box_id ++ [secure_filename nfkd_ascii f]) fs,
     Ok (Redirect (Ep_view_box box_id))).
Proof.
  intros [HD HB HP Hrec Hdir Hph Hrn Hdn Hpn] Ho Hn Hf Hs.
  set (k := photos_loc box_id ++ [secure_filename nfkd_ascii f]).
  assert (fs !! photos_loc box_id = None → fs !! k = None) as Hnone.
  { intros Ed. destruct (fs !! k) as [v|] eqn:Ek; [|done].
    unfold k in Ek. rewrite photo_key in Ek.
    destruct (Hph _ _ _ Ek) as (_ & _ & Hd').
    rewrite photos_loc_snoc in Ed. congruence. }
  unfold delete_photo.
  destruct (fs !! photos_loc box_id) as [v|] eqn:Ed.
  - assert (v = Dir) as -> by (rewrite photos_loc_snoc in Ed; eauto).
    pose proof (locate_photo fs box_id f Ho Hn Hf HD HP Ed Hs) as Hl.
    fold k in Hl.
    assert (path_exists (photo_path DATA_DIR nfkd_ascii box_id f) fs
            = (fs, Ok (bool_decide (is_Some (fs !! k))))) as He
      by (unfold path_exists; by rewrite Hl).
    rewrite (bind_run _ _ _ _ _ He).
    destruct (fs !! k) as [[c t|]|] eqn:Ek.
    + rewrite bool_decide_eq_true_2 by eauto.
      unfold bind, when, unlink. by rewrite Hl, Ek.
    + unfold k in Ek. rewrite photo_key in Ek.
      by destruct (Hph _ _ _ Ek) as [(? & ? & ?) _].
    + rewrite bool_decide_eq_false_2 by (by intros [? ?]).
      by rewrite delete_id.
  - pose proof (photo_path_no_dir fs box_id f Ho Hn HD HP Ed) as He.
    rewrite (bind_run _ _ _ _ _ He). by rewrite delete_id by auto.
Qed.

Lemma delete_photo_layout fs k :
  Layout DATA_DIR fs → (∃ b n, k = PHOTOS ++ [b; n]) →
  Layout DATA_DIR (delete k fs).
Proof.
  intros HL (b & n & ->). pose proof HL as [HD HB HP Hrec Hdir Hph Hrn Hdn Hpn].
  apply (Layout_shrink fs); [done| | | | |].
  - intros k. destruct (decide (k = PHOTOS ++ [b; n])) as [->|Hne].
    + left. apply lookup_delete_eq.
    + right. by apply lookup_delete_ne.
  - rewrite lookup_delete_ne; [done|key_ne].
  - rewrite lookup_delete_ne; [done|key_ne].
  - rewrite lookup_delete_ne; [done|key_ne].
  - intros b' n' [v Hv].
    apply lookup_delete_Some in Hv as [_ Hv].
    destruct (Hph _ _ _ Hv) as (_ & _ & Hd).
    rewrite lookup_delete_ne; [eauto|key_ne].
Qed.

(** Whatever the names are, deleting a photo of a box with an ordinary
    id either changes nothing or removes the entry of the photo
    directory of the box under the sanitised name. *)
Lemma delete_photo_exec fs box_id f :
  Layout DATA_DIR fs → ordinary_id box_id = true →
  exec (delete_photo DATA_DIR nfkd_ascii box_id f) fs = fs
  ∨ exec (delete_photo DATA_DIR nfkd_ascii box_id f) fs
    = delete (photos_loc box_id ++ [secure_filename nfkd_ascii f]) fs.
Proof.
  intros [HD HB HP Hrec Hdir Hph Hrn Hdn Hpn] Ho.
  unfold exec, delete_photo, bind, path_exists.
  destruct (locate fs (photo_path DATA_DIR nfkd_ascii box_id f))
    as [l|e] eqn:El; [|destruct e; by left].
  destruct (bool_decide (is_Some (fs !! l))); [|by left].
  unfold when, unlink. rewrite El.
  destruct (fs !! l) as [[c t|]|] eqn:Ev; [|by left..].
  apply photo_path_under_box_dir in El as (d & Hd & Hl).
  apply locate_photos_dir_inv in Hd as (-> & _); [|done].
  destruct Hl as [->| ->]; [|by right].
  rewrite photos_loc_snoc in Ev. by apply Hdir in Ev.
Qed.

(** The photo list of a box depends on the entries of its photo
    directory only, and the content of a box on its record only. *)
Lemma get_box_photos_refused fs b :
  ordinary_id b = true → fs_name b = false →
  fs !! DATA_DIR = Some Dir → fs !! PHOTOS = Some Dir →
  get_box_photos DATA_DIR b fs
  = (fs, if has_nul b then Ok [] else Raise NameTooLong).
Proof.
  intros Ho Hn HD HP. unfold get_box_photos, bind, path_exists.
  rewrite locate_photos_dir_cases by done. unfold fs_name in Hn.
  destruct (has_nul b); [done|]. by destruct (too_long b).
Qed.

Lemma photos_frame fs fs' b :
  Layout DATA_DIR fs → Layout DATA_DIR fs' → ordinary_id b = true →
  (∀ n, fs' !! (photos_loc b ++ [n]) = fs !! (photos_loc b ++ [n])) →
  eval (get_box_photos DATA_DIR b) fs' = eval (get_box_photos DATA_DIR b) fs.
Proof.
  intros HL HL' Hb Hsame. destruct (fs_name b) eqn:Nb.
  - destruct (get_box_photos_spec fs b HL Hb Nb) as (l & E & Hs & Hn & Hm & _).
    destruct (get_box_photos_spec fs' b HL' Hb Nb)
      as (l' & E' & Hs' & Hn' & Hm' & _).
    unfold eval. rewrite E, E'. simpl. f_equal.
    apply sorted_names_unique; [done..|].
    intros n. by rewrite Hm, Hm', Hsame.
  - destruct HL as [HD HB HP _ _ _ _ _ _], HL' as [HD' HB' HP' _ _ _ _ _ _].
    unfold eval. by rewrite !get_box_photos_refused.
Qed.

Lemma records_frame fs fs' b :
  Layout DATA_DIR fs → Layout DATA_DIR fs' → route_segment b = true →
  fs' !! box_loc b = fs !! box_loc b →
  eval (get_box_content DATA_DIR b) fs' = eval (get_box_content DATA_DIR b) fs.
Proof.
  intros HL HL' Hb Hk.
  assert (fs !! box_loc b ≠ Some Dir) as Hnd.
  { intros E. by destruct (Layout_box_loc _ _ _ HL E) as (? & ? & ?). }
  assert (fs' !! box_loc b ≠ Some Dir) as Hnd'.
  { intros E. by destruct (Layout_box_loc _ _ _ HL' E) as (? & ? & ?). }
  destruct HL as [HD HB HP _ _ _ _ _ _], HL' as [HD' HB' HP' _ _ _ _ _ _].
  unfold eval. destruct (fs_name (b +:+ ".md")) eqn:Nb.
  - rewrite !get_box_content_eval by done. by rewrite Hk.
  - by rewrite !get_box_content_refused.
Qed.

(** X8.  For a box id that the file system accepts as a name and an
    upload made at a time of the calendar: after an accepted upload the
    store is still laid out, and the photo list of the box is the list
    before the upload together with the name the upload was stored
    under. *)
Theorem upload_then_listed fs box_id file now clock e :
  layout_ok DATA_DIR fs = true → ordinary_id box_id = true →
  fs_name box_id = true → calendar now →
  extension (filename file) = Some e → lower e ∈ ALLOWED_EXTENSIONS →
  let fs' := exec (upload_photo DATA_DIR box_id (Some file) now clock) fs in
  layout_ok DATA_DIR fs' = true
  ∧ ∃ l l', eval (get_box_photos DATA_DIR box_id) fs = Ok l
      ∧ eval (get_box_photos DATA_DIR box_id) fs' = Ok l'
      ∧ ∀ n, n ∈ l' ↔ n ∈ l ∨ n = stored_name now (lower e).
Proof.
  intros HL%layout_ok_spec Ho Hnm Hcal Hext He fs'.
  destruct (stored_name_facts now _ He) as (_ & _ & _ & N4).
  assert (Layout DATA_DIR fs') as HL'.
  { unfold fs', exec. rewrite (upload_accepted _ _ _ _ _ e) by done.
    apply upload_accepted_layout; [done..|]. by apply stored_name_fs_name. }
  split; [by apply layout_ok_spec|].
  destruct (get_box_photos_spec fs box_id HL Ho Hnm) as (l & E & _ & _ & Hm & _).
  destruct (get_box_photos_spec fs' box_id HL' Ho Hnm)
    as (l' & E' & _ & _ & Hm' & _).
  exists l, l'. unfold eval. rewrite E, E'. do 2 (split; [done|]).
  intros n. rewrite Hm, Hm'. unfold fs', exec.
  rewrite (upload_accepted _ _ _ _ _ e) by done. cbn [fst].
  destruct (decide (n = stored_name now (lower e))) as [->|Hne].
  - rewrite lookup_insert_eq. split; [by right|].
    intros _. split; [eauto|]. by apply stored_name_listed.
  - rewrite lookup_insert_ne by (intros ?; simplify_list_eq).
    rewrite lookup_insert_ne by (apply not_eq_sym, longer_ne; done).
    split; [by left|]. by intros [?|?].
Qed.

(** X9.  An accepted upload to one box changes neither the photo list
    of another box nor the record of any box. *)
Theorem upload_leaves_rest fs box_id file now clock e :
  layout_ok DATA_DIR fs = true → ordinary_id box_id = true →
  extension (filename file) = Some e → lower e ∈ ALLOWED_EXTENSIONS →
  let fs' := exec (upload_photo DATA_DIR box_id (Some file) now clock) fs in
  (∀ b, ordinary_id b = true → b ≠ box_id →
        eval (get_box_photos DATA_DIR b) fs'
        = eval (get_box_photos DATA_DIR b) fs)
  ∧ (∀ b, route_segment b = true →
          eval (get_box_content DATA_DIR b) fs'
          = eval (get_box_content DATA_DIR b) fs).
Proof.
  intros HL%layout_ok_spec Ho Hext He fs'.
  destruct (upload_frame fs box_id (Some file) now clock HL Ho) as [HL' Hkeep].
  fold fs' in HL', Hkeep. split.
  - intros b Hb Hne. apply photos_frame; [done..|].
    intros n. apply Hkeep.
    + intros E. apply (f_equal length) in E.
      rewrite !length_app in E. simpl in E. lia.
    + intros n' E. simplify_list_eq.
  - intros b Hb. apply records_frame; [done..|]. apply Hkeep.
    + apply box_loc_ne_photos_loc.
    + intros n. apply box_loc_ne_photo.
Qed.

(** X10.  Two accepted uploads to one box within the same second and
    with the same extension (in lower case) get the same name: the
    second replaces the first, and the store is as if the first had
    not been made. *)
Theorem upload_same_second_overwrites fs box_id f1 f2 now c1 c2 e1 e2 :
  layout_ok DATA_DIR fs = true → ordinary_id box_id = true →
  extension (filename f1) = Some e1 → extension (filename f2) = Some e2 →
  lower e1 ∈ ALLOWED_EXTENSIONS → lower e2 = lower e1 →
  exec (upload_photo DATA_DIR box_id (Some f1) now c1 >>
        upload_photo DATA_DIR box_id (Some f2) now c2) fs
  = exec (upload_photo DATA_DIR box_id (Some f2) now c2) fs.
Proof.
  intros HL%layout_ok_spec Ho H1 H2 He Heq.
  assert (lower e2 ∈ ALLOWED_EXTENSIONS) as He2 by (by rewrite Heq).
  destruct (stored_name_facts now _ He) as (_ & _ & _ & N4).
  pose proof (upload_accepted_run fs box_id f1 now c1 e1 HL Ho H1 He) as E1.
  pose proof (upload_accepted_run fs box_id f2 now c2 e2 HL Ho H2 He2) as E2.
  rewrite Heq in E2. unfold exec. rewrite E2.
  destruct (has_nul box_id) eqn:Hnul;
    [by rewrite (bind_raise _ _ _ _ _ E1)|].
  destruct (too_long box_id) eqn:Hlong;
    [by rewrite (bind_raise _ _ _ _ _ E1)|].
  assert (fs_name box_id = true) as Hnm by (by apply fs_name_spec).
  destruct (too_long (stored_name now (lower e1))) eqn:Hs;
    [by rewrite (bind_raise _ _ _ _ _ E1)|].
  rewrite (bind_run _ _ _ _ _ E1).
  rewrite (upload_accepted_run _ _ _ _ _ e2); [|
    apply upload_accepted_layout; [done..|];
    apply fs_name_spec; split; [by apply stored_name_no_nul|done] |done..].
  rewrite Hnul, Hlong, Heq, Hs. cbn [fst].
  set (k := photos_loc box_id ++ [stored_name now (lower e1)]).
  set (d := photos_loc box_id).
  assert (k ≠ d) as Hkd by (apply longer_ne; done).
  apply map_eq. intros i.
  destruct (decide (i = k)) as [->|Hik]; [by rewrite !lookup_insert_eq|].
  rewrite !(lookup_insert_ne _ k) by done.
  destruct (decide (i = d)) as [->|Hid]; [by rewrite !lookup_insert_eq|].
  rewrite !(lookup_insert_ne _ d) by done.
  rewrite (lookup_insert_ne _ k) by done.
  by rewrite (lookup_insert_ne _ d) by done.
Qed.

(** X11.  For a box id that the file system accepts as a name and an
    upload made at a time of the calendar: a photo that was just
    uploaded is served under the name it was stored under, with the
    uploaded bytes.  The name is made of ASCII digits, letters, [_] and
    [.], which the normalisation of [secure_filename] is to leave
    alone. *)
Theorem upload_then_get_photo fs box_id file now clock e :
  layout_ok DATA_DIR fs = true → ordinary_id box_id = true →
  fs_name box_id = true → calendar now →
  extension (filename file) = Some e → lower e ∈ ALLOWED_EXTENSIONS →
  nfkd_ascii (stored_name now (lower e)) = stored_name now (lower e) →
  eval (upload_photo DATA_DIR box_id (Some file) now clock >>
        get_photo DATA_DIR nfkd_ascii box_id (stored_name now (lower e))) fs
  = Ok (Send_file (data file)).
Proof.
  intros HL%layout_ok_spec Ho Hnm Hcal Hext He Hn.
  destruct (stored_name_facts now _ He) as (_ & N2 & _ & N4).
  pose proof (upload_accepted fs box_id file now clock e HL Ho Hnm Hcal Hext He)
    as E1.
  pose proof (secure_filename_stored now _ He Hn) as Hs.
  pose proof (stored_name_fs_name now _ Hcal He) as Hsn.
  unfold eval. rewrite (bind_run _ _ _ _ _ E1).
  rewrite get_photo_eval;
    [|by apply upload_accepted_layout|done|done|by rewrite Hs|by rewrite Hs].
  rewrite Hs. by rewrite lookup_insert_eq.
Qed.

(** X12.  For a box id and a sanitised file name that the file system
    accepts as names: deleting a photo of a laid-out store removes the
    file with the sanitised name from the photo directory of the box,
    if there is one, and nothing else.  Afterwards the photo is not
    served any more, the photo list has lost exactly that name, and
    deleting it again changes nothing. *)
Theorem delete_photo_removes fs box_id f :
  layout_ok DATA_DIR fs = true → ordinary_id box_id = true →
  fs_name box_id = true → fs_name (secure_filename nfkd_ascii f) = true →
  secure_filename nfkd_ascii f ≠ "" →
  let gone := photos_loc box_id ++ [secure_filename nfkd_ascii f] in
  let fs' := delete gone fs in
  delete_photo DATA_DIR nfkd_ascii box_id f fs
  = (fs', Ok (Redirect (Ep_view_box box_id)))
  ∧ layout_ok DATA_DIR fs' = true
  ∧ get_photo DATA_DIR nfkd_ascii box_id f fs' = (fs', Ok Not_found_404)
  ∧ delete_photo DATA_DIR nfkd_ascii box_id f fs'
    = (fs', Ok (Redirect (Ep_view_box box_id)))
  ∧ ∃ l l', eval (get_box_photos DATA_DIR box_id) fs = Ok l
      ∧ eval (get_box_photos DATA_DIR box_id) fs' = Ok l'
      ∧ ∀ n, n ∈ l' ↔ n ∈ l ∧ n ≠ secure_filename nfkd_ascii f.
Proof.
  intros HL%layout_ok_spec Ho Hnm Hfn Hs gone fs'.
  assert (Layout DATA_DIR fs') as HL'.
  { apply delete_photo_layout; [done|].
    exists box_id, (secure_filename nfkd_ascii f). apply photo_key. }
  assert (fs' !! gone = None) as Hgone by apply lookup_delete_eq.
  split; [by apply delete_photo_eval|].
  split; [by apply layout_ok_spec|].
  split; [rewrite get_photo_eval by done; fold gone; by rewrite Hgone|].
  split.
  { rewrite delete_photo_eval by done. fold gone.
    by rewrite delete_id by done. }
  destruct (get_box_photos_spec fs box_id HL Ho Hnm) as (l & E & _ & _ & Hm & _).
  destruct (get_box_photos_spec fs' box_id HL' Ho Hnm)
    as (l' & E' & _ & _ & Hm' & _).
  exists l, l'. unfold eval. rewrite E, E'. do 2 (split; [done|]).
  intros n. rewrite Hm, Hm'.
  destruct (decide (n = secure_filename nfkd_ascii f)) as [->|Hne].
  - fold gone. rewrite Hgone. split; [by intros [[? ?] _]|by intros [_ ?]].
  - unfold fs'. rewrite lookup_delete_ne by (unfold gone; intros ?; simplify_list_eq).
    split; [by intros [? ?]|by intros [[? ?] _]].
Qed.

(** X13.  For a box id that the file system accepts as a name: a photo
    name that [secure_filename] reduces to the empty string ([..],
    [.], [_]) makes the photo path the photo directory of the box
    itself.  When the box has a photo directory, serving it and
    deleting it both fail with [IsADirectoryError] and change nothing;
    when it has none, serving answers 404 and deleting only
    redirects. *)
Theorem photo_name_sanitised_away fs box_id f :
  layout_ok DATA_DIR fs = true → ordinary_id box_id = true →
  fs_name box_id = true →
  secure_filename nfkd_ascii f = "" →
  (fs !! photos_loc box_id = Some Dir →
     get_photo DATA_DIR nfkd_ascii box_id f fs = (fs, Raise IsADirectoryError)
     ∧ delete_photo DATA_DIR nfkd_ascii box_id f fs
       = (fs, Raise IsADirectoryError))
  ∧ (fs !! photos_loc box_id = None →
     get_photo DATA_DIR nfkd_ascii box_id f fs = (fs, Ok Not_found_404)
     ∧ delete_photo DATA_DIR nfkd_ascii box_id f fs
       = (fs, Ok (Redirect (Ep_view_box box_id)))).
Proof.
  intros [HD HB HP _ _ _ _ _ _]%layout_ok_spec Ho Hnm Hs.
  assert (photo_path DATA_DIR nfkd_ascii box_id f
          = PHOTOS_DIR DATA_DIR </> box_id) as Hp.
  { rewrite photo_path_eq, Hs. cbv zeta. cbn [String.eqb].
    by rewrite photos_dir_eq by done. }
  pose proof (locate_photos_dir fs box_id Ho Hnm HD HP) as Hl.
  pose proof (path_exists_photos_dir fs box_id Ho Hnm HD HP) as He.
  unfold get_photo, delete_photo. rewrite Hp, !(bind_run _ _ _ _ _ He).
  split; intros Hd; rewrite Hd.
  - rewrite bool_decide_eq_true_2 by eauto.
    unfold bind, when, read_bytes, unlink. by rewrite Hl, Hd.
  - by rewrite bool_decide_eq_false_2 by (by intros [? ?]).
Qed.

(** *** The index and the search in a laid-out store *)

Global Instance newer_first_trans : Transitive newer_first.
Proof. intros x y z. unfold newer_first. lia. Qed.

Global Instance newer_first_total : Total newer_first.
Proof. intros x y. unfold newer_first. lia. Qed.

Lemma elem_of_md_names fs nm :
  fs !! DATA_DIR = Some Dir → fs !! BOXES = Some Dir →
  nm ∈ md_names DATA_DIR fs
  ↔ endswith ".md" nm = true ∧ is_Some (fs !! (BOXES ++ [nm])).
Proof.
  intros HD HB. unfold md_names, is_dir_at. rewrite HD, HB. simpl.
  by rewrite list_elem_of_filter, elem_of_children.
Qed.

Lemma NoDup_md_names fs : NoDup (md_names DATA_DIR fs).
Proof.
  unfold md_names. destruct (_ && _); [|constructor].
  apply NoDup_filter, NoDup_children.
Qed.

(** In a laid-out store the record of the box [s] is the file [s.md],
    and the only file with the stem [s]. *)
Lemma record_name fs nm :
  Layout DATA_DIR fs → endswith ".md" nm = true →
  is_Some (fs !! (BOXES ++ [nm])) →
  nm = stem_of nm +:+ ".md" ∧ BOXES ++ [nm] = box_loc (stem_of nm).
Proof.
  intros [_ _ _ Hrec _ _ Hrn _ _] [x ->]%endswith_inv [v Hv].
  destruct (Hrec _ _ Hv) as [_ Hne].
  rewrite stem_of_md. destruct (String.eqb_spec x "") as [->|_]; [done|].
  by rewrite box_loc_snoc.
Qed.

Lemma box_loc_record fs s v :
  Layout DATA_DIR fs → fs !! box_loc s = Some v →
  stem_of (s +:+ ".md") = s ∧ ∃ c t, v = File c t.
Proof.
  intros [_ _ _ Hrec _ _ Hrn _ _] Hv. rewrite box_loc_snoc in Hv.
  destruct (Hrec _ _ Hv) as [Hf Hne]. split; [|done].
  rewrite stem_of_md. by destruct (String.eqb_spec s "") as [->|_].
Qed.

(** The index of a laid-out store. *)
Lemma get_all_boxes_spec fs :
  Layout DATA_DIR fs →
  ∃ boxes, get_all_boxes DATA_DIR fs = (fs, Ok boxes)
    ∧ StronglySorted newer_first boxes
    ∧ NoDup (id <$> boxes)
    ∧ ∀ b, b ∈ boxes
        ↔ ∃ c t, fs !! box_loc (id b) = Some (File c t)
                 ∧ title b = title_of (universal_newlines c)
                 ∧ modified b = t.
Proof.
  intros HL. pose proof HL as [HD HB HP Hrec Hdir Hph Hrn Hdn Hpn].
  exists (merge_sort newer_first (entry_of DATA_DIR fs <$> md_names DATA_DIR fs)).
  split; [|split; [|split]].
  - apply get_all_boxes_eval. intros nm v Hv _.
    split; [by apply (Hrn nm v)|]. by destruct (Hrec _ _ Hv) as [? _].
  - apply StronglySorted_merge_sort; apply _.
  - rewrite merge_sort_Permutation, <- list_fmap_compose.
    apply NoDup_fmap_2_strong; [|apply NoDup_md_names].
    intros n m [Hn1 Hn2]%elem_of_md_names [Hm1 Hm2]%elem_of_md_names; [|done..].
    simpl. rewrite !entry_of_id. intros E.
    destruct (record_name fs n HL Hn1 Hn2) as [-> _].
    destruct (record_name fs m HL Hm1 Hm2) as [-> _].
    by rewrite E.
  - intros b. rewrite merge_sort_Permutation, list_elem_of_fmap. split.
    + intros (nm & -> & [Hmd Hin]%elem_of_md_names); [|done..].
      destruct (record_name fs nm HL Hmd Hin) as [_ Hk].
      rewrite entry_of_id, <- Hk. unfold entry_of.
      destruct Hin as [v Hv]. rewrite Hv.
      destruct (Hrec _ _ Hv) as [(c & t & ->) _]. by exists c, t.
    + intros (c & t & Hv & Ht & Hm).
      destruct (box_loc_record fs _ _ HL Hv) as [Hs _].
      exists (id b +:+ ".md"). split.
      * unfold entry_of. rewrite <- box_loc_snoc, Hv, Hs.
        destruct b; simpl in *; by subst.
      * apply elem_of_md_names; [done..|].
        split; [apply endswith_app|]. rewrite <- box_loc_snoc. eauto.
Qed.

(** X14.  The index of a laid-out store never fails and changes
    nothing.  It lists the boxes newest first, every box once: a box is
    listed exactly when its record exists, with the title derived from
    the content as it is read and the modification time of the
    record. *)
Theorem index_lists_every_box fs :
  layout_ok DATA_DIR fs = true →
  ∃ boxes, index DATA_DIR fs = (fs, Ok (Render_index boxes))
    ∧ StronglySorted newer_first boxes
    ∧ NoDup (id <$> boxes)
    ∧ ∀ b, b ∈ boxes
        ↔ ∃ c t, fs !! box_loc (id b) = Some (File c t)
                 ∧ title b = title_of (universal_newlines c)
                 ∧ modified b = t.
Proof.
  intros HL%layout_ok_spec.
  destruct (get_all_boxes_spec fs HL) as (boxes & E & H).
  exists boxes. split; [|done].
  unfold index. by rewrite (bind_run _ _ _ _ _ E).
Qed.

Lemma records_before_spec fs now :
  records_before DATA_DIR fs now = true
  ↔ ∀ n c t, fs !! (BOXES ++ [n]) = Some (File c t) → t < now.
Proof.
  unfold records_before. rewrite forallb_forall. split.
  - intros H n c t Hv.
    specialize (H (BOXES ++ [n], File c t)).
    rewrite <- list_elem_of_In, elem_of_map_to_list in H.
    specialize (H Hv). cbn [fst snd] in H.
    rewrite (proj2 (child_name_spec _ _ n) eq_refl) in H.
    by apply Nat.ltb_lt.
  - intros H [k v]. rewrite <- list_elem_of_In, elem_of_map_to_list.
    intros Hv. cbn [fst snd].
    destruct (child_name BOXES k) as [n|] eqn:E; [|done].
    apply child_name_spec in E as ->. destruct v as [c t|]; [|done].
    apply Nat.ltb_lt. eauto.
Qed.

(** X15.  For a box id whose record name [<id>.md] the file system
    accepts: a box saved at a time later than the modification time of
    every record comes first in the index, with the title of the
    submitted content as it is read back. *)
Theorem saved_box_listed_first fs box_id form now :
  layout_ok DATA_DIR fs = true → route_segment box_id = true →
  fs_name (box_id +:+ ".md") = true →
  records_before DATA_DIR fs now = true →
  ∃ rest,
    eval (edit_box DATA_DIR box_id POST form now >> index DATA_DIR) fs
    = Ok (Render_index
            (mkBox box_id (title_of (read_as_text (default "" form))) now
             :: rest)).
Proof.
  rewrite <- universal_newlines_spec.
  intros HL%layout_ok_spec Hr Hnm Hold.
  pose proof (proj1 (records_before_spec fs now) Hold) as Hold'.
  clear Hold. rename Hold' into Hold.
  pose proof HL as [HD HB HP Hrec Hdir Hph Hrn Hdn Hpn].
  apply route_segment_spec in Hr as Hr'. destruct Hr' as [Hne _].
  set (content := default "" form).
  set (fs' := <[box_loc box_id := File content now]> fs).
  assert (edit_box DATA_DIR box_id POST form now fs
          = (fs', Ok (Redirect (Ep_view_box box_id)))) as Hedit.
  { unfold edit_box. erewrite bind_run; [reflexivity|].
    apply save_box_content_ok; [done..|].
    intros E. rewrite box_loc_snoc in E.
    by destruct (Hrec _ _ E) as [(? & ? & ?) _]. }
  assert (Layout DATA_DIR fs') as HL' by (by apply Layout_save).
  destruct (get_all_boxes_spec fs' HL') as (boxes & E & Hs & Hn & Hm).
  set (e := mkBox box_id (title_of (universal_newlines content)) now).
  assert (e ∈ boxes) as He.
  { apply Hm. exists content, now. simpl. split; [|done].
    apply lookup_insert_eq. }
  assert (∀ b, b ∈ boxes → b = e ∨ modified b < now) as Hcase.
  { intros b (c & t & Hv & Ht & Hmod)%Hm.
    destruct (decide (id b = box_id)) as [Hid|Hid].
    - left. rewrite Hid in Hv. unfold fs' in Hv.
      rewrite lookup_insert_eq in Hv. injection Hv as <- <-.
      destruct b; simpl in *; by subst.
    - right. unfold fs' in Hv.
      rewrite lookup_insert_ne in Hv by (intros ?%box_loc_inj; by subst).
      rewrite box_loc_snoc in Hv. rewrite Hmod. eauto. }
  unfold eval. rewrite (bind_run _ _ _ _ _ Hedit).
  unfold index. rewrite (bind_run _ _ _ _ _ E). simpl.
  destruct boxes as [|h rest]; [by apply elem_of_nil in He|].
  exists rest. do 3 f_equal.
  destruct (Hcase h) as [->|Hlt]; [left|done|].
  apply StronglySorted_inv in Hs as [_ Hall].
  apply elem_of_cons in He as [->|Hin]; [done|].
  pose proof (proj1 (Forall_forall _ _) Hall e Hin) as Hle.
  unfold newer_first in Hle. simpl in Hle. lia.
Qed.

Lemma search_eval fs q :
  Layout DATA_DIR fs → lower q ≠ "" →
  search DATA_DIR (Some q) fs
  = (fs, Ok (Render_search (lower q)
               (concat (hits_of DATA_DIR fs (lower q) <$> md_names DATA_DIR fs)))).
Proof.
  intros [HD HB HP Hrec Hdir Hph Hrn Hdn Hpn] Hq. unfold search.
  change (default "" (Some q)) with q.
  set (query := lower q) in *.
  erewrite bind_run; [reflexivity|].
  destruct (String.eqb_spec query "") as [|_]; [done|]. cbn [negb].
  rewrite (bind_run _ _ _ _ _ (glob_boxes fs)).
  unfold md_names, is_dir_at. rewrite HD, HB. cbn [andb].
  erewrite bind_run; [reflexivity|].
  rewrite (for_collect_run _ _ (λ p, hits_of DATA_DIR fs query (name p))).
  { rewrite <- list_fmap_compose. unfold ret. do 2 f_equal.
    apply list_fmap_ext. intros i n _. simpl. by rewrite name_boxes_child. }
  intros p (nm & -> & Hnm)%list_elem_of_fmap.
  apply list_elem_of_filter in Hnm as [Hmd [v Hv]%elem_of_children].
  destruct (Hrec _ _ Hv) as [(c & t & ->) _].
  pose proof (Hrn _ _ Hv) as [N1 N2]%fs_name_spec.
  assert (locate fs (mkPath DATA_DIR ["boxes"; nm]) = Ok (BOXES ++ [nm])) as Hl.
  { rewrite locate_boxes_child; [by rewrite N1, N2|done..|].
    by apply endswith_md_not_dotdot. }
  assert (read_text (mkPath DATA_DIR ["boxes"; nm]) fs
          = (fs, Ok (universal_newlines c))) as Hread.
  { unfold read_text. by rewrite Hl, Hv. }
  rewrite (bind_run _ _ _ _ _ Hread).
  unfold hits_of, stem. rewrite name_boxes_child, Hv.
  destruct (contains query (lower (universal_newlines c))); [|done].
  by rewrite title_of_lines_split.
Qed.

Lemma elem_of_concat {A} (x : A) (ls : list (list A)) :
  x ∈ concat ls ↔ ∃ l, x ∈ l ∧ l ∈ ls.
Proof.
  induction ls as [|l ls IH]; simpl.
  - split; [by intros ?%elem_of_nil|]. by intros (? & _ & ?%elem_of_nil).
  - rewrite elem_of_app, IH. split.
    + intros [H|(l' & H1 & H2)]; [exists l; split; [done|left]|].
      exists l'. split; [done|by right].
    + intros (l' & H1 & [->|H2]%elem_of_cons); [by left|].
      right. by exists l'.
Qed.

Lemma search_spec fs q :
  Layout DATA_DIR fs → lower q ≠ "" →
  ∃ results,
    search DATA_DIR (Some q) fs = (fs, Ok (Render_search (lower q) results))
    ∧ NoDup (result_id <$> results)
    ∧ ∀ r, r ∈ results
        ↔ ∃ c t, fs !! box_loc (result_id r) = Some (File c t)
                 ∧ contains (lower q) (lower (universal_newlines c)) = true
                 ∧ result_title r = title_of (universal_newlines c)
                 ∧ preview r = preview_of (lower q) (universal_newlines c).
Proof.
  intros HL Hq. pose proof HL as [HD HB HP Hrec Hdir Hph Hrn Hdn Hpn].
  set (query := lower q) in *.
  exists (concat (hits_of DATA_DIR fs query <$> md_names DATA_DIR fs)).
  split; [by apply search_eval|].
  assert (∀ r nm, r ∈ hits_of DATA_DIR fs query nm →
            result_id r = stem_of nm) as Hid.
  { intros r nm. unfold hits_of.
    destruct (fs !! (BOXES ++ [nm])) as [[c t|]|]; try by intros ?%elem_of_nil.
    destruct (contains _ _); [|by intros ?%elem_of_nil].
    by intros ->%list_elem_of_singleton. }
  split.
  - pose proof (NoDup_md_names fs) as Hnd.
    assert (∀ nm, nm ∈ md_names DATA_DIR fs →
              endswith ".md" nm = true ∧ is_Some (fs !! (BOXES ++ [nm]))) as Hin
      by (intros nm; by apply elem_of_md_names).
    induction (md_names DATA_DIR fs) as [|nm l IH]; [constructor|].
    apply NoDup_cons in Hnd as [Hnm Hl].
    cbn [fmap list_fmap concat]. rewrite fmap_app. apply NoDup_app.
    split; [|split].
    + unfold hits_of. destruct (fs !! (BOXES ++ [nm])) as [[c t|]|];
        try constructor.
      destruct (contains _ _); [|constructor]. apply NoDup_singleton.
    + intros x (r & -> & Hr)%list_elem_of_fmap
               (r' & E & Hr')%list_elem_of_fmap.
      apply elem_of_concat in Hr' as (h & Hr' & Hh).
      apply list_elem_of_fmap in Hh as (nm' & -> & Hnm').
      rewrite (Hid _ _ Hr), (Hid _ _ Hr') in E.
      destruct (Hin nm) as [A1 A2]; [left|].
      destruct (Hin nm') as [B1 B2]; [by right|].
      destruct (record_name fs nm HL A1 A2) as [E1 _].
      destruct (record_name fs nm' HL B1 B2) as [E2 _].
      rewrite E in E1. rewrite <- E2 in E1. by subst.
    + apply IH; [done|]. intros nm' ?. apply Hin. by right.
  - intros r. rewrite elem_of_concat. split.
    + intros (h & Hr & (nm & -> & [Hmd Hin]%elem_of_md_names)%list_elem_of_fmap);
        [|done..].
      destruct (record_name fs nm HL Hmd Hin) as [_ Hk].
      rewrite (Hid _ _ Hr), <- Hk. unfold hits_of in Hr.
      destruct (fs !! (BOXES ++ [nm])) as [[c t|]|];
        try by apply elem_of_nil in Hr.
      destruct (contains _ _) eqn:Ec; [|by apply elem_of_nil in Hr].
      apply list_elem_of_singleton in Hr as ->. by exists c, t.
    + intros (c & t & Hv & Hc & Ht & Hp).
      destruct (box_loc_record fs _ _ HL Hv) as [Hs _].
      exists (hits_of DATA_DIR fs query (result_id r +:+ ".md")). split.
      * unfold hits_of. rewrite <- box_loc_snoc, Hv, Hc, Hs.
        apply list_elem_of_singleton. destruct r; simpl in *; by subst.
      * apply list_elem_of_fmap. eexists. split; [done|].
        apply elem_of_md_names; [done..|].
        split; [apply endswith_app|]. rewrite <- box_loc_snoc. eauto.
Qed.

Lemma preview_of_spec query content p :
  p ∈ preview_of query content →
  ∃ l, l ∈ split LF (strip content) ∧ contains query (lower l) = true
       ∧ p = strip l.
Proof.
  unfold preview_of. intros (i & Hp%list_elem_of_lookup_2 & _)%elem_of_take.
  apply list_elem_of_fmap in Hp as (l & -> & [Hl Hin]%list_elem_of_filter).
  by exists l.
Qed.

(** X16.  A search with a query that is not empty never fails in a
    laid-out store and changes nothing.  It returns one result for
    every box whose content holds the query, both taken in lower case,
    and none for the others.  A result carries the title of the box
    and at most three preview lines, each a line of the stripped
    content that holds the query, stripped itself. *)
Theorem search_finds_matching_boxes fs q :
  layout_ok DATA_DIR fs = true → lower q ≠ "" →
  ∃ results,
    search DATA_DIR (Some q) fs = (fs, Ok (Render_search (lower q) results))
    ∧ NoDup (result_id <$> results)
    ∧ (∀ box_id c t,
         fs !! box_loc box_id = Some (File c t) →
         (∃ r, r ∈ results ∧ result_id r = box_id)
         ↔ contains (lower q) (lower (universal_newlines c)) = true)
    ∧ (∀ r, r ∈ results →
         ∃ c t, fs !! box_loc (result_id r) = Some (File c t)
           ∧ result_title r = title_of (universal_newlines c)
           ∧ length (preview r) ≤ 3
           ∧ ∀ p, p ∈ preview r →
               ∃ l, l ∈ split LF (strip (universal_newlines c))
                    ∧ contains (lower q) (lower l) = true ∧ p = strip l).
Proof.
  intros HL%layout_ok_spec Hq.
  destruct (search_spec fs q HL Hq) as (results & E & Hn & Hm).
  exists results. do 2 (split; [done|]). split.
  - intros box_id c t Hv. split.
    + intros (r & (c' & t' & Hv' & Hc & _)%Hm & <-). congruence.
    + intros Hc.
      exists (mkResult box_id (title_of (universal_newlines c))
                (preview_of (lower q) (universal_newlines c))).
      split; [|done]. apply Hm. by exists c, t.
  - intros r (c & t & Hv & Hc & Ht & Hp)%Hm. exists c, t.
    do 2 (split; [done|]). rewrite Hp. split.
    + unfold preview_of. rewrite length_take. lia.
    + intros p. apply preview_of_spec.
Qed.

(** X17.  For a box id whose record name [<id>.md] the file system
    accepts: a box that was just saved is found by every query its
    content, as it is read back, holds when both are taken in lower
    case, under its id and with the title of the content. *)
Theorem saved_box_is_found fs box_id content now q :
  layout_ok DATA_DIR fs = true → route_segment box_id = true →
  fs_name (box_id +:+ ".md") = true →
  lower q ≠ "" →
  contains (lower q) (lower (read_as_text content)) = true →
  ∃ results,
    eval (save_box_content DATA_DIR box_id content now >>
          search DATA_DIR (Some q)) fs
    = Ok (Render_search (lower q) results)
    ∧ mkResult box_id (title_of (read_as_text content))
        (preview_of (lower q) (read_as_text content)) ∈ results.
Proof.
  rewrite <- universal_newlines_spec.
  intros HL%layout_ok_spec Hr Hnm Hq Hc.
  pose proof HL as [HD HB HP Hrec Hdir Hph Hrn Hdn Hpn].
  set (fs' := <[box_loc box_id := File content now]> fs).
  assert (save_box_content DATA_DIR box_id content now fs = (fs', Ok tt))
    as Hsave.
  { apply save_box_content_ok; [done..|].
    intros E. rewrite box_loc_snoc in E.
    by destruct (Hrec _ _ E) as [(? & ? & ?) _]. }
  assert (Layout DATA_DIR fs') as HL' by (by apply Layout_save).
  destruct (search_spec fs' q HL' Hq) as (results & E & _ & Hm).
  exists results. unfold eval. rewrite (bind_run _ _ _ _ _ Hsave), E.
  split; [done|]. apply Hm. exists content, now. simpl.
  split; [apply lookup_insert_eq|done].
Qed.

(** *** Viewing a box and its QR code *)

Lemma generate_qr_code_run url fs :
  generate_qr_code qrcode_png b64encode url fs
  = (fs, match qrcode_png url with
         | Some png => Ok (b64encode png)
         | None => Raise DataOverflowError
         end).
Proof.
  unfold generate_qr_code, qr_image, bind.
  by destruct (qrcode_png url).
Qed.

(** What [view_box] does in a laid-out store, for a box id whose record
    name the file system accepts. *)
Lemma view_box_run fs box_id host_url now :
  Layout DATA_DIR fs → ordinary_id box_id = true →
  fs_name (box_id +:+ ".md") = true →
  let url := rstrip "/" host_url +:+ "/box/" +:+ box_id in
  let fs1 := match fs !! box_loc box_id with
             | None => <[box_loc box_id := File (template box_id) now]> fs
             | Some _ => fs
             end in
  let content := match fs !! box_loc box_id with
                 | Some (File c _) => universal_newlines c
                 | _ => template box_id
                 end in
  Layout DATA_DIR fs1
  ∧ ∃ photos, get_box_photos DATA_DIR box_id fs = (fs, Ok photos)
    ∧ view_box DATA_DIR qrcode_png b64encode box_id host_url now fs
      = (fs1, match qrcode_png url with
              | Some png =>
                  Ok (Render_box box_id content (b64encode png) url photos)
              | None => Raise DataOverflowError
              end).
Proof.
  intros HL Ho Hmd url fs1 content.
  pose proof HL as [HD HB HP Hrec Hdir Hph Hrn Hdn Hpn].
  apply ordinary_id_spec in Ho as Ho'. destruct Ho' as (Hr & _ & _).
  pose proof (fs_name_md _ Hmd) as Hnm.
  assert (Layout DATA_DIR fs1) as HL1.
  { unfold fs1. destruct (fs !! box_loc box_id); [done|].
    by apply Layout_save. }
  split; [done|].
  destruct (get_box_photos_spec fs box_id HL Ho Hnm)
    as (l & E & Hs & Hn & Hm & _).
  destruct (get_box_photos_spec fs1 box_id HL1 Ho Hnm)
    as (l1 & E1 & Hs1 & Hn1 & Hm1 & _).
  assert (l1 = l) as ->.
  { apply sorted_names_unique; [done..|]. intros n. rewrite Hm, Hm1.
    unfold fs1. destruct (fs !! box_loc box_id); [done|].
    by rewrite lookup_insert_ne by apply box_loc_ne_photo. }
  exists l. split; [done|].
  assert (fs !! box_loc box_id ≠ Some Dir) as Hnd.
  { intros Ev. by destruct (Layout_box_loc _ _ _ HL Ev) as (? & ? & ?). }
  unfold view_box.
  rewrite (bind_run _ _ _ _ _
             (get_box_content_eval fs box_id Hr Hmd HD HB Hnd)).
  assert ((match match fs !! box_loc box_id with
                 | Some (File c _) => Some (universal_newlines c)
                 | _ => None
                 end with
           | None =>
               save_box_content DATA_DIR box_id (template box_id) now >>
               ret (template box_id)
           | Some content => ret content
           end) fs = (fs1, Ok content)) as Hstep.
  { unfold fs1, content.
    destruct (fs !! box_loc box_id) as [[c t|]|] eqn:Ev; try done.
    erewrite bind_run; [reflexivity|].
    apply save_box_content_ok; try done. by rewrite Ev. }
  rewrite (bind_run _ _ _ _ _ Hstep). cbv zeta. fold url.
  pose proof (generate_qr_code_run url fs1) as Hqr.
  destruct (qrcode_png url) as [png|].
  - rewrite (bind_run _ _ _ _ _ Hqr). by rewrite (bind_run _ _ _ _ _ E1).
  - by apply bind_raise.
Qed.

(** The handlers of a box whose record name the file system refuses:
    for a name with a NUL character [exists()] is false and the write
    raises [ValueError]; for a name that is too long [exists()] raises
    already.  Nothing is created. *)
Lemma record_name_refused box_id :
  fs_name (box_id +:+ ".md") = false →
  has_nul (box_id +:+ ".md") = has_nul box_id
  ∧ (has_nul box_id = false → too_long (box_id +:+ ".md") = true).
Proof.
  unfold fs_name. rewrite has_nul_app.
  change (has_nul ".md") with false. rewrite orb_false_r.
  intros H. split; [done|]. intros E. rewrite E in H.
  by destruct (too_long _).
Qed.

Lemma view_box_refused fs box_id host_url now :
  ordinary_id box_id = true → fs_name (box_id +:+ ".md") = false →
  fs !! DATA_DIR = Some Dir → fs !! BOXES = Some Dir →
  view_box DATA_DIR qrcode_png b64encode box_id host_url now fs
  = (fs, Raise (if has_nul box_id then ValueError else NameTooLong)).
Proof.
  intros (Hr & _ & _)%ordinary_id_spec Hn HD HB.
  pose proof (get_box_content_refused fs box_id Hr Hn HD HB) as Hg.
  pose proof (save_box_content_refused fs box_id (template box_id) now
                Hr Hn HD HB) as Hsave.
  destruct (record_name_refused _ Hn) as [E _]. rewrite E in Hg, Hsave.
  unfold view_box. destruct (has_nul box_id).
  - rewrite (bind_run _ _ _ _ _ Hg). apply bind_raise. by apply bind_raise.
  - by apply bind_raise.
Qed.

Lemma edit_box_refused fs box_id form now :
  ordinary_id box_id = true → fs_name (box_id +:+ ".md") = false →
  fs !! DATA_DIR = Some Dir → fs !! BOXES = Some Dir →
  edit_box DATA_DIR box_id POST form now fs
  = (fs, Raise (if has_nul box_id then ValueError else NameTooLong)).
Proof.
  intros (Hr & _ & _)%ordinary_id_spec Hn HD HB.
  pose proof (save_box_content_refused fs box_id (default "" form) now
                Hr Hn HD HB) as Hsave.
  destruct (record_name_refused _ Hn) as [E _]. rewrite E in Hsave.
  unfold edit_box. by apply bind_raise.
Qed.

Lemma delete_box_refused fs box_id :
  ordinary_id box_id = true → fs_name (box_id +:+ ".md") = false →
  fs !! DATA_DIR = Some Dir → fs !! BOXES = Some Dir →
  fs !! PHOTOS = Some Dir →
  delete_box DATA_DIR box_id fs
  = (fs, if has_nul box_id then Ok (Redirect Ep_index)
         else Raise NameTooLong).
Proof.
  intros Ho Hn HD HB HP. pose proof Ho as (Hr & _ & _)%ordinary_id_spec.
  destruct (record_name_refused _ Hn) as [E Hlong].
  assert (path_exists (box_file DATA_DIR box_id) fs
          = (fs, if has_nul box_id then Ok false else Raise NameTooLong))
    as S1.
  { unfold path_exists. rewrite locate_box_file_cases, E by done.
    destruct (has_nul box_id); [done|]. by rewrite Hlong. }
  unfold delete_box. destruct (has_nul box_id) eqn:Hnul.
  - assert (path_exists (PHOTOS_DIR DATA_DIR </> box_id) fs = (fs, Ok false))
      as S2.
    { unfold path_exists. rewrite locate_photos_dir_cases by done.
      by rewrite Hnul. }
    rewrite (bind_run _ _ _ _ _ S1). unfold when at 1.
    erewrite bind_run; [|reflexivity].
    by rewrite (bind_run _ _ _ _ _ S2).
  - by apply bind_raise.
Qed.

(** X18.  For a box id whose record name [<id>.md] the file system
    accepts: when the QR encoder cannot take the URL of a box that has
    no record yet, [view_box] fails, but only after it has created the
    record: the failed request leaves the box with its template. *)
Theorem view_box_qr_failure_keeps_record fs box_id host_url now :
  layout_ok DATA_DIR fs = true → ordinary_id box_id = true →
  fs_name (box_id +:+ ".md") = true →
  fs !! box_loc box_id = None →
  qrcode_png (rstrip "/" host_url +:+ "/box/" +:+ box_id) = None →
  let fs' := <[box_loc box_id := File (template box_id) now]> fs in
  view_box DATA_DIR qrcode_png b64encode box_id host_url now fs
  = (fs', Raise DataOverflowError)
  ∧ eval (get_box_content DATA_DIR box_id) fs'
    = Ok (Some (read_as_text (template box_id))).
Proof.
  intros HL%layout_ok_spec Ho Hmd Hnone Hqr fs'.
  destruct (view_box_run fs box_id host_url now HL Ho Hmd)
    as (HL' & l & _ & E).
  rewrite Hnone in HL'. rewrite Hnone, Hqr in E. split; [done|].
  destruct HL' as [HD' HB' _ _ _ _ _ _ _].
  apply ordinary_id_spec in Ho as (Hr & _ & _).
  unfold eval. rewrite <- universal_newlines_spec.
  rewrite (get_box_content_file fs' box_id (template box_id) now); try done.
  apply lookup_insert_eq.
Qed.

(** *** Deleting a box of a laid-out store *)

Lemma of_box_cases box_id k :
  of_box DATA_DIR box_id k ∨ ¬ of_box DATA_DIR box_id k.
Proof.
  unfold of_box.
  destruct (decide (k = box_loc box_id)) as [->|H1]; [left; by left|].
  destruct (decide (k = photos_loc box_id)) as [->|H2];
    [left; right; by left|].
  destruct (child_name (photos_loc box_id) k) as [n|] eqn:E.
  - apply child_name_spec in E as ->. left. right. right. by exists n.
  - right. intros [?|[?|[n ->]]]; [done..|].
    by rewrite (proj2 (child_name_spec _ _ n) eq_refl) in E.
Qed.

Lemma delete_box_layout fs box_id :
  Layout DATA_DIR fs → ordinary_id box_id = true →
  fs_name (box_id +:+ ".md") = true →
  ∃ fs', delete_box DATA_DIR box_id fs = (fs', Ok (Redirect Ep_index))
    ∧ Layout DATA_DIR fs'
    ∧ (∀ k, of_box DATA_DIR box_id k → fs' !! k = None)
    ∧ (∀ k, ¬ of_box DATA_DIR box_id k → fs' !! k = fs !! k).
Proof.
  intros HL Ho Hmd. pose proof HL as [HD HB HP Hrec Hdir Hph Hrn Hdn Hpn].
  destruct (delete_box_cascade fs box_id) as (fs' & E & Hgone & Hkeep);
    try done.
  { intros Ev. by destruct (Layout_box_loc _ _ _ HL Ev) as (? & ? & ?). }
  { intros c t Ev. rewrite photos_loc_snoc in Ev. by apply Hdir in Ev. }
  { intros n v Ev. rewrite photo_key in Ev.
    destruct (Hph _ _ _ Ev) as (Hf & Hn & Hd).
    rewrite photos_loc_snoc. split; [done|]. split; [done|].
    split; [by apply (Hpn _ _ _ Ev)|done]. }
  exists fs'. split; [done|]. split; [|done].
  assert (∀ k, k ≠ box_loc box_id → k ≠ photos_loc box_id →
               (∀ n, k ≠ photos_loc box_id ++ [n]) →
               fs' !! k = fs !! k) as Hkeep'.
  { intros k H1 H2 H3. apply Hkeep. intros [?|[?|[n ?]]]; [done..|].
    by apply (H3 n). }
  apply (Layout_shrink fs); [done| | | | |].
  - intros k. destruct (of_box_cases box_id k); [left|right]; auto.
  - rewrite Hkeep'; [done|key_ne|key_ne|intros n; key_ne].
  - rewrite Hkeep'; [done|key_ne|key_ne|intros n; key_ne].
  - rewrite Hkeep'; [done|key_ne|key_ne|intros n; key_ne].
  - intros b n [v Hv].
    destruct (decide (b = box_id)) as [->|Hne].
    + rewrite Hgone in Hv; [done|]. right. right. exists n.
      by rewrite photo_key.
    + rewrite Hkeep' in Hv; [|key_ne|key_ne|intros n'; key_ne].
      destruct (Hph _ _ _ Hv) as (_ & _ & Hd).
      rewrite Hkeep'; [eauto|key_ne|key_ne|intros n'; key_ne].
Qed.

(** X20.  In a laid-out store, deleting a box whose id is an ordinary
    name and whose record name [<id>.md] the file system accepts
    succeeds whether or not the box has a record or photos.  It
    removes the record, the photo directory and the photos of the box
    and nothing else, the store stays laid out, and deleting the box
    once more changes nothing. *)
Theorem delete_box_ordinary fs box_id :
  layout_ok DATA_DIR fs = true → ordinary_id box_id = true →
  fs_name (box_id +:+ ".md") = true →
  ∃ fs', delete_box DATA_DIR box_id fs = (fs', Ok (Redirect Ep_index))
    ∧ layout_ok DATA_DIR fs' = true
    ∧ (∀ k, of_box DATA_DIR box_id k → fs' !! k = None)
    ∧ (∀ k, ¬ of_box DATA_DIR box_id k → fs' !! k = fs !! k)
    ∧ delete_box DATA_DIR box_id fs' = (fs', Ok (Redirect Ep_index)).
Proof.
  intros HL%layout_ok_spec Ho Hmd.
  destruct (delete_box_layout fs box_id HL Ho Hmd)
    as (fs' & E & HL' & Hg & Hk).
  exists fs'. split; [done|]. split; [by apply layout_ok_spec|].
  do 2 (split; [done|]).
  destruct (delete_box_layout fs' box_id HL' Ho Hmd)
    as (fs'' & E' & _ & Hg' & Hk').
  rewrite E'. f_equal. apply map_eq. intros k.
  destruct (of_box_cases box_id k) as [H|H].
  - by rewrite Hg, Hg'.
  - by apply Hk'.
Qed.

(** X21.  An id that was freed by deleting its box is handed out again:
    after the box [box-k] is deleted, for [k] below the number the next
    new box would have got, the next new box is [box-k]. *)
Theorem deleted_id_is_reused fs n k :
  layout_ok DATA_DIR fs = true →
  eval (new_box DATA_DIR) fs = Ok (Redirect (Ep_edit_box (box_name n))) →
  1 ≤ k < n →
  eval (delete_box DATA_DIR (box_name k) >> new_box DATA_DIR) fs
  = Ok (Redirect (Ep_edit_box (box_name k))).
Proof.
  intros HL%layout_ok_spec Hnew Hk.
  assert (ordinary_id (box_name k) = true) as Ho.
  { apply ordinary_id_spec. split; [apply box_name_segment|]. by split. }
  destruct (generate_box_id_least fs) as (n' & En & _ & _ & Hbelow).
  assert (n' = n) as ->.
  { apply box_name_inj. unfold eval, new_box in Hnew.
    rewrite (bind_run _ _ _ _ _ En) in Hnew.
    unfold ret in Hnew. cbn [snd] in Hnew. congruence. }
  assert (fs_name (box_name k +:+ ".md") = true) as Hmd.
  { destruct (Hbelow k Hk) as (_ & _ & [v Hv]). rewrite box_loc_snoc in Hv.
    by apply (layout_record_name _ _ HL _ v). }
  destruct (delete_box_layout fs (box_name k) HL Ho Hmd)
    as (fs' & E & HL' & Hgone & Hkeep).
  unfold eval. rewrite (bind_run _ _ _ _ _ E).
  destruct (generate_box_id_least fs') as (m & Em & Hm1 & Hfree & Hused).
  unfold new_box. rewrite (bind_run _ _ _ _ _ Em).
  enough (m = k) as -> by done.
  pose proof HL' as [HD' HB' _ _ _ _ _ _ _].
  assert (fs' !! box_loc (box_name k) = None) as Hk' by (apply Hgone; by left).
  destruct (decide (m = k)) as [->|Hne]; [done|]. exfalso.
  destruct (decide (m < k)) as [Hlt|Hge].
  - apply Hfree. split; [done|]. split; [done|].
    assert (fs' !! box_loc (box_name m) = fs !! box_loc (box_name m)) as Hsame.
    { apply Hkeep. intros [H|[H|[x H]]].
      - apply box_loc_inj, box_name_inj in H. lia.
      - by apply box_loc_ne_photos_loc in H.
      - by apply box_loc_ne_photo in H. }
    rewrite Hsame. by destruct (Hbelow m ltac:(lia)) as (_ & _ & ?).
  - destruct (Hused k ltac:(lia)) as (_ & _ & [v Hv]). congruence.
Qed.

(** *** What every handler keeps *)

(** X22.  The layout of the store is an invariant of the handlers that
    write, for a box id that is an ordinary name: whatever the request
    carries, and whether the handler returns or fails, a laid-out store
    is laid out afterwards. *)
Theorem handlers_keep_layout fs box_id :
  layout_ok DATA_DIR fs = true → ordinary_id box_id = true →
  (∀ host_url now,
     layout_ok DATA_DIR
       (exec (view_box DATA_DIR qrcode_png b64encode box_id host_url now) fs)
     = true)
  ∧ (∀ m form now,
       layout_ok DATA_DIR (exec (edit_box DATA_DIR box_id m form now) fs)
       = true)
  ∧ (∀ photo now clock,
       layout_ok DATA_DIR
         (exec (upload_photo DATA_DIR box_id photo now clock) fs) = true)
  ∧ (∀ f, layout_ok DATA_DIR
            (exec (delete_photo DATA_DIR nfkd_ascii box_id f) fs) = true)
  ∧ layout_ok DATA_DIR (exec (delete_box DATA_DIR box_id) fs) = true.
Proof.
  intros HL0 Ho. pose proof HL0 as HL%layout_ok_spec.
  pose proof HL as [HD HB HP Hrec Hdir Hph Hrn Hdn Hpn].
  apply ordinary_id_spec in Ho as Ho'. destruct Ho' as (Hr & _ & _).
  destruct (fs_name (box_id +:+ ".md")) eqn:Hmd.
  - split; [|split; [|split; [|split]]].
    + intros host_url now. apply layout_ok_spec.
      destruct (view_box_run fs box_id host_url now HL Ho Hmd)
        as (HL' & l & _ & E).
      unfold exec. by rewrite E.
    + intros [|] form now.
      * unfold exec, edit_box.
        rewrite read_only_bind; [done| |intros; apply read_only_ret].
        apply get_box_content_read_only.
      * apply layout_ok_spec. unfold exec, edit_box.
        erewrite bind_run; [|apply save_box_content_ok; try done].
        -- by apply Layout_save.
        -- intros Ev. by destruct (Layout_box_loc _ _ _ HL Ev) as (? & ? & ?).
    + intros photo now clock. apply layout_ok_spec.
      by apply upload_frame.
    + intros f. destruct (delete_photo_exec fs box_id f HL Ho) as [->| ->];
        [done|].
      apply layout_ok_spec. apply delete_photo_layout; [done|].
      exists box_id, (secure_filename nfkd_ascii f). apply photo_key.
    + apply layout_ok_spec.
      destruct (delete_box_layout fs box_id HL Ho Hmd) as (fs' & E & HL' & _).
      unfold exec. by rewrite E.
  - split; [|split; [|split; [|split]]].
    + intros host_url now. unfold exec.
      by rewrite view_box_refused.
    + intros [|] form now.
      * unfold exec, edit_box.
        rewrite read_only_bind; [done| |intros; apply read_only_ret].
        apply get_box_content_read_only.
      * unfold exec. by rewrite edit_box_refused.
    + intros photo now clock. apply layout_ok_spec.
      by apply upload_frame.
    + intros f. destruct (delete_photo_exec fs box_id f HL Ho) as [->| ->];
        [done|].
      apply layout_ok_spec. apply delete_photo_layout; [done|].
      exists box_id, (secure_filename nfkd_ascii f). apply photo_key.
    + unfold exec. by rewrite delete_box_refused.
Qed.

(** X23.  For a box id that is an ordinary name no path of a handler
    leaves its directory: the record path resolves to the file
    [<id>.md] right under [boxes], and a photo path, whatever the file
    name of the request, to the photo directory of the box or to an
    entry right under it, named as [secure_filename] names it. *)
Theorem ordinary_paths_confined fs box_id :
  ordinary_id box_id = true →
  (∀ l, locate fs (box_file DATA_DIR box_id) = Ok l → l = box_loc box_id)
  ∧ (∀ f l, locate fs (photo_path DATA_DIR nfkd_ascii box_id f) = Ok l →
       let nm := secure_filename nfkd_ascii f in
       l = photos_loc box_id
       ∨ l = photos_loc box_id ++ [nm]
           ∧ mem_char "/"%char nm = false ∧ nm ≠ ".." ∧ nm ≠ ".").
Proof.
  intros Ho. apply ordinary_id_spec in Ho as Ho'. destruct Ho' as (Hr & _ & _).
  split.
  - intros l E. rewrite box_loc_snoc. by apply (box_file_confined fs).
  - intros f l E nm.
    destruct (photo_path_under_box_dir fs box_id f l E) as (d & Hd & Hl).
    apply locate_photos_dir_inv in Hd as (-> & _); [|done].
    destruct Hl as [->| ->]; [by left|right].
    split; [done|].
    destruct (secure_filename_segment f) as (? & ? & ?). done.
Qed.

(** *** Names the file system refuses *)

(** X25.  A box id whose record name [<id>.md] the file system refuses
    cannot get a record: viewing the box and submitting its edit form
    fail, with [ValueError] when the id holds a NUL character and with
    the error of a name that is too long otherwise, and create nothing.
    Deleting such a box changes nothing either; it redirects to the
    index when the id holds a NUL character and fails otherwise. *)
Theorem refused_record_name fs box_id host_url form now :
  ordinary_id box_id = true → fs_name (box_id +:+ ".md") = false →
  fs !! DATA_DIR = Some Dir → fs !! BOXES = Some Dir →
  fs !! PHOTOS = Some Dir →
  let e := if mem_char NUL box_id then ValueError else NameTooLong in
  view_box DATA_DIR qrcode_png b64encode box_id host_url now fs
  = (fs, Raise e)
  ∧ edit_box DATA_DIR box_id POST form now fs = (fs, Raise e)
  ∧ delete_box DATA_DIR box_id fs
    = (fs, if mem_char NUL box_id then Ok (Redirect Ep_index)
           else Raise NameTooLong)
  ∧ (mem_char NUL box_id = false →
     NAME_MAX < fsencode_length box_id + 3).
Proof.
  intros Ho Hn HD HB HP e. unfold e. fold (has_nul box_id).
  split; [by apply view_box_refused|].
  split; [by apply edit_box_refused|].
  split; [by apply delete_box_refused|].
  intros Hnul. destruct (record_name_refused _ Hn) as [_ Hlong].
  specialize (Hlong Hnul). unfold too_long in Hlong.
  apply Nat.ltb_lt in Hlong. by rewrite fsencode_length_app in Hlong.
Qed.

(** X26.  An accepted upload to a box whose id the file system refuses
    as a name fails at the creation of the photo directory, with
    [ValueError] when the id holds a NUL character and with the error
    of a name that is too long otherwise, and stores nothing. *)
Theorem upload_refused_box_id fs box_id file now clock e :
  layout_ok DATA_DIR fs = true → ordinary_id box_id = true →
  fs_name box_id = false →
  extension (filename file) = Some e → lower e ∈ ALLOWED_EXTENSIONS →
  upload_photo DATA_DIR box_id (Some file) now clock fs
  = (fs, Raise (if mem_char NUL box_id then ValueError else NameTooLong)).
Proof.
  intros HL%layout_ok_spec Ho Hn Hext He.
  rewrite (upload_accepted_run _ _ _ _ _ e) by done.
  unfold fs_name in Hn. fold (has_nul box_id).
  destruct (has_nul box_id); [done|]. by destruct (too_long box_id).
Qed.

(** *** The title of a new box *)

Lemma rstrip_by_app_r p (s t : string) :
  rstrip_by p t ≠ "" → rstrip_by p (s +:+ t) = s +:+ rstrip_by p t.
Proof.
  intros Ht. induction s as [|a s IH]; [done|].
  rewrite !str_app_cons. cbn [rstrip_by]. rewrite IH.
  destruct (s +:+ rstrip_by p t) eqn:E; [|done].
  by apply str_app_eq_nil in E as [_ ?].
Qed.

Lemma rstrip_by_none p (s : string) :
  forall_chars (λ c, negb (p c)) s = true → rstrip_by p s = s.
Proof.
  induction s as [|c s IH]; [done|]. cbn [forall_chars rstrip_by].
  intros [Hc Hs]%andb_true_iff. rewrite (IH Hs).
  apply negb_true_iff in Hc. rewrite Hc. by destruct s.
Qed.

Lemma lstrip_by_none p (s : string) :
  forall_chars (λ c, negb (p c)) s = true → lstrip_by p s = s.
Proof.
  destruct s as [|c s]; [done|]. cbn [forall_chars lstrip_by].
  intros [Hc _]%andb_true_iff. apply negb_true_iff in Hc. by rewrite Hc.
Qed.

Lemma lstrip_by_keep p c (r : string) :
  p c = false → lstrip_by p (String c r) = String c r.
Proof. intros H. cbn [lstrip_by]. by rewrite H. Qed.

Lemma split_app_sep sep (s r : string) :
  mem_char sep s = false → split sep (s +:+ String sep r) = s :: split sep r.
Proof.
  induction s as [|c s IH]; intros Hs.
  - change ("" +:+ String sep r) with (String sep r). cbn [split].
    by rewrite Ascii.eqb_refl.
  - rewrite str_app_cons. cbn [split]. cbn [mem_char] in Hs.
    destruct (Ascii.eqb_spec sep c) as [->|Hne]; [done|].
    destruct (Ascii.eqb_spec c sep) as [->|_]; [done|].
    by rewrite (IH Hs).
Qed.

(** The title derived from the template of a box is the id of the box,
    for an id without white space and [#]. *)
Lemma title_of_template box_id :
  forall_chars plain_char box_id = true →
  universal_newlines (template box_id) = template box_id
  ∧ title_of (template box_id) = box_id.
Proof.
  intros Hp.
  assert (forall_chars (λ c, negb (isspace c)) box_id = true) as Hsp.
  { apply (forall_chars_weaken plain_char); [|done].
    intros c. unfold plain_char. by intros [? _]%andb_true_iff. }
  assert (forall_chars (λ c, negb (mem_char c "# ")) box_id = true) as Hhash.
  { apply (forall_chars_weaken plain_char); [|done].
    intros [[] [] [] [] [] [] [] []]; by vm_compute. }
  assert (mem_char LF box_id = false ∧ mem_char CR box_id = false) as [Hlf Hcr].
  { split; apply (forall_chars_not_mem (λ c, negb (isspace c))); done. }
  split; [by apply universal_newlines_id, template_no_cr|].
  unfold title_of, strip, strip_by.
  assert (∃ r, rstrip_by isspace (template box_id)
               = ("# " +:+ box_id) +:+ String LF r) as [r ->].
  { unfold template. rewrite <- (str_app_assoc "# " box_id).
    eexists. rewrite rstrip_by_app_r by (by cbv).
    f_equal. }
  change (("# " +:+ box_id) +:+ String LF r)
    with (String "#" (String " " (box_id +:+ String LF r))) at 1.
  rewrite lstrip_by_keep by done.
  change (String "#" (String " " (box_id +:+ String LF r)))
    with (("# " +:+ box_id) +:+ String LF r).
  rewrite split_app_sep by (rewrite mem_char_app, Hlf; done).
  cbn [head default]. unfold Datatypes.id, lstrip.
  replace (lstrip_by (λ c, mem_char c "# ") ("# " +:+ box_id))
    with (lstrip_by (λ c, mem_char c "# ") box_id) by reflexivity.
  rewrite (lstrip_by_none _ _ Hhash).
  by rewrite (rstrip_by_none _ _ Hsp), (lstrip_by_none _ _ Hsp).
Qed.

(** X24.  For a box id whose record name [<id>.md] the file system
    accepts: a box that [view_box] has just created is on the index
    under its id: its title there is the id, for an id without white
    space and [#], and its time the time of the request.  This holds
    also when the request failed on the QR code. *)
Theorem viewed_box_is_listed fs box_id host_url now :
  layout_ok DATA_DIR fs = true → ordinary_id box_id = true →
  fs_name (box_id +:+ ".md") = true →
  forall_chars plain_char box_id = true →
  fs !! box_loc box_id = None →
  ∃ boxes,
    eval (index DATA_DIR)
      (exec (view_box DATA_DIR qrcode_png b64encode box_id host_url now) fs)
    = Ok (Render_index boxes)
    ∧ mkBox box_id box_id now ∈ boxes.
Proof.
  intros HL%layout_ok_spec Ho Hmd Hp Hnone.
  destruct (view_box_run fs box_id host_url now HL Ho Hmd)
    as (HL' & l & _ & E).
  rewrite Hnone in HL', E.
  destruct (get_all_boxes_spec _ HL') as (boxes & Eb & _ & _ & Hm).
  exists boxes. unfold exec. rewrite E. cbn [fst].
  unfold eval, index. rewrite (bind_run _ _ _ _ _ Eb). split; [done|].
  apply Hm. exists (template box_id), now. cbn [id title modified].
  destruct (title_of_template box_id Hp) as [-> ->].
  split; [apply lookup_insert_eq|done].
Qed.

End AppFacts.

(** ** The claims on concrete stores *)

Import PyFacts.

Example startup_store :
  map_to_list (exec (startup data_dir) {[ [] := Dir; ["data"] := Dir ]})
  = map_to_list store0.
Proof. vm_compute. reflexivity. Qed.

Example box_name_1 : box_name 1 = "box-001" ∧ box_name 1000 = "box-1000".
Proof. by vm_compute. Qed.

Lemma write_then_read_witness :
  (save_box_content data_dir "box-001" crlf_text 1
   >> get_box_content data_dir "box-001") store0
  = (<[["data"; "boxes"; "box-001.md"] := File crlf_text 1]> store0,
     Ok (Some ("one" +:+ String LF "two" +:+ String LF "three")))
  ∧ mem_char CR ("one" +:+ String LF "two" +:+ String LF "three") = false
  ∧ (mem_char CR crlf_text = false → read_as_text crlf_text = crlf_text).
Proof.
  apply (write_then_read data_dir store0 "box-001" crlf_text 1);
    vm_compute; congruence.
Defined.

(** C2, as stated, fails: a content that is one carriage return is read
    back as one line feed. *)
Lemma write_then_read_cr_counterexample :
  eval (save_box_content data_dir "box-001" (String CR "") 1
        >> get_box_content data_dir "box-001") store0
  ≠ Ok (Some (String CR "")).
Proof. vm_compute. congruence. Qed.

Lemma view_creates_box_witness :
  let fs' := exec (view_box data_dir qr_stub b64_stub "box-001" "http://host/" 1)
               store0 in
  fs' = <[["data"; "boxes"; "box-001.md"] := File (template "box-001") 1]> store0
  ∧ startswith ("# " +:+ "box-001") (template "box-001") = true
  ∧ contains "## Contents" (template "box-001") = true
  ∧ contains "## Location" (template "box-001") = true
  ∧ contains "## Notes" (template "box-001") = true
  ∧ get_box_content data_dir "box-001" fs'
    = (fs', Ok (Some (read_as_text (template "box-001"))))
  ∧ (mem_char CR "box-001" = false →
     read_as_text (template "box-001") = template "box-001").
Proof.
  apply (view_creates_box data_dir qr_stub b64_stub store0 "box-001"
           "http://host/" 1); vm_compute; reflexivity.
Defined.

(** C4, as stated, fails for an id that holds a carriage return, here
    [a<CR>b]: the box is created, and reading it does not return the
    template. *)
Lemma view_creates_box_cr_counterexample :
  let box_id := String "a" (String CR "b") in
  eval (path_exists (box_file data_dir box_id)) store0 = Ok false
  ∧ eval (get_box_content data_dir box_id)
         (exec (view_box data_dir qr_stub b64_stub box_id "http://host/" 1) store0)
    ≠ Ok (Some (template box_id)).
Proof. vm_compute. split; congruence. Qed.

Lemma view_existing_box_unchanged_witness :
  exec (view_box data_dir qr_stub b64_stub "box-001" "http://host/" 5) store1
  = store1.
Proof.
  apply (view_existing_box_unchanged data_dir qr_stub b64_stub store1
           "box-001" "http://host/" 5).
  vm_compute. reflexivity.
Defined.

Lemma upload_rejected_noop_witness :
  let photo := Some (mkUpload "setup.EXE" "MZ") in
  upload_photo data_dir "box-001" photo new_year_10am 3 store1
  = (store1, Ok (Redirect (Ep_view_box "box-001")))
  ∧ get_box_photos data_dir "box-001"
      (exec (upload_photo data_dir "box-001" photo new_year_10am 3) store1)
    = get_box_photos data_dir "box-001" store1
  ∧ "exe" ∉ ALLOWED_EXTENSIONS.
Proof.
  apply (upload_rejected_noop data_dir store1 "box-001"
           (Some (mkUpload "setup.EXE" "MZ")) new_year_10am 3).
  intros file e [= <-] [= <-]. vm_compute. congruence.
Defined.

Lemma upload_stores_timestamp_name_witness :
  timestamp_name march_7th "jpg" "20240307_090542.jpg"
  ∧ upload_photo data_dir "box-001" (Some (mkUpload "photo.JPG" "JFIF"))
      march_7th 3 store0
    = (<[["data"; "photos"; "box-001"; "20240307_090542.jpg"]
         := File "JFIF" 3]>
         (<[["data"; "photos"; "box-001"] := Dir]> store0),
       Ok (Redirect (Ep_view_box "box-001"))).
Proof.
  apply (upload_stores_timestamp_name data_dir store0 "box-001"
           (mkUpload "photo.JPG" "JFIF") march_7th 3 "photo" "JPG"
           ["data"; "photos"; "box-001"]).
  - reflexivity.
  - vm_compute. reflexivity.
  - unfold calendar. cbn. lia.
  - vm_compute. reflexivity.
  - right. split; vm_compute; reflexivity.
  - vm_compute. congruence.
Defined.

Example stored_name_new_year :
  stored_name new_year_10am (lower "jpg") = "20240101_100000.jpg".
Proof. vm_compute. reflexivity. Qed.

(** C8, as stated, fails for an extension that is not in lower case:
    [photo.JPG] is accepted and stored as [20240101_100000.jpg], so the
    extension [JPG] of the uploaded name is not the extension of the
    stored name. *)
Lemma upload_extension_counterexample :
  let fs' := exec (upload_photo data_dir "box-001"
                     (Some (mkUpload "photo.JPG" "JFIF")) new_year_10am 3) store0 in
  allowed_file "photo.JPG" = true
  ∧ children fs' ["data"; "photos"; "box-001"] = ["20240101_100000.jpg"]
  ∧ extension "20240101_100000.jpg" ≠ extension "photo.JPG".
Proof. vm_compute. repeat split; congruence. Qed.

(** C5.  [get_all_boxes] does not fall back to the id for a box whose
    content is empty: [''.split('\n')] is the list of the empty string,
    not the empty list, so the [else box_id] branch of the title is
    never taken.  Submitting an empty content for [box-001] and listing
    the boxes reports the title as the empty string, not as [box-001]. *)
Theorem empty_content_title :
  eval (edit_box data_dir "box-001" POST (Some "") 4 >> get_all_boxes data_dir)
       store0
  = Ok [mkBox "box-001" "" 4]
  ∧ (∀ content box_id,
       title_of_lines (split LF (strip content)) box_id = title_of content)
  ∧ title_of "" = "".
Proof.
  split; [vm_compute; reflexivity|]. split; [|reflexivity].
  apply title_of_lines_split.
Qed.

(** C1.  The box id of a route goes into the path of the photo
    directory as it is, while the file name goes through
    [secure_filename].  With the id [..] the photo directory of the box
    is the data directory, outside the photos directory: serving the
    photo [app.py] of that box returns the file [app.py] of the data
    directory. *)
Theorem box_id_dotdot_escapes :
  route_segment ".." = true
  ∧ locate store2 (PHOTOS_DIR data_dir </> "..") = Ok ["data"]
  ∧ locate store2 (photo_path data_dir ascii_part ".." "app.py")
    = Ok ["data"; "app.py"]
  ∧ ¬ (["data"; "photos"] `prefix_of` ["data"; "app.py"])
  ∧ eval (get_photo data_dir ascii_part ".." "app.py") store2
    = Ok (Send_file "SECRET_KEY").
Proof.
  split; [reflexivity|]. split; [vm_compute; reflexivity|].
  split; [vm_compute; reflexivity|]. split; [|vm_compute; reflexivity].
  intros [k Hk]. simplify_eq.
Qed.

(** C6.  [delete_box] takes the photo directory of the box from the
    unsanitised id.  For the box [..], created by viewing it, that is
    the data directory: the record is removed, then unlinking the
    entries of the data directory raises on the first directory, the
    handler fails, and the photo directory of the box is still there. *)
Theorem delete_box_dotdot_fails :
  let fs := exec (view_box data_dir qr_stub b64_stub ".." "http://host/" 1)
              store0 in
  eval (get_box_content data_dir "..") fs = Ok (Some (template ".."))
  ∧ eval (delete_box data_dir "..") fs = Raise IsADirectoryError
  ∧ eval (path_exists (PHOTOS_DIR data_dir </> ".."))
         (exec (delete_box data_dir "..") fs) = Ok true.
Proof. vm_compute. repeat split; reflexivity. Qed.

(** ** The examples of the specification *)

(** A box with a drill: searching for it finds the box, with the line
    that holds the word as preview. *)
Example search_drill :
  let content := "# box-001" +:+ nl +:+ nl +:+ "## Contents" +:+ nl +:+ nl
                 +:+ "- drill" +:+ nl in
  eval (edit_box data_dir "box-001" POST (Some content) 1
        >> search data_dir (Some "drill")) store0
  = Ok (Render_search "drill" [mkResult "box-001" "box-001" ["- drill"]]).
Proof. vm_compute. reflexivity. Qed.

(** Uploading [photo.jpg] on 2024-01-01 at 10:00:00 and listing the
    photos of the box. *)
Example upload_then_list :
  eval (upload_photo data_dir "box-001" (Some (mkUpload "photo.jpg" "JFIF"))
          new_year_10am 3
        >> get_box_photos data_dir "box-001") store0
  = Ok ["20240101_100000.jpg"].
Proof. vm_compute. reflexivity. Qed.

(** Deleting [box-001] from a store that holds it and one photo of it:
    the start-up store is what is left. *)
Example delete_box_001 :
  eval (delete_box data_dir "box-001") store1 = Ok (Redirect Ep_index)
  ∧ map_to_list (exec (delete_box data_dir "box-001") store1)
    = map_to_list store0
  ∧ eval (delete_box data_dir "box-001") store0 = Ok (Redirect Ep_index).
Proof. vm_compute. repeat split; reflexivity. Qed.

(** A box id of 300 characters: [exists()] raises on the record name,
    so viewing the box fails and creates nothing; the upload fails at
    [mkdir]. *)
Example view_long_id :
  eval (view_box data_dir qr_stub b64_stub (zeros 300) "http://host/" 5) store1
  = Raise NameTooLong
  ∧ map_to_list
      (exec (view_box data_dir qr_stub b64_stub (zeros 300) "http://host/" 5)
         store1)
    = map_to_list store1
  ∧ eval (upload_photo data_dir (zeros 300) (Some (mkUpload "photo.jpg" "JFIF"))
            new_year_10am 3) store1
    = Raise NameTooLong.
Proof. vm_compute. repeat split; reflexivity. Qed.

(** A box id with a NUL character: [exists()] is false, the write of
    the template raises, and nothing is created. *)
Example view_nul_id :
  eval (path_exists (box_file data_dir nul_id)) store1 = Ok false
  ∧ eval (view_box data_dir qr_stub b64_stub nul_id "http://host/" 5) store1
    = Raise ValueError
  ∧ map_to_list
      (exec (view_box data_dir qr_stub b64_stub nul_id "http://host/" 5) store1)
    = map_to_list store1.
Proof. vm_compute. repeat split; reflexivity. Qed.

(** ** Further properties on concrete stores

    The properties of the handlers that carry hypotheses, each applied
    to one of the stores above. *)

Ltac by_computation :=
  first [ lia
        | lazymatch goal with
          | |- calendar _ => unfold calendar; cbn; lia
          end
        | vm_compute;
          first [ reflexivity | congruence
                | left; reflexivity | right; reflexivity ] ].

Lemma startup_creates_directories_witness :
  startup data_dir store_fresh =
  (<[data_dir ++ ["photos"]:=Dir]>
     (<[data_dir ++ ["boxes"]:=Dir]> store_fresh),
   Ok ())
  ∧ (layout_ok data_dir store_fresh = true
     → startup data_dir store_fresh = (store_fresh, Ok ())).
Proof.
  apply (startup_creates_directories data_dir store_fresh);
    by_computation.
Defined.

Lemma startup_needs_data_directory_witness :
  startup data_dir store_bare = (store_bare, Raise FileNotFoundError).
Proof.
  apply (startup_needs_data_directory data_dir store_bare);
    by_computation.
Defined.

Lemma save_leaves_other_boxes_witness :
  eval (get_box_content data_dir "box-001")
    (exec
       (save_box_content data_dir "box-002" "# Paint" 5)
       store1) =
  eval (get_box_content data_dir "box-001") store1.
Proof.
  apply (save_leaves_other_boxes data_dir store1 "box-002" "box-001" "# Paint" 5);
    by_computation.
Defined.

Lemma edit_form_creates_nothing_witness :
  edit_box data_dir "box-002" GET None 5 store1 =
  (store1, Ok (Render_edit "box-002" (template "box-002")))
  ∧ eval
      (edit_box data_dir "box-002" GET None 5 >>
       get_box_content data_dir "box-002")
      store1 =
    Ok None.
Proof.
  apply (edit_form_creates_nothing data_dir store1 "box-002" 5);
    by_computation.
Defined.

Lemma edit_submit_then_form_witness :
  edit_box data_dir "box-001" POST (Some crlf_text) 5 store1 =
  (<[data_dir ++ ["boxes"; "box-001" +:+ ".md"]:=
     File (default "" (Some crlf_text)) 5]> store1,
   Ok (Redirect (Ep_view_box "box-001")))
  ∧ eval
      (edit_box data_dir "box-001" POST (Some crlf_text) 5 >>
       edit_box data_dir "box-001" GET None 6)
      store1 =
    Ok
      (Render_edit "box-001"
         (read_as_text (default "" (Some crlf_text)))).
Proof.
  apply (edit_submit_then_form data_dir store1 "box-001" (Some crlf_text) 5 6);
    by_computation.
Defined.

Lemma new_box_after_save_witness :
  let fs' :=
    exec
      (edit_box data_dir (box_name 2) POST (Some "# Paint") 5)
      store1
    in
  ∃ m : nat,
    2 < m
    ∧ new_box data_dir fs' =
      (fs', Ok (Redirect (Ep_edit_box (box_name m)))).
Proof.
  apply (new_box_after_save data_dir store1 2 (Some "# Paint") 5);
    by_computation.
Defined.

Lemma get_box_photos_sorted_listing_witness :
  ∃ l : list string,
  get_box_photos data_dir "box-001" store1 = (store1, Ok l)
  ∧ StronglySorted String.le l
    ∧ NoDup l
      ∧ (∀ n : string,
           n ∈ l
           ↔ is_Some
               (store1
                !! ((data_dir ++ ["photos"; "box-001"]) ++ [n]))
             ∧ listed n)
        ∧ (store1 !! (data_dir ++ ["photos"; "box-001"]) = None
           → l = [])
          ∧ ∀ fs' : FS,
              layout_ok data_dir fs' = true
              → (∀ n : string,
                   listed n
                   → is_Some
                       (fs'
                        !! ((data_dir ++ ["photos"; "box-001"]) ++
                            [n]))
                     ↔ is_Some
                         (store1
                          !! ((data_dir ++ ["photos"; "box-001"]) ++
                              [n])))
                → eval (get_box_photos data_dir "box-001") fs' =
                  Ok l.
Proof.
  apply (get_box_photos_sorted_listing data_dir store1 "box-001");
    by_computation.
Defined.

Lemma upload_then_listed_witness :
  let fs' :=
    exec
      (upload_photo data_dir "box-001"
         (Some {| filename := "drill.PNG"; data := "PNG" |})
         march_7th 3)
      store1
    in
  layout_ok data_dir fs' = true
  ∧ ∃ l l' : list string,
      eval (get_box_photos data_dir "box-001") store1 = Ok l
      ∧ eval (get_box_photos data_dir "box-001") fs' = Ok l'
        ∧ ∀ n : string,
            n ∈ l'
            ↔ n ∈ l
              ∨ n = stored_name march_7th (lower "PNG").
Proof.
  apply (upload_then_listed data_dir store1 "box-001" (mkUpload "drill.PNG" "PNG") march_7th 3 "PNG");
    by_computation.
Defined.

Lemma upload_leaves_rest_witness :
  let fs' :=
    exec
      (upload_photo data_dir "box-001"
         (Some {| filename := "drill.PNG"; data := "PNG" |})
         new_year_10am 3)
      store1
    in
  (∀ b : string,
     ordinary_id b = true
     → b ≠ "box-001"
       → eval (get_box_photos data_dir b) fs' =
         eval (get_box_photos data_dir b) store1)
  ∧ ∀ b : string,
      route_segment b = true
      → eval (get_box_content data_dir b) fs' =
        eval (get_box_content data_dir b) store1.
Proof.
  apply (upload_leaves_rest data_dir store1 "box-001" (mkUpload "drill.PNG" "PNG") new_year_10am 3 "PNG");
    by_computation.
Defined.

Lemma upload_same_second_overwrites_witness :
  exec
    (upload_photo data_dir "box-001"
       (Some {| filename := "a.jpg"; data := "A" |})
       new_year_10am 3 >>
     upload_photo data_dir "box-001"
       (Some {| filename := "b.JPG"; data := "B" |})
       new_year_10am 4)
    store1 =
  exec
    (upload_photo data_dir "box-001"
       (Some {| filename := "b.JPG"; data := "B" |})
       new_year_10am 4)
    store1.
Proof.
  apply (upload_same_second_overwrites data_dir store1 "box-001" (mkUpload "a.jpg" "A") (mkUpload "b.JPG" "B") new_year_10am 3 4 "jpg" "JPG");
    by_computation.
Defined.

Lemma upload_then_get_photo_witness :
  eval
    (upload_photo data_dir "box-001"
       (Some {| filename := "drill.PNG"; data := "PNG" |})
       march_7th 3 >>
     get_photo data_dir ascii_part "box-001"
       (stored_name march_7th (lower "PNG")))
    store1 =
  Ok
    (Send_file
       (data {| filename := "drill.PNG"; data := "PNG" |})).
Proof.
  apply (upload_then_get_photo data_dir ascii_part store1 "box-001" (mkUpload "drill.PNG" "PNG") march_7th 3 "PNG");
    by_computation.
Defined.

Lemma delete_photo_removes_witness :
  let gone :=
    (data_dir ++ ["photos"; "box-001"]) ++
    [secure_filename ascii_part "20240101_100000.jpg"] in
  let fs' := delete gone store1 in
  delete_photo data_dir ascii_part "box-001"
    "20240101_100000.jpg" store1 =
  (fs', Ok (Redirect (Ep_view_box "box-001")))
  ∧ layout_ok data_dir fs' = true
    ∧ get_photo data_dir ascii_part "box-001"
        "20240101_100000.jpg" fs' =
      (fs', Ok Not_found_404)
      ∧ delete_photo data_dir ascii_part "box-001"
          "20240101_100000.jpg" fs' =
        (fs', Ok (Redirect (Ep_view_box "box-001")))
        ∧ ∃ l l' : list string,
            eval (get_box_photos data_dir "box-001") store1 =
            Ok l
            ∧ eval (get_box_photos data_dir "box-001") fs' =
              Ok l'
              ∧ ∀ n : string,
                  n ∈ l'
                  ↔ n ∈ l
                    ∧ n
                      ≠ secure_filename ascii_part
                          "20240101_100000.jpg".
Proof.
  apply (delete_photo_removes data_dir ascii_part store1 "box-001" "20240101_100000.jpg");
    by_computation.
Defined.

Lemma photo_name_sanitised_away_witness :
  (store1 !! (data_dir ++ ["photos"; "box-001"]) = Some Dir
   → get_photo data_dir ascii_part "box-001" ".." store1 =
     (store1, Raise IsADirectoryError)
     ∧ delete_photo data_dir ascii_part "box-001" ".." store1 =
       (store1, Raise IsADirectoryError))
  ∧ (store1 !! (data_dir ++ ["photos"; "box-001"]) = None
     → get_photo data_dir ascii_part "box-001" ".." store1 =
       (store1, Ok Not_found_404)
       ∧ delete_photo data_dir ascii_part "box-001" ".." store1 =
         (store1, Ok (Redirect (Ep_view_box "box-001")))).
Proof.
  apply (photo_name_sanitised_away data_dir ascii_part store1 "box-001" "..");
    by_computation.
Defined.

Lemma index_lists_every_box_witness :
  ∃ boxes : list box_entry,
  index data_dir store1 = (store1, Ok (Render_index boxes))
  ∧ StronglySorted newer_first boxes
    ∧ NoDup (id <$> boxes)
      ∧ ∀ b : box_entry,
          b ∈ boxes
          ↔ ∃ (c : string) (t : nat),
              store1 !! (data_dir ++ ["boxes"; id b +:+ ".md"]) =
              Some (File c t)
              ∧ title b = title_of (universal_newlines c)
                ∧ modified b = t.
Proof.
  apply (index_lists_every_box data_dir store1);
    by_computation.
Defined.

Lemma saved_box_listed_first_witness :
  ∃ rest : list box_entry,
  eval
    (edit_box data_dir "box-002" POST (Some "# Paint") 5 >>
     index data_dir)
    store1 =
  Ok
    (Render_index
       ({|
          id := "box-002";
          title :=
            title_of
              (read_as_text (default "" (Some "# Paint")));
          modified := 5
        |} :: rest)).
Proof.
  apply (saved_box_listed_first data_dir store1 "box-002" (Some "# Paint") 5);
    by_computation.
Defined.

Lemma search_finds_matching_boxes_witness :
  ∃ results : list search_result,
  search data_dir (Some "TOOLS") store1 =
  (store1, Ok (Render_search (lower "TOOLS") results))
  ∧ NoDup (result_id <$> results)
    ∧ (∀ (box_id c : string) (t : nat),
         store1 !! (data_dir ++ ["boxes"; box_id +:+ ".md"]) =
         Some (File c t)
         → (∃ r : search_result,
              r ∈ results ∧ result_id r = box_id)
           ↔ contains (lower "TOOLS")
               (lower (universal_newlines c)) =
             true)
      ∧ ∀ r : search_result,
          r ∈ results
          → ∃ (c : string) (t : nat),
              store1
              !! (data_dir ++ ["boxes"; result_id r +:+ ".md"]) =
              Some (File c t)
              ∧ result_title r = title_of (universal_newlines c)
                ∧ length (preview r) ≤ 3
                  ∧ ∀ p : string,
                      p ∈ preview r
                      → ∃ l : string,
                          l
                          ∈ split LF
                              (strip (universal_newlines c))
                          ∧ contains (lower "TOOLS") (lower l) =
                            true ∧ p = strip l.
Proof.
  apply (search_finds_matching_boxes data_dir store1 "TOOLS");
    by_computation.
Defined.

Lemma saved_box_is_found_witness :
  ∃ results : list search_result,
  eval
    (save_box_content data_dir "box-002" "# Paint" 5 >>
     search data_dir (Some "PAIN"))
    store1 =
  Ok (Render_search (lower "PAIN") results)
  ∧ {|
      result_id := "box-002";
      result_title := title_of (read_as_text "# Paint");
      preview :=
        preview_of (lower "PAIN") (read_as_text "# Paint")
    |} ∈ results.
Proof.
  apply (saved_box_is_found data_dir store1 "box-002" "# Paint" 5 "PAIN");
    by_computation.
Defined.

Lemma view_box_qr_failure_keeps_record_witness :
  let fs' :=
    <[data_dir ++ ["boxes"; "box-002" +:+ ".md"]:=
      File (template "box-002") 5]> store1
    in
  view_box data_dir qr_limited b64_stub "box-002" long_host 5
    store1 =
  (fs', Raise DataOverflowError)
  ∧ eval (get_box_content data_dir "box-002") fs' =
    Ok (Some (read_as_text (template "box-002"))).
Proof.
  apply (view_box_qr_failure_keeps_record data_dir qr_limited b64_stub store1 "box-002" long_host 5);
    by_computation.
Defined.

Lemma delete_box_ordinary_witness :
  ∃ fs' : FS,
  delete_box data_dir "box-001" store1 =
  (fs', Ok (Redirect Ep_index))
  ∧ layout_ok data_dir fs' = true
    ∧ (∀ k : list string,
         of_box data_dir "box-001" k → fs' !! k = None)
      ∧ (∀ k : list string,
           ¬ of_box data_dir "box-001" k
           → fs' !! k = store1 !! k)
        ∧ delete_box data_dir "box-001" fs' =
          (fs', Ok (Redirect Ep_index)).
Proof.
  apply (delete_box_ordinary data_dir store1 "box-001");
    by_computation.
Defined.

Lemma deleted_id_is_reused_witness :
  eval (delete_box data_dir (box_name 1) >>
        new_box data_dir)
    store3 =
  Ok (Redirect (Ep_edit_box (box_name 1))).
Proof.
  apply (deleted_id_is_reused data_dir store3 3 1);
    by_computation.
Defined.

Lemma handlers_keep_layout_witness :
  (∀ (host_url : string) (now : nat),
     layout_ok data_dir
       (exec
          (view_box data_dir qr_stub b64_stub "box-001" host_url now)
          store1) =
     true)
  ∧ (∀ (m : method) (form : option string) (now : nat),
       layout_ok data_dir
         (exec (edit_box data_dir "box-001" m form now) store1) =
       true)
    ∧ (∀ (photo : option upload) (now : datetime) (clock : nat),
         layout_ok data_dir
           (exec (upload_photo data_dir "box-001" photo now clock)
              store1) =
         true)
      ∧ (∀ f : string,
           layout_ok data_dir
             (exec (delete_photo data_dir ascii_part "box-001" f)
                store1) =
           true)
        ∧ layout_ok data_dir
            (exec (delete_box data_dir "box-001") store1) =
          true.
Proof.
  apply (handlers_keep_layout data_dir qr_stub b64_stub ascii_part store1 "box-001");
    by_computation.
Defined.

Lemma ordinary_paths_confined_witness :
  (∀ l : list string,
     locate store2 (box_file data_dir "box-001") = Ok l
     → l = data_dir ++ ["boxes"; "box-001" +:+ ".md"])
  ∧ ∀ (f : string) (l : list string),
      locate store2 (photo_path data_dir ascii_part "box-001" f) =
      Ok l
      → let nm := secure_filename ascii_part f in
        l = data_dir ++ ["photos"; "box-001"]
        ∨ l = (data_dir ++ ["photos"; "box-001"]) ++ [nm]
          ∧ mem_char "/"%char nm = false ∧ nm ≠ ".." ∧ nm ≠ ".".
Proof.
  apply (ordinary_paths_confined data_dir ascii_part store2 "box-001");
    by_computation.
Defined.

Lemma viewed_box_is_listed_witness :
  ∃ boxes : list box_entry,
  eval (index data_dir)
    (exec
       (view_box data_dir qr_stub b64_stub "box-002"
          "http://host/" 5)
       store1) =
  Ok (Render_index boxes)
  ∧ {| id := "box-002"; title := "box-002"; modified := 5 |}
    ∈ boxes.
Proof.
  apply (viewed_box_is_listed data_dir qr_stub b64_stub store1 "box-002" "http://host/" 5);
    by_computation.
Defined.

Lemma refused_record_name_witness :
  let e :=
    if mem_char NUL nul_id then ValueError else NameTooLong in
  view_box data_dir qr_stub b64_stub nul_id "http://host/" 5
    store1 =
  (store1, Raise e)
  ∧ edit_box data_dir nul_id POST (Some "# Paint") 5 store1 =
    (store1, Raise e)
    ∧ delete_box data_dir nul_id store1 =
      (store1,
       if mem_char NUL nul_id
       then Ok (Redirect Ep_index)
       else Raise NameTooLong)
      ∧ (mem_char NUL nul_id = false
         → NAME_MAX < fsencode_length nul_id + 3).
Proof.
  apply (refused_record_name data_dir qr_stub b64_stub store1 nul_id "http://host/" (Some "# Paint") 5);
    by_computation.
Defined.

Lemma upload_refused_box_id_witness :
  upload_photo data_dir nul_id
    (Some {| filename := "drill.PNG"; data := "PNG" |})
    new_year_10am 3 store1 =
  (store1,
   Raise
     (if mem_char NUL nul_id then ValueError else NameTooLong)).
Proof.
  apply (upload_refused_box_id data_dir store1 nul_id (mkUpload "drill.PNG" "PNG") new_year_10am 3 "PNG");
    by_computation.
Defined.
